(** * irlib.survey: the [Survey] class over an HDF5 store

    A shallow embedding of [src/irlib/survey.py].  The HDF5 file is a tree of
    named groups and one-dimensional datasets, the file system is a finite map
    from paths to entries, and every method of [Survey] is a function in a
    state-and-exception monad over that file system.  Python exceptions are
    values of [py_exn]; a bare [return] is the value [None].

    Samples are integers (digitiser counts).  The array that [ExtractLine]
    fills is a [float64] array: every sample is converted when it is stored.
    Messages written to [sys.stderr] and [print] output are not modelled. *)

From Stdlib Require Import ZArith List Ascii String Lia Sorted Permutation.
From stdpp Require Import base gmap strings list.

Local Open Scope string_scope.

(** ** Python outcomes *)

Inductive py_exn : Type :=
| IOError | TypeError | ValueError | IndexError | KeyError
| AttributeError | ParseError | EmptyLineError | Exception.

Inductive outcome (A : Type) : Type :=
| Return (a : A)
| Raise (e : py_exn).
Arguments Return {A} a.
Arguments Raise {A} e.

Definition obind {A B} (o : outcome A) (k : A -> outcome B) : outcome B :=
  match o with
  | Return a => k a
  | Raise e => Raise e
  end.

#[export] Instance outcome_ret : MRet outcome := @Return.
#[export] Instance outcome_bind : MBind outcome := fun A B k o => obind o k.

(** [[g(x) for x in l]] where [g] may raise: the first exception wins. *)
Fixpoint omap {A B} (g : A -> outcome B) (l : list A) : outcome (list B) :=
  match l with
  | [] => Return []
  | x :: l' => y ← g x; ys ← omap g l'; Return (y :: ys)
  end.

(** ** Python string primitives used by [survey.py] *)

Module PyStr.

(** [s.split(sep)] for a one-character separator. *)
Fixpoint split (sep : ascii) (s : string) : list string :=
  match s with
  | EmptyString => [EmptyString]
  | String c s' =>
      if Ascii.eqb c sep then EmptyString :: split sep s'
      else match split sep s' with
           | [] => [String c EmptyString]
           | h :: t => String c h :: t
           end
  end.

(** [sep.join(l)] *)
Fixpoint join (sep : ascii) (l : list string) : string :=
  match l with
  | [] => EmptyString
  | [x] => x
  | x :: l' => x ++ String sep (join sep l')
  end.

(** [s.rsplit(sep, 1)]: at most one split, at the last separator. *)
Definition rsplit1 (sep : ascii) (s : string) : list string :=
  match rev (split sep s) with
  | [] => [s]
  | [x] => [x]
  | last :: before => [join sep (rev before); last]
  end.

(** [pat in s] *)
Fixpoint contains (pat s : string) : bool :=
  String.prefix pat s ||
  match s with
  | EmptyString => false
  | String _ s' => contains pat s'
  end.

(** [s[1:]] *)
Definition tail (s : string) : string :=
  match s with
  | EmptyString => EmptyString
  | String _ s' => s'
  end.

(** [l[i]] on a list, negative indices counting from the end. *)
Definition index {A} (l : list A) (i : Z) : outcome A :=
  let n := Z.of_nat (length l) in
  let j := if Z.ltb i 0 then Z.add i n else i in
  if Z.ltb j 0 then Raise IndexError
  else match nth_error l (Z.to_nat j) with
       | Some x => Return x
       | None => Raise IndexError
       end.

(** [str(z)] for an int. *)
Fixpoint digits_of_pos_fuel (fuel : nat) (z : Z) (acc : string) : string :=
  match fuel with
  | O => acc
  | S fuel' =>
      let d := ascii_of_nat (48 + Z.to_nat (Z.modulo z 10)) in
      let q := Z.div z 10 in
      if Z.eqb q 0 then String d acc
      else digits_of_pos_fuel fuel' q (String d acc)
  end.

Definition str (z : Z) : string :=
  if Z.ltb z 0
  then String "-" (digits_of_pos_fuel (S (Z.to_nat (Z.log2 (Z.opp z)))) (Z.opp z) EmptyString)
  else digits_of_pos_fuel (S (Z.to_nat (Z.log2 z))) z EmptyString.

(** [s.rjust(w, fill)] *)
Fixpoint fillstr (n : nat) (fill : ascii) : string :=
  match n with
  | O => EmptyString
  | S n' => String fill (fillstr n' fill)
  end.

Definition rjust (w : nat) (fill : ascii) (s : string) : string :=
  fillstr (w - String.length s) fill ++ s.

(** [int(s)]: surrounding ASCII white space is stripped, then an optional
    sign and a non-empty run of decimal digits; anything else is a
    [ValueError].  (Every argument [survey.py] passes to [int] comes out of a
    split on the underscore, so digit-group underscores never reach it.) *)
Definition is_space (c : ascii) : bool :=
  let n := nat_of_ascii c in
  Nat.eqb n 32 || (Nat.leb 9 n && Nat.leb n 13) || (Nat.leb 28 n && Nat.leb n 31).

Fixpoint lstrip (s : string) : string :=
  match s with
  | EmptyString => EmptyString
  | String c s' => if is_space c then lstrip s' else s
  end.

Fixpoint rstrip (s : string) : string :=
  match s with
  | EmptyString => EmptyString
  | String c s' =>
      match rstrip s' with
      | EmptyString => if is_space c then EmptyString else String c EmptyString
      | r => String c r
      end
  end.

Definition digit_val (c : ascii) : option Z :=
  let n := nat_of_ascii c in
  if Nat.leb 48 n && Nat.leb n 57 then Some (Z.of_nat (n - 48)) else None.

Fixpoint digits_val (acc : Z) (s : string) : option Z :=
  match s with
  | EmptyString => Some acc
  | String c s' =>
      match digit_val c with
      | Some d => digits_val (Z.add (Z.mul 10 acc) d) s'
      | None => None
      end
  end.

Definition unsigned_val (s : string) : option Z :=
  match s with
  | EmptyString => None
  | _ => digits_val 0 s
  end.

Definition int (s : string) : outcome Z :=
  let t := rstrip (lstrip s) in
  let r :=
    match t with
    | String "-" u => option_map Z.opp (unsigned_val u)
    | String "+" u => unsigned_val u
    | _ => unsigned_val t
    end in
  match r with
  | Some z => Return z
  | None => Raise ValueError
  end.

End PyStr.

(** ** The HDF5 store *)

(** A leaf holds a one-dimensional sample vector.  [Unreadable n e] is a
    dataset whose header gives [n] samples but whose data cannot be read:
    [ds[:]] raises [e]. *)
Inductive dsdata : Type :=
| Samples (l : list Z)
| Unreadable (n : nat) (e : py_exn).

(** Members of a group are kept in the order in which h5py iterates them. *)
#[local] Set Warnings "-register-all".
Inductive h5obj : Type :=
| Dataset (d : dsdata)
| Group (members : list (string * h5obj)).

Definition h5group : Type := list (string * h5obj).

Definition is_dataset (o : h5obj) : bool :=
  match o with Dataset _ => true | Group _ => false end.

Definition is_group (o : h5obj) : bool :=
  match o with Dataset _ => false | Group _ => true end.

(** [list(g)], [g.keys()], [for name in g] *)
Definition h5keys (g : h5group) : list string := map fst g.

(** [g[name]] for a one-component name. *)
Fixpoint h5get (g : h5group) (name : string) : outcome h5obj :=
  match g with
  | [] => Raise KeyError
  | (n, o) :: g' => if String.eqb n name then Return o else h5get g' name
  end.

(** [len(o)]: members of a group, first-axis length of a dataset. *)
Definition h5len (o : h5obj) : nat :=
  match o with
  | Group ms => length ms
  | Dataset (Samples l) => length l
  | Dataset (Unreadable n _) => n
  end.

(** [o.keys()] *)
Definition h5members (o : h5obj) : outcome h5group :=
  match o with
  | Group ms => Return ms
  | Dataset _ => Raise AttributeError
  end.

(** [ds.shape[0]] *)
Definition shape0 (o : h5obj) : outcome nat :=
  match o with
  | Dataset (Samples l) => Return (length l)
  | Dataset (Unreadable n _) => Return n
  | Group _ => Raise AttributeError
  end.

(** [ds[:]] *)
Definition read_all (o : h5obj) : outcome (list Z) :=
  match o with
  | Dataset (Samples l) => Return l
  | Dataset (Unreadable _ e) => Raise e
  | Group _ => Raise TypeError
  end.

(** [g.visit(names.append)]: every object below [g], parents before
    children, under its name relative to [g].  Each name is paired with the
    object that [g[name]] resolves to. *)
Fixpoint visit_obj (name : string) (o : h5obj) {struct o} : list (string * h5obj) :=
  (name, o) ::
  match o with
  | Dataset _ => []
  | Group ms => flat_map (fun m => visit_obj (name ++ "/" ++ fst m) (snd m)) ms
  end.

Definition h5visit (g : h5group) : list (string * h5obj) :=
  flat_map (fun m => visit_obj (fst m) (snd m)) g.

(** ** The file system and the I/O monad *)

Inductive fs_entry : Type :=
| H5File (root : h5group)
| OtherFile
| Directory.

(** [w_opened] logs every path handed to [h5py.File], oldest first. *)
Record world : Type := {
  w_fs : gmap string fs_entry;
  w_opened : list string
}.

Definition M (A : Type) : Type := world -> world * outcome A.

Definition ret {A} (a : A) : M A := fun w => (w, Return a).
Definition raise {A} (e : py_exn) : M A := fun w => (w, Raise e).
Definition bind {A B} (m : M A) (k : A -> M B) : M B :=
  fun w => match m w with
           | (w', Return a) => k a w'
           | (w', Raise e) => (w', Raise e)
           end.
Definition lift {A} (o : outcome A) : M A := fun w => (w, o).

#[export] Instance M_ret : MRet M := @ret.
#[export] Instance M_bind : MBind M := fun A B k m => bind m k.

(** [os.path.isfile], [os.path.exists] *)
Definition isfile (p : string) (w : world) : bool :=
  match w_fs w !! p with
  | Some (H5File _) | Some OtherFile => true
  | _ => false
  end.

Definition path_exists (p : string) (w : world) : bool :=
  match w_fs w !! p with
  | Some _ => true
  | None => false
  end.

(** [h5py.File(p, "r")], also [h5py.File(p)] on an existing file. *)
Definition h5open (p : string) : M h5group :=
  fun w =>
    let w' := {| w_fs := w_fs w; w_opened := (w_opened w ++ [p])%list |} in
    match w_fs w !! p with
    | Some (H5File root) => (w', Return root)
    | _ => (w', Raise IOError)
    end.

(** [h5py.File(p, "w")]: create the file, truncating an existing one. *)
Definition h5create (p : string) : M unit :=
  fun w =>
    match w_fs w !! p with
    | Some Directory =>
        ({| w_fs := w_fs w; w_opened := (w_opened w ++ [p])%list |}, Raise IOError)
    | _ =>
        ({| w_fs := <[p := H5File []]> (w_fs w); w_opened := (w_opened w ++ [p])%list |},
         Return tt)
    end.

(** Contents of an open output file reach the disk when its [with] block is
    left, normally or by an exception. *)
Definition h5flush (p : string) (root : h5group) (w : world) : world :=
  {| w_fs := <[p := H5File root]> (w_fs w); w_opened := w_opened w |}.

(** ** The retention map *)

Module RetentionMap.

(** [irlib/autovivification.py], the class [AutoVivification] behind
    [self.retain], is not among the sources.  The map is a finite map from
    line names to finite maps from location names to booleans. *)

(** Modelled from the spec: [AutoVivification] is missing; [view(line)] is
    the sub-mapping of one line, [self.retain[line]]. *)
Definition view (r : gmap string (gmap string bool)) (line : string) : gmap string bool :=
  default ∅ (r !! line).

(** Modelled from the spec: [AutoVivification] is missing;
    [set(line, location, value)] overwrites,
    [self.retain[line][location] = value]. *)
Definition set (r : gmap string (gmap string bool)) (line location : string) (v : bool)
  : gmap string (gmap string bool) :=
  <[line := <[location := v]> (view r line)]> r.

(** Modelled from the spec: [AutoVivification] is missing;
    [get(line, location)] returns [true] for a pair never set and inserts the
    pair with that value, [self.retain[line][location]]. *)
Definition get (r : gmap string (gmap string bool)) (line location : string)
  : bool * gmap string (gmap string bool) :=
  let v := default true (view r line !! location) in
  (v, set r line location v).

(** Whether a pair is in the map, and with which value. *)
Definition present (r : gmap string (gmap string bool)) (line location : string) : option bool :=
  r !! line ≫= (fun m => m !! location).

End RetentionMap.

(** ** Survey *)

(** [sv_f], [sv_datafile], [sv_retain] are [self.f], [self.datafile] and
    [self.retain]. *)
Record Survey : Type := {
  sv_f : option h5group;
  sv_datafile : string;
  sv_retain : gmap string (gmap string bool)
}.

(** [Survey.__init__] *)
Definition init_retain (root : h5group) : gmap string (gmap string bool) :=
  fold_left
    (fun r line =>
       match h5get root line with
       | Return (Group _) =>
           fold_left (fun r' location => RetentionMap.set r' line location true)
                     (h5keys root) r
       | _ => r
       end)
    (h5keys root) ∅.

Definition Survey_init (datafile : string) : M Survey :=
  fun w =>
    if negb (isfile datafile w) then (w, Raise IOError)
    else (root ← h5open datafile;
          mret {| sv_f := None; sv_datafile := datafile;
                  sv_retain := init_retain root |}) w.

(** ** Sorting and slicing as Python does them *)

(** [l.sort(key=...)] is stable: [insert_by_key] puts an element in front of
    the first element whose key is not smaller, and the list is folded
    from its right end. *)
Fixpoint insert_by_key {A} (kx : Z * A) (l : list (Z * A)) : list (Z * A) :=
  match l with
  | [] => [kx]
  | ky :: l' =>
      if Z.leb (fst kx) (fst ky) then kx :: l
      else ky :: insert_by_key kx l'
  end.

Fixpoint sort_keyed {A} (l : list (Z * A)) : list (Z * A) :=
  match l with
  | [] => []
  | kx :: l' => insert_by_key kx (sort_keyed l')
  end.

(** Python computes every key before it moves anything: a key that raises
    leaves the exception as the result. *)
Definition sort_by_key {A} (key : A -> outcome Z) (l : list A) : outcome (list A) :=
  keys ← omap key l;
  Return (map snd (sort_keyed (combine keys l))).

(** [l[lo:hi]] with step 1; [None] is an omitted bound. *)
Definition clamp (n : nat) (i : Z) : nat :=
  if Z.ltb i 0 then Z.to_nat (Z.max 0 (Z.add i (Z.of_nat n)))
  else Nat.min (Z.to_nat i) n.

Definition slice {A} (lo hi : option Z) (l : list A) : list A :=
  let n := length l in
  let a := match lo with Some i => clamp n i | None => O end in
  let b := match hi with Some i => clamp n i | None => n end in
  firstn (b - a) (skipn a l).

(** ** Store queries *)

(** [Survey.GetLines] *)
Definition line_key (s : string) : outcome Z :=
  part ← PyStr.index (PyStr.split "_" s) 1;
  PyStr.int part.

Definition GetLines (self : Survey) : M (list string) :=
  root ← h5open (sv_datafile self);
  lift (sort_by_key line_key
          (List.filter (fun name => String.eqb (substring 0 4 name) "line") (h5keys root))).

(** [max(l)] *)
Definition py_max (l : list nat) : outcome nat :=
  match l with
  | [] => Raise ValueError
  | x :: l' => Return (fold_left Nat.max l' x)
  end.

(** [Survey.GetChannelsInLine].  An [IndexError] inside the [try], from
    [GetLines] or from a [lineno] out of range, reaches the handler, whose
    message takes [len] of the bound method [self.GetLines]: that is a
    [TypeError]. *)
Definition GetChannelsInLine (self : Survey) (lineno : Z) : M nat :=
  fun w =>
    let (w1, r) := GetLines self w in
    match (lines ← r; PyStr.index lines lineno) with
    | Raise IndexError => (w1, Raise TypeError)
    | Raise e => (w1, Raise e)
    | Return line =>
        (root ← h5open (sv_datafile self);
         lift (grp ← h5get root line;
               locs ← h5members grp;
               if Nat.eqb (length (h5keys locs)) 0 then Raise EmptyLineError
               else
                 n_datacaptures ← omap (fun loc => o ← h5get locs loc; Return (h5len o))
                                       (h5keys locs);
                 py_max n_datacaptures)) w1
    end.

(** ** The identity codec *)

(** [HDFpath2fid] *)
Definition path_indices (path : string) : outcome (list Z) :=
  omap (fun a => part ← PyStr.index (PyStr.rsplit1 "_" a) 1; PyStr.int part)
       (PyStr.split "/" (PyStr.tail path)).

Definition fid_of (lin loc dc ec : Z) : string :=
  PyStr.rjust 4 "0" (PyStr.str lin) ++ PyStr.rjust 4 "0" (PyStr.str loc)
  ++ PyStr.rjust 4 "0" (PyStr.str dc) ++ PyStr.rjust 4 "0" (PyStr.str ec).

Definition HDFpath2fid (path : string) : outcome string :=
  idx ← path_indices path;
  match idx with
  | [lin; loc; dc; ec] => Return (fid_of lin loc dc ec)
  | _ => Raise ValueError
  end.

(** ** Arrays *)

(** The cells of an array made by [np.zeros] are IEEE 754 binary64 numbers.
    An integer is stored as the nearest number with a significand of 53
    bits, a tie going to the even significand; an integer of at most 53
    bits is stored as it is.  A cell is given by the number it holds, which
    for a converted integer is an integer again.  (An HDF5 integer has at
    most 64 bits, so a sample is far below the largest binary64 number and
    the conversion has no overflow case.) *)
Definition float64 : Type := Z.

Definition float64_of_int (z : Z) : float64 :=
  let a := Z.abs z in
  let e := (Z.log2 a - 52)%Z in
  if (e <=? 0)%Z then z
  else
    let q := Z.shiftr a e in
    let r := (a - Z.shiftl q e)%Z in
    let half := Z.shiftl 1 (e - 1) in
    let q' := if (half <? r)%Z || ((r =? half)%Z && Z.odd q) then (q + 1)%Z else q in
    (Z.sgn z * Z.shiftl q' e)%Z.

(** A two-dimensional numpy array of [float64]: its shape and its rows. *)
Record ndarray : Type := {
  shape : nat * nat;
  rows : list (list float64)
}.

(** [np.zeros((k, m))]: every cell holds 0.0. *)
Definition zeros (k m : nat) : ndarray :=
  {| shape := (k, m); rows := replicate k (replicate m 0%Z) |}.

(** [arr[j, :n] = v] for a one-dimensional integer [v]: the target is the
    first [min n m] cells of row [j]; [v] must have that length, or length
    one, which numpy broadcasts; the values are converted to the type of the
    array. *)
Definition assign_prefix (arr : ndarray) (j n : nat) (v : list Z) : outcome ndarray :=
  match rows arr !! j with
  | None => Raise IndexError
  | Some row =>
      let w := Nat.min n (length row) in
      let cells := map float64_of_int v in
      if Nat.eqb (length v) w
      then Return {| shape := shape arr;
                     rows := <[j := (cells ++ skipn w row)%list]> (rows arr) |}
      else match cells with
           | [x] => Return {| shape := shape arr;
                              rows := <[j := (replicate w x ++ skipn w row)%list]> (rows arr) |}
           | _ => Raise ValueError
           end
  end.

(** [arr.T] *)
Definition transpose (arr : ndarray) : ndarray :=
  {| shape := (snd (shape arr), fst (shape arr));
     rows := map (fun i => map (fun row => nth i row 0%Z) (rows arr))
                 (seq 0 (snd (shape arr))) |}.

(** [arr[i, j]] *)
Definition cell (arr : ndarray) (i j : nat) : option float64 :=
  rows arr !! i ≫= (fun row => row !! j).

(** ** Collaborators of [ExtractLine] *)

(** [datacapture] is one int or an iterable of ints. *)
Inductive selector : Type :=
| Single (dc : Z)
| Many (dcs : list Z).

(** The metadata collaborator, [irlib.recordlist.RecordList].  [AddDataset]
    changes the record list in place and may raise; the list it leaves behind
    is the first component of its result. *)
Class RecordListAPI : Type := {
  RecordList : Type;
  RecordList_new : string -> RecordList;
  AddDataset : RecordList -> h5obj -> string -> RecordList * outcome unit;
  CropRecords : RecordList -> RecordList
}.

(** The arguments [gather_type] is called with. *)
Record Gather `{RecordListAPI} : Type := {
  g_data : ndarray;
  g_infile : string;
  g_line : Z;
  g_metadata : RecordList;
  g_retain : gmap string bool;
  g_dc : selector
}.

(** ** Line extraction *)

Section ExtractLine.
Context `{RL : RecordListAPI}.

(** Lines 187-190: the allowed channel-group names. *)
Definition allowed_datacaptures (datacapture : selector) : list string :=
  match datacapture with
  | Many dcs => map (fun dc => "datacapture_" ++ PyStr.str dc) dcs
  | Single dc => ["datacapture_" ++ PyStr.str dc]
  end.

(** Lines 192-195: the three-part test on one visited name.  [ds.name] is the
    absolute name of the object. *)
Definition keep_name (path : string) (allowed : list string) (nd : string * h5obj)
  : outcome bool :=
  if is_dataset (snd nd) then
    if PyStr.contains "picked" ("/" ++ path ++ "/" ++ fst nd) then Return false
    else
      parent ← PyStr.index (PyStr.split "/" (fst nd)) (-2);
      Return (existsb (String.eqb parent) allowed)
  else Return false.

Fixpoint ofilter {A} (p : A -> outcome bool) (l : list A) : outcome (list A) :=
  match l with
  | [] => Return []
  | x :: l' =>
      b ← p x;
      r ← ofilter p l';
      Return (if (b : bool) then x :: r else r)
  end.

(** Line 200: the sort key, the integer after the first underscore of the
    first path component. *)
Definition location_key (nd : string * h5obj) : outcome Z :=
  head ← PyStr.index (PyStr.split "/" (fst nd)) 0;
  part ← PyStr.index (PyStr.split "_" head) 1;
  PyStr.int part.

(** Lines 192-200: filter, then sort. *)
Definition select_datasets (path : string) (datacapture : selector)
    (names : list (string * h5obj)) : outcome (list (string * h5obj)) :=
  datasets ← ofilter (keep_name path (allowed_datacaptures datacapture)) names;
  sort_by_key location_key datasets.

(** Lines 203-209: the bounds, upper first. *)
Definition apply_bounds {A} (bounds : list (option Z)) (datasets : list A)
  : outcome (list A) :=
  hi ← PyStr.index bounds 1;
  let datasets1 := match hi with
                   | Some h => slice None (Some h) datasets
                   | None => datasets
                   end in
  lo ← PyStr.index bounds 0;
  Return (match lo with
          | Some l => slice (Some l) None datasets1
          | None => datasets1
          end).

(** Lines 212-221: one turn of the metadata loop. *)
Definition add_metadata (path : string) (metadata : RecordList) (trace : string * h5obj)
  : outcome RecordList :=
  match HDFpath2fid (path ++ "/" ++ fst trace) with
  | Return fid =>
      match AddDataset metadata (snd trace) fid with
      | (md, Return _) => Return md
      | (md, Raise ParseError) => Return (CropRecords md)
      | (md, Raise ValueError) => Return md
      | (_, Raise e) => Raise e
      end
  | Raise ValueError => Return metadata
  | Raise ParseError => Return (CropRecords metadata)
  | Raise e => Raise e
  end.

Fixpoint collect_metadata (path : string) (metadata : RecordList)
    (datasets : list (string * h5obj)) : outcome RecordList :=
  match datasets with
  | [] => Return metadata
  | trace :: rest =>
      md ← add_metadata path metadata trace;
      collect_metadata path md rest
  end.

(** Lines 231-232: the copy loop, [j] counting the rows. *)
Fixpoint fill_rows (j : nat) (datasets : list (string * h5obj)) (nsamples : list nat)
    (arr : ndarray) : outcome ndarray :=
  match datasets with
  | [] => Return arr
  | dataset :: rest =>
      n ← PyStr.index nsamples (Z.of_nat j);
      v ← read_all (snd dataset);
      arr' ← assign_prefix arr j n v;
      fill_rows (S j) rest nsamples arr'
  end.

(** Lines 226-236: [None] stands for the bare [return] of the handler. *)
Definition assemble (datasets : list (string * h5obj)) : outcome (option ndarray) :=
  nsamples ← omap (fun dataset => shape0 (snd dataset)) datasets;
  match (maxsamples ← py_max nsamples;
         fill_rows 0 datasets nsamples (zeros (length datasets) maxsamples)) with
  | Return arr => Return (Some arr)
  | Raise ValueError => Return None
  | Raise e => Raise e
  end.

(** The records [ExtractLine] keeps: lines 176-209. *)
Definition kept_records (root : h5group) (line : Z) (bounds : list (option Z))
    (datacapture : selector) : outcome (list (string * h5obj)) :=
  let path := "line_" ++ PyStr.str line in
  grp ← h5get root path;
  members ← h5members grp;
  datasets ← select_datasets path datacapture (h5visit members);
  apply_bounds bounds datasets.

(** [Survey.ExtractLine] with [fromcache=False]. *)
Definition ExtractLine (self : Survey) (line : Z) (bounds : list (option Z))
    (datacapture : selector) : M (option Gather) :=
  root ← h5open (sv_datafile self);
  lift (let path := "line_" ++ PyStr.str line in
        datasets ← kept_records root line bounds datacapture;
        metadata ← collect_metadata path (RecordList_new (sv_datafile self)) datasets;
        arr ← assemble datasets;
        match arr with
        | None => Return None
        | Some a =>
            Return (Some {| g_data := transpose a;
                            g_infile := sv_datafile self;
                            g_line := line;
                            g_metadata := metadata;
                            g_retain := RetentionMap.view (sv_retain self) path;
                            g_dc := datacapture |})
        end).

(** ** Indexing *)

(** The keys [__getitem__] tells apart; [PyObject] is a value of any other
    type, named by its type.  (A Python [bool] is an [int] to [isinstance]
    and is not told apart from one here.) *)
Inductive pyval : Type :=
| PyInt (z : Z)
| PyNone
| PyStrVal (s : string)
| PyTuple (items : list pyval)
| PyList (items : list pyval)
| PyObject (type_name : string).

(** [Survey.__getitem__] *)
Definition getitem (self : Survey) (key : pyval) : M (option Gather) :=
  match key with
  | PyInt i => ExtractLine self i [None; None] (Single 0)
  | PyTuple items =>
      match items with
      | [k0; k1] =>
          match k0, k1 with
          | PyInt i, PyInt j => ExtractLine self i [None; None] (Single j)
          | _, _ => raise TypeError
          end
      | _ => raise ValueError
      end
  | _ => raise TypeError
  end.

End ExtractLine.

(** ** Writing the retained part of a store *)

(** [fout.create_group(line)]: a name already there is a [ValueError]. *)
Definition create_group (fout : h5group) (line : string) : outcome h5group :=
  match h5get fout line with
  | Return _ => Raise ValueError
  | Raise _ => Return (fout ++ [(line, Group [])])%list
  end.

(** Add member [(name, o)] to the group [fout[line]]. *)
Fixpoint add_member (fout : h5group) (line name : string) (o : h5obj) : outcome h5group :=
  match fout with
  | [] => Raise KeyError
  | (n, g) :: fout' =>
      if String.eqb n line then
        match g with
        | Group ms =>
            match h5get ms name with
            | Return _ => Raise ValueError
            | Raise _ => Return ((n, Group (ms ++ [(name, o)])%list) :: fout')
            end
        | Dataset _ => Raise TypeError
        end
      else
        fout'' ← add_member fout' line name o;
        Return ((n, g) :: fout'')
  end.

(** [self.f.copy('{0}/{1}'.format(line, location), fout[line])] *)
Definition copy_location (src : h5group) (fout : h5group) (line location : string)
  : outcome h5group :=
  grp ← h5get src line;
  members ← h5members grp;
  o ← h5get members location;
  add_member fout line location o.

(** What the loops of [WriteHDF5] change: the output file and, through the
    inserting read, the retention map. *)
Record wstate : Type := {
  ws_fout : h5group;
  ws_retain : gmap string (gmap string bool)
}.

(** Lines 284-287 *)
Fixpoint write_locations (src : h5group) (line : string) (locations : list string)
    (st : wstate) : wstate * outcome unit :=
  match locations with
  | [] => (st, Return tt)
  | location :: rest =>
      let (v, r) := RetentionMap.get (ws_retain st) line location in
      if v then
        match copy_location src (ws_fout st) line location with
        | Return fout' =>
            write_locations src line rest {| ws_fout := fout'; ws_retain := r |}
        | Raise e => ({| ws_fout := ws_fout st; ws_retain := r |}, Raise e)
        end
      else write_locations src line rest {| ws_fout := ws_fout st; ws_retain := r |}
  end.

(** Lines 274-287 *)
Fixpoint write_lines (src : h5group) (lines : list string) (st : wstate)
  : wstate * outcome unit :=
  match lines with
  | [] => (st, Return tt)
  | line :: rest =>
      match h5get src line with
      | Raise e => (st, Raise e)
      | Return (Dataset _) => write_lines src rest st
      | Return (Group locations) =>
          match create_group (ws_fout st) line with
          | Raise ValueError => (st, Raise Exception)
          | Raise e => (st, Raise e)
          | Return fout' =>
              match write_locations src line (h5keys locations)
                      {| ws_fout := fout'; ws_retain := ws_retain st |} with
              | (st', Return _) => write_lines src rest st'
              | (st', Raise e) => (st', Raise e)
              end
          end
      end
  end.

(** [Survey.WriteHDF5].  The result carries the survey as the call leaves
    it. *)
Definition WriteHDF5 (self : Survey) (fnm : string) (overwrite : bool) (w : world)
  : world * Survey * outcome unit :=
  if path_exists fnm w && negb overwrite then (w, self, Return tt)
  else
    match h5create fnm w with
    | (w1, Raise e) => (w1, self, Raise e)
    | (w1, Return _) =>
        match sv_f self with
        | None => (w1, self, Raise TypeError)
        | Some src =>
            let (st, r) := write_lines src (h5keys src)
                             {| ws_fout := []; ws_retain := sv_retain self |} in
            (h5flush fnm (ws_fout st) w1,
             {| sv_f := sv_f self; sv_datafile := sv_datafile self;
                sv_retain := ws_retain st |},
             r)
        end
    end.

(** ** A sample store *)

Module Sample.

Definition echo (l : list Z) : h5obj := Dataset (Samples l).

(** Three locations, stored out of order; the second has two channels and a
    picked record. *)
Definition line0 : h5group :=
  [ ("location_10", Group [ ("datacapture_0", Group [ ("echogram_0", echo [1; 2; 3; 4; 5]%Z) ]) ]);
    ("location_2",  Group [ ("datacapture_0", Group [ ("echogram_0", echo [6; 7; 8]%Z);
                                                       ("picked", echo [0]%Z) ]);
                            ("datacapture_1", Group [ ("echogram_0", echo [9]%Z) ]) ]);
    ("location_3",  Group [ ("datacapture_0",
                             Group [ ("echogram_0", echo [10; 11; 12; 13; 14; 15; 16]%Z) ]) ]) ].

Definition root : h5group :=
  [ ("line_0", Group line0); ("line_1", Group []) ].

Definition world0 : world :=
  {| w_fs := {[ "survey.h5" := H5File root ]}; w_opened := [] |}.

Definition survey : Survey :=
  {| sv_f := None; sv_datafile := "survey.h5"; sv_retain := init_retain root |}.

(** The three records of channel 0 on line 0, by location. *)
Definition kept0 : list (string * h5obj) :=
  [ ("location_2/datacapture_0/echogram_0", echo [6; 7; 8]%Z);
    ("location_3/datacapture_0/echogram_0", echo [10; 11; 12; 13; 14; 15; 16]%Z);
    ("location_10/datacapture_0/echogram_0", echo [1; 2; 3; 4; 5]%Z) ].

(** Five candidate records, sorted by location. *)
Definition five : list (string * h5obj) :=
  [ ("location_0/datacapture_0/echogram_0", echo [0]%Z);
    ("location_1/datacapture_0/echogram_0", echo [1]%Z);
    ("location_2/datacapture_0/echogram_0", echo [2]%Z);
    ("location_3/datacapture_0/echogram_0", echo [3]%Z);
    ("location_4/datacapture_0/echogram_0", echo [4]%Z) ].

(** A store with one line of one location, and a line whose only record
    cannot be read. *)
Definition small_root : h5group :=
  [ ("line_0", Group [ ("location_0",
        Group [ ("datacapture_0", Group [ ("echogram_0", echo [1; 2]%Z) ]) ]) ]) ].

Definition small_world : world :=
  {| w_fs := {[ "small.h5" := H5File small_root ]}; w_opened := [] |}.

(** A line whose second record cannot be read, failing with [e]. *)
Definition broken_world (e : py_exn) : world :=
  {| w_fs := {[ "broken.h5" := H5File
       [ ("line_0", Group
           [ ("location_0", Group [ ("datacapture_0", Group [ ("echogram_0", echo [1; 2]%Z) ]) ]);
             ("location_1", Group [ ("datacapture_0",
                 Group [ ("echogram_0", Dataset (Unreadable 4 e)) ]) ]) ]) ] ]};
     w_opened := [] |}.

Definition broken_survey : Survey :=
  {| sv_f := None; sv_datafile := "broken.h5"; sv_retain := ∅ |}.

(** A metadata collaborator that records the FIDs it is given. *)
#[export] Instance fid_list : RecordListAPI := {|
  RecordList := list string;
  RecordList_new := fun _ => [];
  AddDataset := fun md _ fid => ((md ++ [fid])%list, Return tt);
  CropRecords := fun md => md
|}.

End Sample.

(** ** Definitions used to state the properties *)

(** The samples of a readable record. *)
Definition samples_of (d : string * h5obj) : list Z :=
  match snd d with
  | Dataset (Samples l) => l
  | _ => []
  end.

Definition is_readable (d : string * h5obj) : bool :=
  match snd d with
  | Dataset (Samples _) => true
  | _ => false
  end.

Definition max_samples (ds : list (string * h5obj)) : nat :=
  list_max (map (fun d => length (samples_of d)) ds).

(** A sample vector with a tail of zeros up to length [m]. *)
Definition padded (m : nat) (l : list Z) : list Z :=
  (l ++ replicate (m - length l) 0%Z)%list.

(** One row per record, every row padded to the longest record. *)
Definition padded_array (ds : list (string * h5obj)) : ndarray :=
  {| shape := (length ds, max_samples ds);
     rows := map (fun d => padded (max_samples ds) (samples_of d)) ds |}.

(** The integers a [float64] holds exactly without any condition on their
    bits: those of magnitude up to [2^53]. *)
Definition fits_float64 (z : Z) : bool := (Z.abs z <=? 2 ^ 53)%Z.

(** Every sample of every record is held exactly. *)
Definition samples_fit (ds : list (string * h5obj)) : bool :=
  forallb (fun d => forallb fits_float64 (samples_of d)) ds.

(** The padded rows as a [float64] array holds them. *)
Definition float64_array (ds : list (string * h5obj)) : ndarray :=
  {| shape := (length ds, max_samples ds);
     rows := map (fun d => padded (max_samples ds) (map float64_of_int (samples_of d))) ds |}.

Module Codec.

Definition pad4 (z : Z) : string := PyStr.rjust 4 "0" (PyStr.str z).

(** The digit-width limit of the codec. *)
Definition in_width (z : Z) : Prop := (0 <= z <= 9999)%Z.

Definition pad4_check (z : Z) : bool :=
  Nat.eqb (String.length (pad4 z)) 4 &&
  match PyStr.int (pad4 z) with
  | Return z' => Z.eqb z' z
  | Raise _ => false
  end.

(** The [k]-th four-character field of a FID. *)
Definition field (k : nat) (fid : string) : string := substring (4 * k) 4 fid.

(** [c not in s] *)
Fixpoint no_char (c : ascii) (s : string) : bool :=
  match s with
  | EmptyString => true
  | String x s' => negb (Ascii.eqb x c) && no_char c s'
  end.

Definition str_check (z : Z) : bool :=
  match PyStr.int (PyStr.str z) with
  | Return z' => Z.eqb z' z
  | Raise _ => false
  end
  && no_char "/" (PyStr.str z) && no_char "_" (PyStr.str z).

(** The full path [ExtractLine] builds for the record at the four indices
    of a ContainerPath. *)
Definition container_path (lin loc dc ec : Z) : string :=
  "line_" ++ PyStr.str lin ++ "/location_" ++ PyStr.str loc
  ++ "/datacapture_" ++ PyStr.str dc ++ "/echogram_" ++ PyStr.str ec.

End Codec.

(** The name of the group a record sits in: the last but one component of
    its name. *)
Definition parent_name (name : string) : option string :=
  match PyStr.index (PyStr.split "/" name) (-2) with
  | Return p => Some p
  | Raise _ => None
  end.

(** The records the selection is meant to keep: leaf datasets without
    "picked" in their name whose parent group is an allowed channel. *)
Definition wanted (path : string) (datacapture : selector)
    (nd : string * h5obj) : bool :=
  is_dataset (snd nd)
  && negb (PyStr.contains "picked" ("/" ++ path ++ "/" ++ fst nd))
  && match parent_name (fst nd) with
     | Some p => existsb (String.eqb p) (allowed_datacaptures datacapture)
     | None => false
     end.

(** The location index of a record, where its name has one. *)
Definition loc_index (nd : string * h5obj) : Z :=
  match location_key nd with
  | Return k => k
  | Raise _ => 0%Z
  end.

(** The channel groups under a location. *)
Definition channel_groups (loc : h5obj) : list (string * h5obj) :=
  match loc with
  | Group ms => List.filter (fun m => is_group (snd m)) ms
  | Dataset _ => []
  end.

(** A location as the store lays it out: a group of channel groups. *)
Definition location_ok (loc : h5obj) : bool :=
  match loc with
  | Group ms => forallb (fun m => is_group (snd m)) ms
  | Dataset _ => false
  end.

(** [isinstance(key, int)], [isinstance(key, tuple)] *)
Definition is_int (key : pyval) : bool :=
  match key with PyInt _ => true | _ => false end.

Definition is_tuple (key : pyval) : bool :=
  match key with PyTuple _ => true | _ => false end.

(** [isinstance(root[name], h5py.Group)] *)
Definition is_group_at (root : h5group) (name : string) : bool :=
  match h5get root name with
  | Return (Group _) => true
  | _ => false
  end.

(** Order of keyed elements by their key. *)
Definition key_le {A : Type} (p q : Z * A) : Prop := (fst p <= fst q)%Z.

(** ** The store layout, for the selection and the line queries *)

(** The channels a selector names: its integer, or the integers of its
    iterable. *)
Definition channels_of (datacapture : selector) : list Z :=
  match datacapture with
  | Single c => [c]
  | Many cs => cs
  end.

(** The name, relative to its line, of a leaf of the layout
    [line_<int>/location_<int>/datacapture_<int>/<leaf>]. *)
Definition record_name (loc c : Z) (leaf : string) : string :=
  "location_" ++ PyStr.str loc ++ "/datacapture_" ++ PyStr.str c ++ "/" ++ leaf.

(** [name] is a leaf at location index [loc] under the channel group of
    channel [c]. *)
Definition record_at (name : string) (loc c : Z) : Prop :=
  exists leaf, Codec.no_char "/" leaf = true /\ name = record_name loc c leaf.

(** The parent group of [name] is the channel group of channel [c]. *)
Definition in_channel (c : Z) (name : string) : bool :=
  match parent_name name with
  | Some p => String.eqb p ("datacapture_" ++ PyStr.str c)
  | None => false
  end.

(** The first component of the name is the location group of index [k]. *)
Definition at_location (k : Z) (nd : string * h5obj) : bool :=
  String.eqb (List.hd "" (PyStr.split "/" (fst nd))) ("location_" ++ PyStr.str k).

(** The records a selector asks for: leaf datasets without "picked" in
    their name whose parent group is the channel group of one of the
    selector's channels. *)
Definition selected (datacapture : selector) (nd : string * h5obj) : bool :=
  is_dataset (snd nd)
  && negb (PyStr.contains "picked" (fst nd))
  && existsb (fun c => in_channel c (fst nd)) (channels_of datacapture).

(** The members of a location group, whatever they are. *)
Definition members_of (loc : h5obj) : list (string * h5obj) :=
  match loc with
  | Group ms => ms
  | Dataset _ => []
  end.

(** The name of the line group with number [n]. *)
Definition line_name (n : Z) : string := "line_" ++ PyStr.str n.

(** How many of the line numbers are smaller than [n]: the place of line [n]
    when the lines are put in ascending order of their numbers. *)
Definition rank (numbers : list Z) (n : Z) : Z :=
  Z.of_nat (length (List.filter (fun m => Z.ltb m n) numbers)).

(** ** Paths inside a store *)

(** [o[path]] for a path of several components, relative to [o].  Empty
    components (a doubled, leading or trailing slash) and "." are passed
    over, as HDF5 resolves path names. *)
Fixpoint h5walk (o : h5obj) (components : list string) : outcome h5obj :=
  match components with
  | [] => Return o
  | c :: cs =>
      if String.eqb c "" || String.eqb c "." then h5walk o cs
      else match o with
           | Group ms => o' ← h5get ms c; h5walk o' cs
           | Dataset _ => Raise KeyError
           end
  end.

(** [f[path]] on the open file. *)
Definition h5path (root : h5group) (path : string) : outcome h5obj :=
  h5walk (Group root) (PyStr.split "/" path).

(** ** The other methods of [Survey] *)

(** [Survey.__repr__] *)
Definition repr (self : Survey) : string := "survey object: " ++ sv_datafile self.

(** [Survey._getdatasets]; [line] is [None] or an int.  The callback looks
    every visited name up from the root of the file, [f[ds]], and takes the
    absolute name of the visited object, [f[path][ds].name]. *)
Definition _getdatasets (self : Survey) (line : option Z) : M (list string) :=
  let path := match line with
              | Some l => "line_" ++ PyStr.str l ++ "/"
              | None => "/"
              end in
  root ← h5open (sv_datafile self);
  lift (grp ← h5path root path;
        members ← h5members grp;
        datasets ← ofilter
                     (fun nd : string * h5obj =>
                        o ← h5path root (fst nd);
                        Return (is_dataset o
                                && negb (PyStr.contains "picked"
                                           (match line with
                                            | Some l => "/line_" ++ PyStr.str l ++ "/"
                                            | None => "/"
                                            end ++ fst nd))))
                     (h5visit members);
        Return (map fst datasets)).

(** [Survey.ExtractTrace] *)
Definition ExtractTrace (self : Survey) (line location datacapture echogram : Z)
  : M (list Z) :=
  let path := "line_" ++ PyStr.str line ++ "/location_" ++ PyStr.str location
              ++ "/datacapture_" ++ PyStr.str datacapture
              ++ "/echogram_" ++ PyStr.str echogram in
  root ← h5open (sv_datafile self);
  lift (o ← h5path root path; read_all o).

(** [os.path] on a POSIX system, as far as [GetLineCacheName] uses it. *)
Module PosixPath.

(** [os.path.basename(p)]: what follows the last slash. *)
Definition basename (p : string) : string := List.last (PyStr.split "/" p) "".

(** [os.path.splitext(p)] for a [p] without a slash: the extension starts at
    the last dot, unless only dots come before it. *)
Definition splitext (p : string) : string * string :=
  let pieces := PyStr.split "." p in
  let stem := removelast pieces in
  if existsb (fun piece => negb (String.eqb piece "")) stem
  then (PyStr.join "." stem, String "." (List.last pieces ""))
  else (p, "").

(** [os.path.join(a, b)] *)
Definition join (a b : string) : string :=
  if String.prefix "/" b then b
  else if String.eqb a "" || String.eqb (List.last (PyStr.split "/" a) "x") ""
       then a ++ b
       else a ++ "/" ++ b.

End PosixPath.

(** [Survey.GetLineCacheName] with an int [dc]. *)
Definition GetLineCacheName (self : Survey) (line dc : Z) (cache_dir : string) : string :=
  PosixPath.join cache_dir
    (fst (PosixPath.splitext (PosixPath.basename (sv_datafile self)))
     ++ "_line" ++ PyStr.str line ++ "_" ++ PyStr.str dc ++ ".ird").

(** ** More definitions used to state properties *)

(** Every character of [s] passes [p]. *)
Fixpoint all_chars (p : ascii -> bool) (s : string) : bool :=
  match s with
  | EmptyString => true
  | String c s' => p c && all_chars p s'
  end.

Definition is_digit (c : ascii) : bool :=
  match PyStr.digit_val c with Some _ => true | None => false end.

(** The digits [str] writes for a number that is not negative. *)
Definition digits (z : Z) : string :=
  PyStr.digits_of_pos_fuel (S (Z.to_nat (Z.log2 z))) z "".

(** [name[:4] == 'line'] *)
Definition is_line_name (name : string) : bool :=
  String.eqb (substring 0 4 name) "line".

(** The line index of a name, where it has one. *)
Definition line_index (name : string) : Z :=
  match line_key name with
  | Return k => k
  | Raise _ => 0%Z
  end.

(** ** More sample stores *)

Module Samples.

(** A store whose lines are not in numeric order as texts. *)
Definition numbered_root : h5group :=
  [ ("line_10", Group []); ("line_11", Group []); ("line_2", Group []);
    ("notes", Dataset (Samples [])) ].

Definition numbered_world : world :=
  {| w_fs := {[ "numbered.h5" := H5File numbered_root ]}; w_opened := [] |}.

Definition numbered_survey : Survey :=
  {| sv_f := None; sv_datafile := "numbered.h5"; sv_retain := ∅ |}.

(** A line with a leaf whose name ends in no number, and a line with a leaf
    whose name has no underscore. *)
Definition odd_root : h5group :=
  [ ("line_0", Group [ ("location_0", Group [ ("datacapture_0",
        Group [ ("echogram_0", Dataset (Samples [1; 2]%Z));
                ("echogram_x", Dataset (Samples [3]%Z)) ]) ]) ]);
    ("line_1", Group [ ("location_0", Group [ ("datacapture_0",
        Group [ ("echogram", Dataset (Samples [4]%Z)) ]) ]) ]) ].

Definition odd_world : world :=
  {| w_fs := {[ "odd.h5" := H5File odd_root ]}; w_opened := [] |}.

Definition odd_survey : Survey :=
  {| sv_f := None; sv_datafile := "odd.h5"; sv_retain := ∅ |}.

(** A line whose two locations carry the channels 0, 1 and 2, stored in the
    order of their names as texts. *)
Definition mixed_line : h5group :=
  [ ("location_10", Group [ ("datacapture_0", Group [ ("echogram_0", Dataset (Samples [1]%Z)) ]);
                            ("datacapture_1", Group [ ("echogram_0", Dataset (Samples [2]%Z)) ]);
                            ("datacapture_2", Group [ ("echogram_0", Dataset (Samples [3]%Z)) ]) ]);
    ("location_2",  Group [ ("datacapture_0", Group [ ("echogram_0", Dataset (Samples [4; 5]%Z));
                                                       ("picked", Dataset (Samples [0]%Z)) ]);
                            ("datacapture_1", Group [ ("echogram_0", Dataset (Samples [6]%Z)) ]);
                            ("datacapture_2", Group [ ("echogram_0", Dataset (Samples [7]%Z)) ]) ]) ].

Definition mixed_root : h5group := [ ("line_0", Group mixed_line) ].

Definition mixed_world : world :=
  {| w_fs := {[ "mixed.h5" := H5File mixed_root ]}; w_opened := [] |}.

Definition mixed_survey : Survey :=
  {| sv_f := None; sv_datafile := "mixed.h5"; sv_retain := ∅ |}.

(** A survey whose lines are numbered 1, 2 and 10: line 1 has one channel,
    line 2 has two, line 10 has three and a note beside them. *)
Definition channel (samples : list Z) : h5obj :=
  Group [ ("echogram_0", Dataset (Samples samples)) ].

Definition gap_line1 : h5group :=
  [ ("location_0", Group [ ("datacapture_0", channel [1]%Z) ]) ].

Definition gap_line2 : h5group :=
  [ ("location_0", Group [ ("datacapture_0", channel [2]%Z);
                           ("datacapture_1", channel [3]%Z) ]) ].

Definition gap_line10 : h5group :=
  [ ("location_0", Group [ ("datacapture_0", channel [4]%Z);
                           ("datacapture_1", channel [5]%Z);
                           ("datacapture_2", channel [6]%Z);
                           ("note", Dataset (Samples [])) ]) ].

Definition gap_root : h5group :=
  [ ("line_1", Group gap_line1); ("line_10", Group gap_line10); ("line_2", Group gap_line2) ].

Definition gap_world : world :=
  {| w_fs := {[ "gap.h5" := H5File gap_root ]}; w_opened := [] |}.

Definition gap_survey : Survey :=
  {| sv_f := None; sv_datafile := "gap.h5"; sv_retain := ∅ |}.

End Samples.

(** What a caller sees of a result of [ExtractLine] besides the arguments
    handed through: the array and the metadata. *)
Definition gather_view `{RecordListAPI} (r : outcome (option Gather))
  : outcome (option (ndarray * RecordList)) :=
  match r with
  | Return (Some g) => Return (Some (g_data g, g_metadata g))
  | Return None => Return None
  | Raise e => Raise e
  end.

Definition pad4_digits_check (b : Z) : bool :=
  String.eqb (Codec.pad4 b)
    (digits (b / 1000) ++ digits (b / 100 mod 10) ++ digits (b / 10 mod 10) ++ digits (b mod 10))
  && (Z.ltb b 1000 || String.eqb (Codec.pad4 b) (PyStr.str b)).

(** A store as HDF5 keeps it: member names are not empty, are not ".",
    hold no slash, and differ within one group. *)
Definition name_ok (s : string) : bool :=
  negb (String.eqb s "") && negb (String.eqb s ".") && Codec.no_char "/" s.

Fixpoint nodup_names (l : list string) : bool :=
  match l with
  | [] => true
  | x :: l' => negb (existsb (String.eqb x) l') && nodup_names l'
  end.

Fixpoint h5wf (o : h5obj) : bool :=
  match o with
  | Dataset _ => true
  | Group ms =>
      forallb name_ok (map fst ms) && nodup_names (map fst ms)
      && forallb (fun m => h5wf (snd m)) ms
  end.

(** What the retention map reads for a pair: the stored flag, [true] where
    there is none. *)
Definition retained (r : gmap string (gmap string bool)) (line location : string) : bool :=
  fst (RetentionMap.get r line location).

(** The retained locations of a line, in the order of the source. *)
Definition retained_locations (r : gmap string (gmap string bool)) (line : string)
    (locations : h5group) : h5group :=
  List.filter (fun m => retained r line (fst m)) locations.

(** The store [WriteHDF5] is documented to write: every top-level group of
    the source, each with its retained members and their subtrees. *)
Definition retained_store (r : gmap string (gmap string bool)) (src : h5group) : h5group :=
  flat_map (fun m => match snd m with
                     | Group locations =>
                         [(fst m, Group (retained_locations r (fst m) locations))]
                     | Dataset _ => []
                     end) src.

(** * Sanity checks of the primitives *)

Example split_path :
  PyStr.split "/" "location_3/datacapture_0/echogram_0"
  = ["location_3"; "datacapture_0"; "echogram_0"].
Proof. reflexivity. Qed.

Example rsplit1_last : PyStr.rsplit1 "_" "a_b_12" = ["a_b"; "12"].
Proof. reflexivity. Qed.

Example rsplit1_none : PyStr.rsplit1 "_" "echogram" = ["echogram"].
Proof. reflexivity. Qed.

Example str_examples :
  (PyStr.str 0, PyStr.str 7, PyStr.str 1200, PyStr.str (-15)) = ("0", "7", "1200", "-15").
Proof. reflexivity. Qed.

Example int_examples :
  (PyStr.int "12", PyStr.int " -3 ", PyStr.int "", PyStr.int "1x", PyStr.int "007")
  = (Return 12%Z, Return (-3)%Z, Raise ValueError, Raise ValueError, Return 7%Z).
Proof. reflexivity. Qed.

Example rjust_examples :
  (PyStr.rjust 4 "0" "12", PyStr.rjust 4 "0" "12345") = ("0012", "12345").
Proof. reflexivity. Qed.

Example index_examples :
  (PyStr.index [1; 2; 3] 0, PyStr.index [1; 2; 3] (-1), PyStr.index [1; 2; 3] 3)
  = (Return 1, Return 3, Raise IndexError).
Proof. reflexivity. Qed.

Example slice_examples :
  (slice (Some 1%Z) (Some 3%Z) [10; 11; 12; 13; 14],
   slice None (Some (-1)%Z) [10; 11; 12; 13; 14],
   slice (Some (-2)%Z) None [10; 11; 12; 13; 14],
   slice (Some 4%Z) (Some 2%Z) [10; 11; 12; 13; 14],
   slice (Some 3%Z) (Some 99%Z) [10; 11; 12; 13; 14])
  = ([11; 12], [10; 11; 12; 13], [13; 14], [], [13; 14]).
Proof. reflexivity. Qed.

Example fid_example :
  HDFpath2fid "line_3/location_12/datacapture_0/echogram_1" = Return "0003001200000001".
Proof. reflexivity. Qed.

Example fid_too_few : HDFpath2fid "line_3/location_12" = Raise ValueError.
Proof. reflexivity. Qed.

Example fid_no_underscore :
  HDFpath2fid "line_3/location_12/datacapture_0/echogram" = Raise IndexError.
Proof. reflexivity. Qed.

Example h5path_examples :
  (h5path Sample.root "line_0/location_2/datacapture_1/echogram_0",
   h5path Sample.root "/line_0//location_2/./datacapture_1/echogram_0/",
   h5path Sample.root "line_0/location_7",
   h5path Sample.root "line_0/location_2/datacapture_1/echogram_0/x",
   is_group_at Sample.root "line_1", h5path Sample.root "/")
  = (Return (Sample.echo [9]%Z), Return (Sample.echo [9]%Z), Raise KeyError, Raise KeyError,
     true, Return (Group Sample.root)).
Proof. vm_compute. reflexivity. Qed.

Example posixpath_examples :
  (PosixPath.basename "/data/run/survey.h5", PosixPath.basename "survey.h5",
   PosixPath.basename "data/",
   PosixPath.splitext "survey.h5", PosixPath.splitext "a.b.c", PosixPath.splitext ".hidden",
   PosixPath.splitext "..a.b", PosixPath.splitext "noext", PosixPath.splitext "a.",
   PosixPath.join "cache" "x.ird", PosixPath.join "cache/" "x.ird",
   PosixPath.join "" "x.ird", PosixPath.join "cache" "/x.ird")
  = ("survey.h5", "survey.h5", "",
     ("survey", ".h5"), ("a.b", ".c"), (".hidden", ""),
     ("..a", ".b"), ("noext", ""), ("a", "."),
     "cache/x.ird", "cache/x.ird", "x.ird", "/x.ird").
Proof. vm_compute. reflexivity. Qed.

Example GetLineCacheName_example :
  GetLineCacheName {| sv_f := None; sv_datafile := "/data/run/survey.h5"; sv_retain := ∅ |}
    3 0 "cache"
  = "cache/survey_line3_0.ird".
Proof. vm_compute. reflexivity. Qed.

Example ExtractTrace_examples :
  (snd (ExtractTrace Sample.survey 0 2 1 0 Sample.world0),
   snd (ExtractTrace Sample.survey 0 2 5 0 Sample.world0),
   snd (ExtractTrace Sample.broken_survey 0 1 0 0 (Sample.broken_world IOError)))
  = (Return [9]%Z, Raise KeyError, Raise IOError).
Proof. vm_compute. reflexivity. Qed.

Example getdatasets_examples :
  (snd (_getdatasets Sample.survey None Sample.world0),
   snd (_getdatasets Sample.survey (Some 0%Z) Sample.world0),
   snd (_getdatasets Sample.survey (Some 1%Z) Sample.world0))
  = (Return ["line_0/location_10/datacapture_0/echogram_0";
             "line_0/location_2/datacapture_0/echogram_0";
             "line_0/location_2/datacapture_1/echogram_0";
             "line_0/location_3/datacapture_0/echogram_0"],
     Raise KeyError, Return []).
Proof. vm_compute. reflexivity. Qed.

(** The conversion of a stored sample: integers of up to 53 bits are kept,
    larger ones go to the nearest [float64], a tie to the even significand. *)
Example float64_of_int_examples :
  map float64_of_int
      [0; 3; -3; 9007199254740992; 9007199254740993; 9007199254740994;
       9007199254740995; -9007199254740993; 9223372036854775807;
       18446744073709551615]%Z
  = [0; 3; -3; 9007199254740992; 9007199254740992; 9007199254740994;
     9007199254740996; -9007199254740992; 9223372036854775808;
     18446744073709551616]%Z.
Proof. vm_compute. reflexivity. Qed.

(** A record with a sample beyond [2^53]: the array holds the rounded
    value. *)
Example assemble_rounds :
  assemble [ ("location_0/datacapture_0/echogram_0",
              Dataset (Samples [9007199254740993; -3]%Z)) ]
  = Return (Some {| shape := (1, 2); rows := [ [9007199254740992; -3] ]%Z |}).
Proof. vm_compute. reflexivity. Qed.

(** * Bounds *)

Section Bounds.
Context {A : Type}.
Implicit Types (l : list A) (lo hi : option Z).

Lemma clamp_le n i : clamp n i <= n.
Proof. unfold clamp. destruct (Z.ltb_spec i 0); lia. Qed.

Lemma slice_upto hi l :
  slice None hi l = firstn (match hi with Some i => clamp (length l) i | None => length l end) l.
Proof. unfold slice. simpl. f_equal. lia. Qed.

Lemma slice_from lo l :
  slice lo None l = skipn (match lo with Some i => clamp (length l) i | None => O end) l.
Proof.
  unfold slice. apply firstn_all2. rewrite length_skipn. lia.
Qed.

(** The two passes of [apply_bounds], as slices. *)
Lemma apply_bounds_two_pass lo hi l :
  apply_bounds [lo; hi] l = Return (slice lo None (slice None hi l)).
Proof.
  unfold apply_bounds.
  change (PyStr.index [lo; hi] 1) with (Return hi).
  change (PyStr.index [lo; hi] 0) with (Return lo).
  unfold mbind, outcome_bind, obind. f_equal.
  destruct hi as [h|], lo as [i|]; try reflexivity.
  - rewrite (slice_from None). reflexivity.
  - rewrite (slice_upto None), firstn_all. reflexivity.
  - rewrite (slice_from None), (slice_upto None), firstn_all. reflexivity.
Qed.

Lemma two_pass_upper_open lo l : slice lo None (slice None None l) = slice lo None l.
Proof. rewrite (slice_upto None), firstn_all. reflexivity. Qed.

Lemma two_pass_lower_nonneg (i : Z) hi l :
  (0 <= i)%Z -> slice (Some i) None (slice None hi l) = slice (Some i) hi l.
Proof.
  intros Hi. rewrite slice_from, slice_upto.
  set (b := match hi with Some j => clamp (length l) j | None => length l end).
  assert (Hb : b <= length l) by (subst b; destruct hi; [apply clamp_le | lia]).
  rewrite length_firstn, (Nat.min_l _ _ Hb).
  unfold slice. fold b.
  assert (Hc : forall n, clamp n i = Nat.min (Z.to_nat i) n).
  { intros n. unfold clamp. destruct (Z.ltb_spec i 0); [lia | reflexivity]. }
  rewrite !Hc, skipn_firstn_comm.
  destruct (Nat.le_gt_cases (Z.to_nat i) b) as [Hle|Hgt].
  - rewrite !Nat.min_l by lia. reflexivity.
  - rewrite (Nat.min_r _ b) by lia.
    replace (b - b) with 0 by lia.
    replace (b - Nat.min (Z.to_nat i) (length l)) with 0 by lia.
    reflexivity.
Qed.

Lemma two_pass_upper_wide lo (j : Z) l :
  (Z.of_nat (length l) <= j)%Z -> slice lo None (slice None (Some j) l) = slice lo (Some j) l.
Proof.
  intros Hj.
  assert (Hc : clamp (length l) j = length l).
  { unfold clamp. destruct (Z.ltb_spec j 0); lia. }
  rewrite (slice_upto (Some j)), Hc, firstn_all.
  rewrite slice_from. unfold slice. rewrite Hc.
  symmetry. apply firstn_all2. rewrite length_skipn. lia.
Qed.

End Bounds.

(** C3, refuted as stated: with a negative lower bound the two passes and
    the single slice part ways.  On five sorted candidates and bounds
    [(-1, 3)] the code keeps the third record, [datasets[-1:3]] keeps
    none. *)
Lemma bounds_negative_lower_differs :
  sort_by_key location_key Sample.five = Return Sample.five
  /\ apply_bounds [Some (-1)%Z; Some 3%Z] Sample.five
     = Return [("location_2/datacapture_0/echogram_0", Sample.echo [2]%Z)]
  /\ slice (Some (-1)%Z) (Some 3%Z) Sample.five = []
  /\ apply_bounds [Some (-1)%Z; Some 3%Z] Sample.five
     <> Return (slice (Some (-1)%Z) (Some 3%Z) Sample.five).
Proof.
  split; [vm_compute; reflexivity|].
  split; [vm_compute; reflexivity|].
  split; [vm_compute; reflexivity|].
  vm_compute. discriminate.
Qed.

(** C3, amended.  Where the lower bound is open or not negative, or the
    upper bound is open or not below the number of candidates, truncating to
    the upper bound and then dropping up to the lower bound gives the list
    [datasets[lo:hi]]; bounds [(1, 3)] on five candidates keep the second and
    the third. *)
Theorem bounds_two_pass_is_slice {A : Type} (l : list A) (lo hi : option Z) :
  match lo with Some i => (0 <= i)%Z | None => True end
  \/ match hi with Some j => (Z.of_nat (length l) <= j)%Z | None => True end ->
  apply_bounds [lo; hi] l = Return (slice lo hi l)
  /\ forall a b c d e : A,
       apply_bounds [Some 1%Z; Some 3%Z] [a; b; c; d; e] = Return [b; c].
Proof.
  intros H. split; [|reflexivity].
  rewrite apply_bounds_two_pass. f_equal.
  destruct H as [H|H].
  - destruct lo as [i|]; [apply two_pass_lower_nonneg, H|].
    rewrite slice_from. reflexivity.
  - destruct hi as [j|]; [apply two_pass_upper_wide, H | apply two_pass_upper_open].
Qed.

Lemma bounds_two_pass_is_slice_witness :
  apply_bounds [Some 1%Z; Some 3%Z] Sample.five
  = Return (slice (Some 1%Z) (Some 3%Z) Sample.five)
  /\ forall a b c d e : string * h5obj,
       apply_bounds [Some 1%Z; Some 3%Z] [a; b; c; d; e] = Return [b; c].
Proof.
  apply (bounds_two_pass_is_slice Sample.five (Some 1%Z) (Some 3%Z)).
  left. lia.
Defined.

(** * The identity codec *)

Module CodecFacts.
Import Codec.

Lemma pad4_check_all :
  forallb pad4_check (map Z.of_nat (seq 0 (Z.to_nat 10000))) = true.
Proof. vm_compute. reflexivity. Qed.

Lemma pad4_spec z :
  in_width z -> String.length (pad4 z) = 4 /\ PyStr.int (pad4 z) = Return z.
Proof.
  intros [H0 H1].
  pose proof pad4_check_all as Hall.
  rewrite forallb_forall in Hall.
  assert (Hin : In z (map Z.of_nat (seq 0 (Z.to_nat 10000)))).
  { apply in_map_iff. exists (Z.to_nat z). split; [lia | apply in_seq; lia]. }
  apply Hall in Hin. unfold pad4_check in Hin.
  apply andb_prop in Hin as [Hlen Hint].
  split; [apply Nat.eqb_eq, Hlen|].
  destruct (PyStr.int (pad4 z)) as [z'|]; [|discriminate].
  apply Z.eqb_eq in Hint. congruence.
Qed.

Lemma string_length_app (s t : string) :
  String.length (s ++ t) = String.length s + String.length t.
Proof. induction s as [|c s IH]; simpl; [reflexivity | rewrite IH; reflexivity]. Qed.

Lemma substring_app_l (s t : string) :
  substring 0 (String.length s) (s ++ t) = s.
Proof.
  induction s as [|c s IH]; simpl.
  - destruct t; reflexivity.
  - rewrite IH. reflexivity.
Qed.

Lemma substring_app_r (s t : string) (n m : nat) :
  substring (String.length s + n) m (s ++ t) = substring n m t.
Proof. induction s as [|c s IH]; simpl; [reflexivity | apply IH]. Qed.

Lemma substring_all (s : string) : substring 0 (String.length s) s = s.
Proof. induction s as [|c s IH]; simpl; [reflexivity | rewrite IH; reflexivity]. Qed.

Lemma fid_fields (a b c d : Z) :
  String.length (pad4 a) = 4 -> String.length (pad4 b) = 4 ->
  String.length (pad4 c) = 4 -> String.length (pad4 d) = 4 ->
  String.length (fid_of a b c d) = 16 /\
  field 0 (fid_of a b c d) = pad4 a /\ field 1 (fid_of a b c d) = pad4 b /\
  field 2 (fid_of a b c d) = pad4 c /\ field 3 (fid_of a b c d) = pad4 d.
Proof.
  intros La Lb Lc Ld. unfold fid_of, field. fold (pad4 a) (pad4 b) (pad4 c) (pad4 d).
  repeat split.
  - rewrite !string_length_app. lia.
  - change (4 * 0) with 0. rewrite <- La at 1. apply substring_app_l.
  - change (4 * 1) with (4 + 0). rewrite <- La at 1. rewrite substring_app_r.
    rewrite <- Lb at 1. apply substring_app_l.
  - change (4 * 2) with (4 + (4 + 0)). rewrite <- La at 1. rewrite substring_app_r.
    rewrite <- Lb at 1. rewrite substring_app_r.
    rewrite <- Lc at 1. apply substring_app_l.
  - change (4 * 3) with (4 + (4 + (4 + 0))). rewrite <- La at 1. rewrite substring_app_r.
    rewrite <- Lb at 1. rewrite substring_app_r.
    rewrite <- Lc at 1. rewrite substring_app_r.
    rewrite <- Ld at 1. apply substring_all.
Qed.

Lemma fid_of_decode (a b c d : Z) :
  in_width a -> in_width b -> in_width c -> in_width d ->
  String.length (fid_of a b c d) = 16 /\
  PyStr.int (field 0 (fid_of a b c d)) = Return a /\
  PyStr.int (field 1 (fid_of a b c d)) = Return b /\
  PyStr.int (field 2 (fid_of a b c d)) = Return c /\
  PyStr.int (field 3 (fid_of a b c d)) = Return d.
Proof.
  intros Ha Hb Hc Hd.
  destruct (pad4_spec a Ha) as [La Ia], (pad4_spec b Hb) as [Lb Ib],
           (pad4_spec c Hc) as [Lc Ic], (pad4_spec d Hd) as [Ld Id].
  destruct (fid_fields a b c d La Lb Lc Ld) as (L & F0 & F1 & F2 & F3).
  rewrite F0, F1, F2, F3. auto.
Qed.

Lemma fid_of_inj (a b c d a' b' c' d' : Z) :
  in_width a -> in_width b -> in_width c -> in_width d ->
  in_width a' -> in_width b' -> in_width c' -> in_width d' ->
  fid_of a b c d = fid_of a' b' c' d' -> (a, b, c, d) = (a', b', c', d').
Proof.
  intros Ha Hb Hc Hd Ha' Hb' Hc' Hd' E.
  destruct (fid_of_decode a b c d Ha Hb Hc Hd) as (_ & I0 & I1 & I2 & I3).
  destruct (fid_of_decode a' b' c' d' Ha' Hb' Hc' Hd') as (_ & J0 & J1 & J2 & J3).
  rewrite E in I0, I1, I2, I3.
  congruence.
Qed.



(** ** Paths of the store layout *)

Lemma str_check_all :
  forallb str_check (map Z.of_nat (seq 0 (Z.to_nat 10000))) = true.
Proof. vm_compute. reflexivity. Qed.

Lemma str_spec z :
  in_width z ->
  PyStr.int (PyStr.str z) = Return z
  /\ no_char "/" (PyStr.str z) = true /\ no_char "_" (PyStr.str z) = true.
Proof.
  intros [H0 H1].
  pose proof str_check_all as Hall. rewrite forallb_forall in Hall.
  assert (Hin : In z (map Z.of_nat (seq 0 (Z.to_nat 10000)))).
  { apply in_map_iff. exists (Z.to_nat z). split; [lia | apply in_seq; lia]. }
  apply Hall in Hin. unfold str_check in Hin.
  apply andb_prop in Hin as [Hin Hu]. apply andb_prop in Hin as [Hint Hs].
  destruct (PyStr.int (PyStr.str z)) as [z'|]; [|discriminate].
  apply Z.eqb_eq in Hint. subst z'. auto.
Qed.

Lemma no_char_app c (s t : string) :
  no_char c (s ++ t) = no_char c s && no_char c t.
Proof.
  induction s as [|x s IH]; simpl; [reflexivity|].
  rewrite IH. apply andb_assoc.
Qed.

Lemma split_no_sep sep (s : string) : no_char sep s = true -> PyStr.split sep s = [s].
Proof.
  induction s as [|x s IH]; cbn [no_char PyStr.split]; [reflexivity|].
  intros H. apply andb_prop in H as [Hx Hs]. apply negb_true_iff in Hx.
  rewrite Hx, (IH Hs). reflexivity.
Qed.

Lemma split_app_sep sep (s t : string) :
  no_char sep s = true ->
  PyStr.split sep (s ++ String sep t) = s :: PyStr.split sep t.
Proof.
  induction s as [|x s IH]; simpl.
  - intros _. rewrite Ascii.eqb_refl. reflexivity.
  - intros H. apply andb_prop in H as [Hx Hs]. apply negb_true_iff in Hx.
    rewrite Hx, (IH Hs). reflexivity.
Qed.

Lemma string_app_assoc (s t u : string) : ((s ++ t) ++ u = s ++ (t ++ u))%string.
Proof.
  induction s as [|x s IH]; [reflexivity|].
  change (String x ((s ++ t) ++ u) = String x (s ++ (t ++ u))). rewrite IH. reflexivity.
Qed.

(** The index at the end of a component [tag_digits]. *)
Lemma component_index (tag digits : string) (z : Z) :
  no_char "_" tag = true -> no_char "_" digits = true ->
  PyStr.int digits = Return z ->
  (part ← PyStr.index (PyStr.rsplit1 "_" (tag ++ String "_" digits)) 1; PyStr.int part)
  = Return z.
Proof.
  intros Ht Hd Hz. unfold PyStr.rsplit1.
  rewrite (split_app_sep "_" tag digits Ht), (split_no_sep "_" digits Hd).
  cbn [rev app PyStr.join]. exact Hz.
Qed.

(** The path of a ContainerPath within the width decodes to its indices. *)
Lemma path_indices_container_path (a b c d : Z) :
  in_width a -> in_width b -> in_width c -> in_width d ->
  path_indices (container_path a b c d) = Return [a; b; c; d].
Proof.
  intros Ha Hb Hc Hd.
  destruct (str_spec a Ha) as (Ia & Sa & Ua), (str_spec b Hb) as (Ib & Sb & Ub),
           (str_spec c Hc) as (Ic & Sc & Uc), (str_spec d Hd) as (Id & Sd & Ud).
  unfold path_indices, container_path.
  change (PyStr.tail ("line_" ++ PyStr.str a ++ "/location_" ++ PyStr.str b
          ++ "/datacapture_" ++ PyStr.str c ++ "/echogram_" ++ PyStr.str d))
    with ("ine_" ++ PyStr.str a ++ "/location_" ++ PyStr.str b
          ++ "/datacapture_" ++ PyStr.str c ++ "/echogram_" ++ PyStr.str d).
  change ("ine_" ++ PyStr.str a ++ "/location_" ++ PyStr.str b
          ++ "/datacapture_" ++ PyStr.str c ++ "/echogram_" ++ PyStr.str d)
    with ("ine_" ++ (PyStr.str a ++ String "/" ("location_" ++ (PyStr.str b
          ++ String "/" ("datacapture_" ++ (PyStr.str c
          ++ String "/" ("echogram_" ++ PyStr.str d))))))).
  rewrite <- (string_app_assoc "ine_" (PyStr.str a)).
  rewrite split_app_sep by (rewrite no_char_app, Sa; reflexivity).
  rewrite <- (string_app_assoc "location_" (PyStr.str b)).
  rewrite split_app_sep by (rewrite no_char_app, Sb; reflexivity).
  rewrite <- (string_app_assoc "datacapture_" (PyStr.str c)).
  rewrite split_app_sep by (rewrite no_char_app, Sc; reflexivity).
  rewrite split_no_sep by (rewrite no_char_app, Sd; reflexivity).
  cbn [omap].
  change ("ine_" ++ PyStr.str a) with ("ine" ++ String "_" (PyStr.str a)).
  change ("location_" ++ PyStr.str b) with ("location" ++ String "_" (PyStr.str b)).
  change ("datacapture_" ++ PyStr.str c) with ("datacapture" ++ String "_" (PyStr.str c)).
  change ("echogram_" ++ PyStr.str d) with ("echogram" ++ String "_" (PyStr.str d)).
  rewrite (component_index "ine" _ a), (component_index "location" _ b),
          (component_index "datacapture" _ c), (component_index "echogram" _ d)
    by (reflexivity || assumption).
  reflexivity.
Qed.

(** C7.  The FID is a function of the four indices of a ContainerPath
    alone: for indices [a, b, c, d] between 0 and 9999, the path of the store
    layout for them, and every other path whose components end in these
    indices, is encoded as one and the same string of sixteen characters, the
    four zero-padded four-digit decimals of [a], [b], [c] and [d] in this
    order; and two such ContainerPaths get the same FID only if they are
    equal. *)
Theorem HDFpath2fid_deterministic_collision_free (a b c d a' b' c' d' : Z) :
  Forall in_width [a; b; c; d; a'; b'; c'; d'] ->
  HDFpath2fid (container_path a b c d) = Return (fid_of a b c d)
  /\ (forall p, path_indices p = Return [a; b; c; d] ->
                HDFpath2fid p = Return (fid_of a b c d))
  /\ String.length (fid_of a b c d) = 16
  /\ map (fun k => String.length (field k (fid_of a b c d))) [0; 1; 2; 3] = [4; 4; 4; 4]
  /\ map (fun k => PyStr.int (field k (fid_of a b c d))) [0; 1; 2; 3]
     = [Return a; Return b; Return c; Return d]
  /\ ((a, b, c, d) = (a', b', c', d') -> fid_of a b c d = fid_of a' b' c' d')
  /\ ((a, b, c, d) <> (a', b', c', d') ->
      HDFpath2fid (container_path a b c d) <> HDFpath2fid (container_path a' b' c' d')).
Proof.
  intros Hw.
  repeat (apply Forall_cons_1 in Hw as [? Hw]).
  assert (Hany : forall p, path_indices p = Return [a; b; c; d] ->
                           HDFpath2fid p = Return (fid_of a b c d)).
  { intros p Hp. unfold HDFpath2fid. rewrite Hp. reflexivity. }
  assert (Hany' : forall p, path_indices p = Return [a'; b'; c'; d'] ->
                            HDFpath2fid p = Return (fid_of a' b' c' d')).
  { intros p Hp. unfold HDFpath2fid. rewrite Hp. reflexivity. }
  split; [apply Hany, path_indices_container_path; assumption|].
  split; [exact Hany|].
  destruct (pad4_spec a) as [La _]; [assumption|].
  destruct (pad4_spec b) as [Lb _]; [assumption|].
  destruct (pad4_spec c) as [Lc _]; [assumption|].
  destruct (pad4_spec d) as [Ld _]; [assumption|].
  destruct (fid_fields a b c d La Lb Lc Ld) as (L & F0 & F1 & F2 & F3).
  destruct (fid_of_decode a b c d) as (_ & I0 & I1 & I2 & I3); try assumption.
  split; [exact L|].
  split; [cbn [map]; rewrite F0, F1, F2, F3, La, Lb, Lc, Ld; reflexivity|].
  split; [cbn [map]; rewrite I0, I1, I2, I3; reflexivity|].
  split.
  - intros E. injection E as -> -> -> ->. reflexivity.
  - intros Hne E. apply Hne.
    rewrite (Hany _ (path_indices_container_path a b c d ltac:(assumption) ltac:(assumption)
                       ltac:(assumption) ltac:(assumption))) in E.
    rewrite (Hany' _ (path_indices_container_path a' b' c' d' ltac:(assumption)
                        ltac:(assumption) ltac:(assumption) ltac:(assumption))) in E.
    injection E as E. apply fid_of_inj; assumption.
Qed.

Lemma HDFpath2fid_deterministic_collision_free_witness :
  HDFpath2fid "line_3/location_12/datacapture_0/echogram_1" = Return "0003001200000001"
  /\ HDFpath2fid "line_3/location_12/datacapture_0/echogram_1"
     <> HDFpath2fid "line_3/location_120/datacapture_0/echogram_1".
Proof.
  assert (Hw : Forall in_width [3; 12; 0; 1; 3; 120; 0; 1]%Z)
    by (repeat constructor; unfold in_width; lia).
  destruct (HDFpath2fid_deterministic_collision_free 3 12 0 1 3 120 0 1 Hw)
    as (H1 & _ & _ & _ & _ & _ & H2).
  split; [exact H1|]. apply H2. intros [=].
Defined.

End CodecFacts.

(** * Assembling the array *)

Section Assemble.
Context `{RL : RecordListAPI}.

Lemma obind_Return {A B} (o : outcome A) (k : A -> outcome B) (a : A) :
  o = Return a -> (o ≫= k) = k a.
Proof. intros ->. reflexivity. Qed.

Lemma readable_inv d : is_readable d = true -> snd d = Dataset (Samples (samples_of d)).
Proof.
  unfold is_readable, samples_of. destruct (snd d) as [[l|n e]|ms]; try discriminate.
  reflexivity.
Qed.

Lemma fold_left_max_list_max (l : list nat) (x : nat) :
  fold_left Nat.max l x = Nat.max x (list_max l).
Proof.
  revert x. induction l as [|y l IH]; intros x; cbn [fold_left list_max fold_right].
  - lia.
  - rewrite IH. change (fold_right Nat.max 0 l) with (list_max l). lia.
Qed.

Lemma py_max_list_max (l : list nat) : l <> [] -> py_max l = Return (list_max l).
Proof.
  destruct l as [|x l]; [congruence|]. intros _. unfold py_max.
  rewrite fold_left_max_list_max. reflexivity.
Qed.

Lemma index_lookup {A} (l : list A) (j : nat) (x : A) :
  l !! j = Some x -> PyStr.index l (Z.of_nat j) = Return x.
Proof.
  intros H. unfold PyStr.index. cbv zeta.
  assert (Z.ltb (Z.of_nat j) 0 = false) as -> by (apply Z.ltb_ge; lia).
  assert (Z.ltb (Z.of_nat j) 0 = false) as -> by (apply Z.ltb_ge; lia).
  rewrite Nat2Z.id.
  assert (nth_error l j = Some x) as ->; [|reflexivity].
  revert j H. induction l as [|y l IH]; intros [|j] H; try discriminate; cbn in *; auto.
Qed.

Lemma omap_shape0_datasets ds :
  forallb (fun d => is_dataset (snd d)) ds = true ->
  omap (fun d : string * h5obj => shape0 (snd d)) ds
  = Return (map (fun d => h5len (snd d)) ds).
Proof.
  induction ds as [|d ds IH]; intros H; [reflexivity|].
  apply andb_prop in H as [Hd Hds]. cbn [omap map].
  rewrite (IH Hds).
  destruct (snd d) as [[l|n e]|ms]; try discriminate; reflexivity.
Qed.

Lemma readable_len d : is_readable d = true -> h5len (snd d) = length (samples_of d).
Proof. intros H. rewrite (readable_inv d H). reflexivity. Qed.

Lemma readable_dataset d : is_readable d = true -> is_dataset (snd d) = true.
Proof. intros H. rewrite (readable_inv d H). reflexivity. Qed.

(** The copy loop turns the zero rows of a run of readable records into
    padded rows and goes on with the records after them. *)
Lemma fill_rows_prefix (m : nat) (rest1 rest2 done : list (string * h5obj))
    (above below : list (list float64)) (nsamples : list nat) (sh : nat * nat) :
  nsamples = map (fun d => h5len (snd d)) (done ++ rest1 ++ rest2) ->
  length above = length done ->
  forallb is_readable rest1 = true ->
  Forall (fun d => length (samples_of d) <= m) rest1 ->
  fill_rows (length done) (rest1 ++ rest2) nsamples
    {| shape := sh;
       rows := (above ++ replicate (length rest1) (replicate m 0%Z) ++ below)%list |}
  = fill_rows (length done + length rest1) rest2 nsamples
      {| shape := sh;
         rows := (above ++ map (fun d => padded m (map float64_of_int (samples_of d))) rest1
                ++ below)%list |}.
Proof.
  revert done above. induction rest1 as [|d rest1 IH]; intros done above Hns Hlen Hr Hm.
  - cbn [length app map replicate]. rewrite Nat.add_0_r. reflexivity.
  - apply andb_prop in Hr as [Hd Hr]. inversion Hm as [|? ? Hdm Hm']; subst.
    cbn [fill_rows app].
    erewrite obind_Return; cycle 1.
    { apply index_lookup.
      change (map ?g ?l) with (g <$> l). rewrite list_lookup_fmap.
      rewrite lookup_app_r by lia. rewrite Nat.sub_diag. reflexivity. }
    rewrite (readable_inv d Hd) at 1. cbn [read_all].
    erewrite (obind_Return (Return _)) by reflexivity.
    unfold assign_prefix. cbn [rows shape].
    rewrite lookup_app_r by lia. rewrite Hlen, Nat.sub_diag.
    cbn [length replicate lookup list_lookup app].
    rewrite length_replicate.
    rewrite (readable_len d Hd).
    rewrite (Nat.min_l _ _ Hdm), Nat.eqb_refl.
    erewrite (obind_Return (Return _)) by reflexivity.
    rewrite insert_app_r_alt by lia. rewrite Hlen, Nat.sub_diag.
    cbn [insert list_insert].
    change (skipn ?n ?l) with (drop n l). rewrite drop_replicate.
    replace (m - length (samples_of d))
      with (m - length (map float64_of_int (samples_of d)))
      by (rewrite length_map; reflexivity).
    fold (padded m (map float64_of_int (samples_of d))). cbn [map app].
    replace (S (length done)) with (length (done ++ [d])%list)
      by (rewrite length_app; cbn [length]; lia).
    replace (length done + S (length rest1)) with (length (done ++ [d])%list + length rest1)
      by (rewrite length_app; cbn [length]; lia).
    rewrite !(cons_middle (padded m (map float64_of_int (samples_of d)))), !app_assoc.
    rewrite <- !(app_assoc (above ++ [padded m (map float64_of_int (samples_of d))])%list).
    apply IH; auto.
    + rewrite <- !app_assoc. reflexivity.
    + rewrite !length_app. cbn [length]. lia.
Qed.

Lemma max_samples_bound ds :
  Forall (fun d => length (samples_of d) <= max_samples ds) ds.
Proof.
  unfold max_samples.
  assert (H := proj1 (list_max_le (map (fun d => length (samples_of d)) ds) _) (le_n _)).
  rewrite Forall_map in H. exact H.
Qed.

Lemma map_len_readable ds :
  forallb is_readable ds = true ->
  map (fun d => h5len (snd d)) ds = map (fun d => length (samples_of d)) ds.
Proof.
  induction ds as [|d ds IH]; intros H; [reflexivity|].
  apply andb_prop in H as [Hd Hds]. cbn [map].
  rewrite (readable_len d Hd), (IH Hds). reflexivity.
Qed.

Lemma forallb_readable_datasets ds :
  forallb is_readable ds = true -> forallb (fun d => is_dataset (snd d)) ds = true.
Proof.
  induction ds as [|d ds IH]; intros H; [reflexivity|].
  apply andb_prop in H as [Hd Hds]. cbn [forallb].
  rewrite (readable_dataset d Hd), (IH Hds). reflexivity.
Qed.

(** The conversion leaves an integer of magnitude up to [2^53] as it is. *)
Lemma float64_of_int_exact (z : Z) : fits_float64 z = true -> float64_of_int z = z.
Proof.
  unfold fits_float64. intros H. apply Z.leb_le in H.
  destruct (Z.eq_dec z (2 ^ 53)%Z) as [->|Np]; [vm_compute; reflexivity|].
  destruct (Z.eq_dec z (- 2 ^ 53)%Z) as [->|Nn]; [vm_compute; reflexivity|].
  unfold float64_of_int. cbv zeta.
  assert (Hlt : (Z.abs z < 2 ^ 53)%Z) by lia.
  assert (Hlog : (Z.log2 (Z.abs z) < 53)%Z).
  { destruct (Z.eq_dec (Z.abs z) 0%Z) as [E0|N0]; [rewrite E0; reflexivity|].
    apply Z.log2_lt_pow2; lia. }
  destruct (Z.leb_spec (Z.log2 (Z.abs z) - 52) 0%Z); [reflexivity | lia].
Qed.

Lemma map_float64_exact (l : list Z) :
  forallb fits_float64 l = true -> map float64_of_int l = l.
Proof.
  induction l as [|z l IH]; intros H; [reflexivity|].
  cbn [forallb] in H. apply andb_prop in H as [Hz Hl].
  cbn [map]. rewrite (float64_of_int_exact z Hz), (IH Hl). reflexivity.
Qed.

(** Where every sample is held exactly, the array holds the samples. *)
Lemma float64_array_exact ds : samples_fit ds = true -> float64_array ds = padded_array ds.
Proof.
  unfold samples_fit, float64_array, padded_array. intros H. f_equal.
  apply map_ext_in. intros d Hd.
  rewrite map_float64_exact; [reflexivity|].
  apply (proj1 (forallb_forall _ _) H d Hd).
Qed.

(** Lines 226-236 on a non-empty list of readable records. *)
Lemma assemble_readable_float64 ds :
  ds <> [] -> forallb is_readable ds = true ->
  assemble ds = Return (Some (float64_array ds)).
Proof.
  intros Hne Hr. unfold assemble.
  rewrite (obind_Return _ _ _ (omap_shape0_datasets ds (forallb_readable_datasets ds Hr))).
  rewrite (map_len_readable ds Hr).
  assert (Hns : map (fun d => length (samples_of d)) ds <> [])
    by (destruct ds; [congruence | discriminate]).
  rewrite (obind_Return _ _ _ (py_max_list_max _ Hns)).
  fold (max_samples ds).
  pose proof (fill_rows_prefix (max_samples ds) ds [] [] [] []
                (map (fun d => length (samples_of d)) ds) (length ds, max_samples ds)) as H.
  rewrite !app_nil_r in H. cbn [length app Nat.add] in H.
  unfold zeros. rewrite H; auto using max_samples_bound.
  symmetry. apply map_len_readable, Hr.
Qed.

Lemma assemble_readable ds :
  ds <> [] -> forallb is_readable ds = true -> samples_fit ds = true ->
  assemble ds = Return (Some (padded_array ds)).
Proof.
  intros Hne Hr Hfit. rewrite (assemble_readable_float64 ds Hne Hr).
  rewrite (float64_array_exact ds Hfit). reflexivity.
Qed.

(** Lines 226-236 on no record at all: [max] of the empty list is a
    [ValueError], which the handler turns into a bare [return]. *)
Lemma assemble_nil : assemble [] = Return None.
Proof. reflexivity. Qed.

(** A loop that returns has read every record. *)
Lemma fill_rows_Return_readable j ds nsamples arr arr' :
  fill_rows j ds nsamples arr = Return arr' -> forallb is_readable ds = true.
Proof.
  revert j arr. induction ds as [|d ds IH]; intros j arr H; [reflexivity|].
  cbn [fill_rows] in H.
  destruct (PyStr.index nsamples (Z.of_nat j)) as [n|]; [|discriminate].
  cbn in H. cbn [forallb].
  destruct (snd d) as [[l|n' e]|ms] eqn:Hd; try discriminate.
  assert (is_readable d = true) as -> by (unfold is_readable; rewrite Hd; reflexivity).
  cbn in H. destruct (assign_prefix arr j n l) as [arr1|]; [|discriminate].
  cbn in H. apply IH in H. exact H.
Qed.

(** No partial array: a returned array is the full padded array. *)
Lemma assemble_Some_full ds arr :
  assemble ds = Return (Some arr) ->
  ds <> [] /\ forallb is_readable ds = true /\ arr = float64_array ds.
Proof.
  intros H.
  assert (Hne : ds <> []) by (intros ->; discriminate).
  assert (Hr : forallb is_readable ds = true).
  { unfold assemble in H.
    destruct (omap _ ds) as [ns|]; [|discriminate]. cbn in H.
    destruct (py_max ns) as [mx|]; cbn in H.
    - destruct (fill_rows 0 ds ns (zeros (length ds) mx)) as [a|e] eqn:Hf.
      + eapply fill_rows_Return_readable, Hf.
      + destruct e; discriminate.
    - destruct e; discriminate. }
  rewrite (assemble_readable_float64 ds Hne Hr) in H. split; [|split]; congruence.
Qed.

(** A record that cannot be read: its error leaves the loop; the handler
    turns a [ValueError] into a bare [return] and lets anything else pass. *)
Lemma assemble_unreadable pre name n e post :
  forallb is_readable pre = true ->
  forallb (fun d => is_dataset (snd d)) post = true ->
  assemble (pre ++ (name, Dataset (Unreadable n e)) :: post)
  = match e with ValueError => Return None | _ => Raise e end.
Proof.
  intros Hpre Hpost. unfold assemble.
  set (ds := (pre ++ (name, Dataset (Unreadable n e)) :: post)%list).
  assert (Hds : forallb (fun d => is_dataset (snd d)) ds = true).
  { subst ds. rewrite forallb_app, (forallb_readable_datasets pre Hpre). cbn. exact Hpost. }
  rewrite (obind_Return _ _ _ (omap_shape0_datasets ds Hds)).
  assert (Hns : map (fun d => h5len (snd d)) ds <> [])
    by (subst ds; destruct pre; discriminate).
  rewrite (obind_Return _ _ _ (py_max_list_max _ Hns)).
  set (m := list_max _).
  assert (Hm : Forall (fun d => length (samples_of d) <= m) pre).
  { assert (H := proj1 (list_max_le (map (fun d => h5len (snd d)) ds) m) (le_n _)).
    rewrite Forall_map in H. subst ds. apply Forall_app in H as [H _].
    rewrite Forall_forall in H. apply Forall_forall. intros d Hd.
    rewrite <- readable_len; [apply H, Hd|].
    apply (proj1 (forallb_forall _ _) Hpre). apply list_elem_of_In, Hd. }
  pose proof (fill_rows_prefix m pre ((name, Dataset (Unreadable n e)) :: post) [] []
                (replicate (S (length post)) (replicate m 0%Z))
                (map (fun d => h5len (snd d)) ds) (length ds, m)
                eq_refl eq_refl Hpre Hm) as H.
  cbn [length app Nat.add] in H.
  unfold zeros.
  replace (replicate (length ds) (replicate m 0%Z))
    with (replicate (length pre) (replicate m 0%Z)
          ++ replicate (S (length post)) (replicate m 0%Z))%list.
  2:{ subst ds. rewrite length_app. cbn [length]. rewrite replicate_add. reflexivity. }
  fold ds in H. rewrite H.
  cbn [fill_rows].
  erewrite obind_Return; cycle 1.
  { apply index_lookup. subst ds.
    change (map ?g ?l) with (g <$> l). rewrite list_lookup_fmap.
    rewrite lookup_app_r by lia. rewrite Nat.sub_diag. reflexivity. }
  cbn. destruct e; reflexivity.
Qed.

Lemma nth_padded (m : nat) (l : list Z) (i : nat) :
  nth i (padded m l) 0%Z = if Nat.ltb i (length l) then nth i l 0%Z else 0%Z.
Proof.
  unfold padded. destruct (Nat.ltb_spec i (length l)) as [Hlt|Hge].
  - apply app_nth1, Hlt.
  - rewrite app_nth2 by lia.
    destruct (nth_lookup_or_length (replicate (m - length l) 0%Z) (i - length l) 0%Z)
      as [Hn|Hn].
    + apply lookup_replicate in Hn as [Hn _]. exact Hn.
    + apply nth_overflow. exact Hn.
Qed.

Lemma length_padded (m : nat) (l : list Z) : length l <= m -> length (padded m l) = m.
Proof. intros H. unfold padded. rewrite length_app, length_replicate. lia. Qed.

(** Cell [(i, j)] of the transposed array is sample [i] of record [j], or
    zero past the end of that record. *)
Lemma cell_transpose_padded ds j d i :
  ds !! j = Some d -> i < max_samples ds ->
  cell (transpose (padded_array ds)) i j
  = Some (if Nat.ltb i (length (samples_of d)) then nth i (samples_of d) 0%Z else 0%Z).
Proof.
  intros Hj Hi. unfold cell, transpose, padded_array. cbn [rows shape fst snd].
  change (map ?g ?l) with (g <$> l).
  rewrite list_lookup_fmap, (lookup_seq_lt 0 _ i Hi). cbn.
  rewrite !list_lookup_fmap, Hj. cbn.
  rewrite nth_padded. reflexivity.
Qed.

Lemma ExtractLine_unfold self line bounds dc w root :
  w_fs w !! sv_datafile self = Some (H5File root) ->
  snd (ExtractLine self line bounds dc w)
  = (datasets ← kept_records root line bounds dc;
     metadata ← collect_metadata ("line_" ++ PyStr.str line)
                  (RecordList_new (sv_datafile self)) datasets;
     arr ← assemble datasets;
     match arr with
     | None => Return None
     | Some a =>
         Return (Some {| g_data := transpose a;
                         g_infile := sv_datafile self;
                         g_line := line;
                         g_metadata := metadata;
                         g_retain := RetentionMap.view (sv_retain self)
                                       ("line_" ++ PyStr.str line);
                         g_dc := dc |})
     end).
Proof.
  intros H. unfold ExtractLine, mbind, M_bind, bind, h5open. rewrite H. reflexivity.
Qed.

(** C1.  For a non-empty list of kept records, all readable, with samples
    of magnitude up to [2^53] (which the [float64] array holds exactly),
    [ExtractLine] returns a gather whose array is the transpose of the
    zero-initialised [k x max n_i] array with each record copied into its
    row from the left: its first axis is the sample index, of length
    [max n_i], its second axis the record index, of length [k], and cell
    [(i, j)] is sample [i] of record [j], or zero where record [j] has fewer
    than [i + 1] samples. *)
Theorem ExtractLine_pads_and_transposes self line bounds dc w root ds md :
  w_fs w !! sv_datafile self = Some (H5File root) ->
  kept_records root line bounds dc = Return ds ->
  ds <> [] ->
  forallb is_readable ds = true ->
  samples_fit ds = true ->
  collect_metadata ("line_" ++ PyStr.str line) (RecordList_new (sv_datafile self)) ds
  = Return md ->
  exists g,
    snd (ExtractLine self line bounds dc w) = Return (Some g)
    /\ g_data g = transpose (padded_array ds)
    /\ shape (g_data g) = (list_max (map (fun d => length (samples_of d)) ds), length ds)
    /\ forall j d i,
         ds !! j = Some d ->
         i < list_max (map (fun d => length (samples_of d)) ds) ->
         cell (g_data g) i j
         = Some (if Nat.ltb i (length (samples_of d)) then nth i (samples_of d) 0%Z else 0%Z).
Proof.
  intros Hw Hk Hne Hr Hfit Hmd.
  eexists. rewrite (ExtractLine_unfold _ _ _ _ _ _ Hw).
  rewrite (obind_Return _ _ _ Hk), (obind_Return _ _ _ Hmd).
  rewrite (obind_Return _ _ _ (assemble_readable ds Hne Hr Hfit)).
  split; [reflexivity|]. cbn [g_data].
  split; [reflexivity|]. split; [reflexivity|].
  intros j d i Hj Hi. exact (cell_transpose_padded ds j d i Hj Hi).
Qed.

End Assemble.

(** * Selecting and ordering the records *)

Section Sorting.
Context {A : Type}.
Implicit Types (l : list (Z * A)) (kx : Z * A).

Lemma insert_by_key_perm kx l : Permutation (insert_by_key kx l) (kx :: l).
Proof.
  induction l as [|ky l IH]; cbn [insert_by_key]; [reflexivity|].
  destruct (Z.leb (fst kx) (fst ky)); [reflexivity|].
  rewrite IH. apply perm_swap.
Qed.

Lemma sort_keyed_perm l : Permutation (sort_keyed l) l.
Proof.
  induction l as [|kx l IH]; cbn [sort_keyed]; [reflexivity|].
  rewrite insert_by_key_perm, IH. reflexivity.
Qed.

Lemma insert_by_key_sorted kx l :
  StronglySorted key_le l -> StronglySorted key_le (insert_by_key kx l).
Proof.
  induction 1 as [|ky l Hs IH Hall]; cbn [insert_by_key].
  - repeat constructor.
  - destruct (Z.leb_spec (fst kx) (fst ky)) as [Hle|Hgt].
    + constructor; [constructor; assumption|].
      constructor; [exact Hle|].
      eapply Forall_impl; [exact Hall|].
      intros q Hq. unfold key_le in *. lia.
    + constructor; [exact IH|].
      eapply Permutation_Forall; [symmetry; apply insert_by_key_perm|].
      constructor; [unfold key_le; lia | exact Hall].
Qed.

Lemma sort_keyed_sorted l : StronglySorted key_le (sort_keyed l).
Proof.
  induction l as [|kx l IH]; cbn [sort_keyed]; [constructor|].
  apply insert_by_key_sorted, IH.
Qed.

(** Stability: elements with one key keep their order. *)
Lemma insert_by_key_stable (k : Z) kx l :
  StronglySorted key_le l ->
  List.filter (fun p => Z.eqb (fst p) k) (insert_by_key kx l)
  = List.filter (fun p => Z.eqb (fst p) k) (kx :: l).
Proof.
  induction 1 as [|ky l Hs IH Hall]; cbn [insert_by_key]; [reflexivity|].
  destruct (Z.leb_spec (fst kx) (fst ky)) as [Hle|Hgt]; [reflexivity|].
  cbn [List.filter] in *. rewrite IH.
  destruct (Z.eqb_spec (fst ky) k) as [Ey|Ny], (Z.eqb_spec (fst kx) k) as [Ex|Nx];
    try reflexivity.
  lia.
Qed.

Lemma sort_keyed_stable (k : Z) l :
  List.filter (fun p => Z.eqb (fst p) k) (sort_keyed l) = List.filter (fun p => Z.eqb (fst p) k) l.
Proof.
  induction l as [|kx l IH]; cbn [sort_keyed]; [reflexivity|].
  rewrite insert_by_key_stable by apply sort_keyed_sorted.
  cbn [List.filter]. rewrite IH. reflexivity.
Qed.

End Sorting.

Section Outcomes.
Context {A B : Type}.

Lemma omap_total (g : A -> outcome B) (h : A -> B) (l : list A) :
  Forall (fun x => g x = Return (h x)) l -> omap g l = Return (map h l).
Proof.
  induction 1 as [|x l Hx _ IH]; [reflexivity|].
  cbn [omap map]. rewrite Hx, IH. reflexivity.
Qed.

Lemma omap_Return_length (g : A -> outcome B) (l : list A) (ys : list B) :
  omap g l = Return ys -> length ys = length l.
Proof.
  revert ys. induction l as [|x l IH]; intros ys H; cbn [omap] in H.
  - injection H as <-. reflexivity.
  - destruct (g x) as [y|]; [|discriminate]. cbn in H.
    destruct (omap g l) as [ys'|]; [|discriminate]. cbn in H.
    injection H as <-. cbn [length]. rewrite (IH ys' eq_refl). reflexivity.
Qed.

Lemma ofilter_total (p : A -> outcome bool) (q : A -> bool) (l : list A) :
  Forall (fun x => p x = Return (q x)) l -> ofilter p l = Return (List.filter q l).
Proof.
  induction 1 as [|x l Hx _ IH]; [reflexivity|].
  cbn [ofilter List.filter]. rewrite Hx, IH. reflexivity.
Qed.

Lemma ofilter_Return_Forall (p : A -> outcome bool) (l r : list A) :
  ofilter p l = Return r -> Forall (fun x => p x = Return true) r.
Proof.
  revert r. induction l as [|x l IH]; intros r H; cbn [ofilter] in H.
  - injection H as <-. constructor.
  - destruct (p x) as [b|] eqn:Hx; [|discriminate]. cbn in H.
    destruct (ofilter p l) as [r'|]; [|discriminate]. cbn in H.
    injection H as <-. specialize (IH r' eq_refl).
    destruct b; [constructor; assumption | assumption].
Qed.

End Outcomes.

Section SortByKey.
Context {A : Type}.

Lemma map_snd_combine {K} (ks : list K) (l : list A) :
  length ks = length l -> map snd (combine ks l) = l.
Proof.
  revert ks. induction l as [|x l IH]; intros [|k ks] H; try discriminate; [reflexivity|].
  cbn. rewrite IH; [reflexivity | cbn in H; lia].
Qed.

Lemma combine_map_self (h : A -> Z) (l : list A) :
  combine (map h l) l = map (fun x => (h x, x)) l.
Proof. induction l as [|x l IH]; cbn; [reflexivity | rewrite IH; reflexivity]. Qed.

(** A sort that returns has permuted its input. *)
Lemma sort_by_key_Return_perm (key : A -> outcome Z) (l r : list A) :
  sort_by_key key l = Return r -> Permutation r l.
Proof.
  unfold sort_by_key. intros H.
  destruct (omap key l) as [ks|] eqn:Hk; [|discriminate]. cbn in H.
  injection H as <-.
  rewrite (Permutation_map snd (sort_keyed_perm _)).
  rewrite map_snd_combine; [reflexivity | eapply omap_Return_length, Hk].
Qed.

Lemma keyed_sorted_map_snd (h : A -> Z) (s : list (Z * A)) :
  Forall (fun p => fst p = h (snd p)) s ->
  StronglySorted key_le s ->
  StronglySorted (fun x y => (h x <= h y)%Z) (map snd s).
Proof.
  intros Hk Hs. induction Hs as [|p s Hs IH Hall]; cbn [map]; [constructor|].
  inversion Hk as [|? ? Hp Hk']; subst.
  constructor; [apply IH, Hk'|].
  rewrite Forall_map. rewrite Forall_forall in Hall, Hk' |- *.
  intros q Hq. specialize (Hall q Hq). specialize (Hk' q Hq).
  unfold key_le in Hall. cbn. lia.
Qed.

Lemma keyed_filter_map_snd (h : A -> Z) (k : Z) (s : list (Z * A)) :
  Forall (fun p => fst p = h (snd p)) s ->
  List.filter (fun x => Z.eqb (h x) k) (map snd s)
  = map snd (List.filter (fun p => Z.eqb (fst p) k) s).
Proof.
  induction 1 as [|p s Hp _ IH]; [reflexivity|].
  cbn [map List.filter]. rewrite IH, Hp.
  destruct (Z.eqb (h (snd p)) k); reflexivity.
Qed.

(** Where every key is an integer, the sort returns the stable ascending
    rearrangement of its input. *)
Lemma sort_by_key_total (key : A -> outcome Z) (h : A -> Z) (l : list A) :
  Forall (fun x => key x = Return (h x)) l ->
  exists r,
    sort_by_key key l = Return r
    /\ Permutation r l
    /\ StronglySorted (fun x y => (h x <= h y)%Z) r
    /\ forall k, List.filter (fun x => Z.eqb (h x) k) r
                 = List.filter (fun x => Z.eqb (h x) k) l.
Proof.
  intros Hkey. exists (map snd (sort_keyed (map (fun x => (h x, x)) l))).
  unfold sort_by_key.
  rewrite (omap_total _ _ _ Hkey). unfold mbind, outcome_bind, obind.
  rewrite combine_map_self.
  set (c := map (fun x => (h x, x)) l).
  assert (Hc : Forall (fun p : Z * A => fst p = h (snd p)) c).
  { subst c. rewrite Forall_map. apply Forall_forall. reflexivity. }
  assert (Hs : Forall (fun p : Z * A => fst p = h (snd p)) (sort_keyed c)).
  { eapply Permutation_Forall; [symmetry; apply sort_keyed_perm | exact Hc]. }
  assert (Hl : map snd c = l).
  { subst c. rewrite map_map. cbn. apply map_id. }
  split; [reflexivity|]. split; [|split].
  - rewrite (Permutation_map snd (sort_keyed_perm c)), Hl. reflexivity.
  - apply keyed_sorted_map_snd; [exact Hs | apply sort_keyed_sorted].
  - intros k. rewrite (keyed_filter_map_snd h k _ Hs), sort_keyed_stable.
    rewrite <- (keyed_filter_map_snd h k _ Hc), Hl. reflexivity.
Qed.

Lemma slice_incl (lo hi : option Z) (l : list A) (x : A) :
  In x (slice lo hi l) -> In x l.
Proof.
  unfold slice. intros H.
  set (a := match lo with Some i => clamp (length l) i | None => 0 end) in *.
  set (n := _ - a) in *.
  rewrite <- (firstn_skipn a l). apply in_or_app. right.
  rewrite <- (firstn_skipn n (skipn a l)). apply in_or_app. left. exact H.
Qed.

Lemma apply_bounds_incl (bounds : list (option Z)) (l r : list A) (x : A) :
  apply_bounds bounds l = Return r -> In x r -> In x l.
Proof.
  unfold apply_bounds, mbind, outcome_bind, obind. intros H Hx.
  destruct (PyStr.index bounds 1) as [hi|]; [|discriminate].
  destruct (PyStr.index bounds 0) as [lo|]; [|discriminate].
  injection H as <-.
  destruct lo, hi; repeat (apply slice_incl in Hx); exact Hx.
Qed.

End SortByKey.

Section Select.

Lemma keep_name_wanted path dc nd :
  (is_dataset (snd nd) = true ->
   PyStr.contains "picked" ("/" ++ path ++ "/" ++ fst nd) = false ->
   parent_name (fst nd) <> None) ->
  keep_name path (allowed_datacaptures dc) nd = Return (wanted path dc nd).
Proof.
  unfold keep_name, wanted, parent_name. intros H.
  destruct (is_dataset (snd nd)); [|reflexivity].
  destruct (PyStr.contains "picked" _); [reflexivity|].
  specialize (H eq_refl eq_refl).
  destruct (PyStr.index (PyStr.split "/" (fst nd)) (-2)) as [p|e]; [reflexivity|].
  congruence.
Qed.

Lemma keep_name_true_dataset path allowed nd :
  keep_name path allowed nd = Return true -> is_dataset (snd nd) = true.
Proof.
  unfold keep_name. destruct (is_dataset (snd nd)); [reflexivity | discriminate].
Qed.

Lemma location_key_loc_index nd :
  (exists k, location_key nd = Return k) -> location_key nd = Return (loc_index nd).
Proof. intros [k Hk]. unfold loc_index. rewrite Hk. reflexivity. Qed.

Lemma apply_bounds_open {A} (l : list A) : apply_bounds [None; None] l = Return l.
Proof. reflexivity. Qed.

(** Lines 192-200 on names that follow the layout of the store. *)
Lemma select_datasets_spec path dc names :
  Forall (fun nd => is_dataset (snd nd) = true ->
                    PyStr.contains "picked" ("/" ++ path ++ "/" ++ fst nd) = false ->
                    parent_name (fst nd) <> None) names ->
  Forall (fun nd => wanted path dc nd = true -> exists k, location_key nd = Return k) names ->
  exists kept,
    select_datasets path dc names = Return kept
    /\ Permutation kept (List.filter (wanted path dc) names)
    /\ StronglySorted (fun x y => (loc_index x <= loc_index y)%Z) kept
    /\ forall k, List.filter (fun x => Z.eqb (loc_index x) k) kept
                 = List.filter (fun x => Z.eqb (loc_index x) k)
                               (List.filter (wanted path dc) names).
Proof.
  intros Hparent Hkey. unfold select_datasets.
  rewrite (ofilter_total _ (wanted path dc)); cycle 1.
  { eapply Forall_impl; [exact Hparent|]. intros nd. apply keep_name_wanted. }
  assert (Hk : Forall (fun nd => location_key nd = Return (loc_index nd))
                      (List.filter (wanted path dc) names)).
  { apply Forall_forall. intros nd Hin. apply list_elem_of_In, filter_In in Hin as [Hin Hw].
    rewrite Forall_forall in Hkey. apply location_key_loc_index, Hkey; [|exact Hw].
    apply list_elem_of_In, Hin. }
  destruct (sort_by_key_total location_key loc_index _ Hk) as (r & Hr & Hp & Hs & Hst).
  exists r. auto.
Qed.

(** Every kept record is a dataset. *)
Lemma kept_records_datasets root line bounds dc ds :
  kept_records root line bounds dc = Return ds ->
  forallb (fun d => is_dataset (snd d)) ds = true.
Proof.
  unfold kept_records, select_datasets, mbind, outcome_bind, obind. intros H.
  destruct (h5get root _) as [grp|]; [|discriminate].
  destruct (h5members grp) as [members|]; [|discriminate].
  destruct (ofilter _ _) as [r0|] eqn:Hf; [|discriminate].
  destruct (sort_by_key location_key r0) as [r1|] eqn:Hs; [|discriminate].
  apply ofilter_Return_Forall in Hf. apply sort_by_key_Return_perm in Hs.
  apply forallb_forall. intros x Hx.
  apply (apply_bounds_incl _ _ _ _ H) in Hx.
  apply (Permutation_in _ Hs) in Hx.
  rewrite Forall_forall in Hf. eapply keep_name_true_dataset, Hf, list_elem_of_In, Hx.
Qed.

(** Lines 176-200 on a line whose names let the test and the sort key be
    computed. *)
Lemma kept_records_select root line dc members :
  h5get root ("line_" ++ PyStr.str line) = Return (Group members) ->
  Forall (fun nd => is_dataset (snd nd) = true ->
                    PyStr.contains "picked"
                      ("/" ++ ("line_" ++ PyStr.str line) ++ "/" ++ fst nd) = false ->
                    parent_name (fst nd) <> None) (h5visit members) ->
  Forall (fun nd => wanted ("line_" ++ PyStr.str line) dc nd = true ->
                    exists k, location_key nd = Return k) (h5visit members) ->
  exists kept,
    kept_records root line [None; None] dc = Return kept
    /\ Permutation kept (List.filter (wanted ("line_" ++ PyStr.str line) dc) (h5visit members))
    /\ (forall nd, In nd kept <->
          In nd (h5visit members)
          /\ is_dataset (snd nd) = true
          /\ PyStr.contains "picked" ("/" ++ ("line_" ++ PyStr.str line) ++ "/" ++ fst nd) = false
          /\ exists p, parent_name (fst nd) = Some p
                       /\ In p (allowed_datacaptures dc))
    /\ StronglySorted (fun x y => (loc_index x <= loc_index y)%Z) kept
    /\ (forall k, List.filter (fun x => Z.eqb (loc_index x) k) kept
                  = List.filter (fun x => Z.eqb (loc_index x) k)
                      (List.filter (wanted ("line_" ++ PyStr.str line) dc) (h5visit members)))
    /\ (forall c, dc = Single c ->
          kept_records root line [None; None] (Many [c]) = Return kept).
Proof.
  intros Hline Hparent Hkey.
  destruct (select_datasets_spec _ dc _ Hparent Hkey) as (kept & Hsel & Hperm & Hsort & Hst).
  assert (Hkept : kept_records root line [None; None] dc = Return kept).
  { unfold kept_records. rewrite (obind_Return _ _ _ Hline). cbn [h5members].
    rewrite (obind_Return (Return members) _ members eq_refl).
    rewrite (obind_Return _ _ _ Hsel). apply apply_bounds_open. }
  exists kept. split; [exact Hkept|]. split; [exact Hperm|].
  split; [|split; [exact Hsort | split; [exact Hst|]]].
  - intros nd. split.
    + intros Hin. apply (Permutation_in _ Hperm), filter_In in Hin as [Hin Hw].
      split; [exact Hin|]. unfold wanted in Hw.
      apply andb_prop in Hw as [Hw Hp]. apply andb_prop in Hw as [Hd Hn].
      split; [exact Hd|]. split; [apply negb_true_iff, Hn|].
      destruct (parent_name (fst nd)) as [p|]; [|discriminate].
      exists p. split; [reflexivity|].
      apply existsb_exists in Hp as (a & Ha & Hpa).
      apply String.eqb_eq in Hpa. subst a. exact Ha.
    + intros (Hin & Hd & Hn & p & Hp & Ha).
      apply (Permutation_in _ (Permutation_sym Hperm)), filter_In.
      split; [exact Hin|]. unfold wanted. rewrite Hd, Hn, Hp. cbn.
      apply existsb_exists. exists p. split; [exact Ha | apply String.eqb_refl].
  - intros c ->. exact Hkept.
Qed.

End Select.

(** ** Names of the store layout meet the conditions of the selection *)

Section Layout.
Import Codec.

Lemma split_length_pos sep (s : string) : 1 <= length (PyStr.split sep s).
Proof.
  induction s as [|x s IH]; cbn [PyStr.split]; [cbn; lia|].
  destruct (Ascii.eqb x sep); [cbn [length]; lia|].
  destruct (PyStr.split sep s); cbn [length] in *; lia.
Qed.

Lemma split_length_sep sep (s t : string) :
  2 <= length (PyStr.split sep (s ++ String sep t)).
Proof.
  induction s as [|x s IH].
  - change ("" ++ String sep t) with (String sep t). cbn [PyStr.split].
    rewrite Ascii.eqb_refl. cbn [length]. pose proof (split_length_pos sep t). lia.
  - change (String x s ++ String sep t) with (String x (s ++ String sep t)).
    cbn [PyStr.split].
    destruct (Ascii.eqb x sep); [cbn [length]; lia|].
    destruct (PyStr.split sep (s ++ String sep t)); cbn [length] in *; lia.
Qed.

(** A name with a slash in it has a parent. *)
Lemma layout_has_parent (dir leaf : string) :
  parent_name (dir ++ String "/" leaf) <> None.
Proof.
  unfold parent_name, PyStr.index.
  pose proof (split_length_sep "/" dir leaf) as Hlen.
  set (l := PyStr.split "/" (dir ++ String "/" leaf)) in *.
  cbv zeta.
  replace (Z.ltb (-2) 0) with true by reflexivity.
  destruct (Z.ltb_spec (-2 + Z.of_nat (length l)) 0) as [Hlt|Hge]; [lia|].
  destruct (nth_error l (Z.to_nat (-2 + Z.of_nat (length l)))) eqn:Hn; [discriminate|].
  apply nth_error_None in Hn. lia.
Qed.

(** A name under [location_<loc>] has the location index [loc]. *)
Lemma layout_has_location_key (loc : Z) (rest : string) (o : h5obj) :
  in_width loc ->
  location_key ("location_" ++ PyStr.str loc ++ String "/" rest, o) = Return loc.
Proof.
  intros Hloc.
  destruct (CodecFacts.str_spec loc Hloc) as (Hi & Hs & Hu).
  unfold location_key. cbn [fst].
  rewrite <- (CodecFacts.string_app_assoc "location_" (PyStr.str loc)).
  rewrite CodecFacts.split_app_sep by (rewrite CodecFacts.no_char_app, Hs; reflexivity).
  change (PyStr.index (?x :: ?l) 0) with (Return x).
  rewrite (obind_Return (Return _) _ _ eq_refl).
  change ("location_" ++ PyStr.str loc) with ("location" ++ String "_" (PyStr.str loc)).
  rewrite (CodecFacts.split_app_sep "_" "location") by reflexivity.
  rewrite (CodecFacts.split_no_sep "_" _ Hu).
  change (PyStr.index [?x; ?y] 1) with (Return y).
  rewrite (obind_Return (Return _) _ _ eq_refl). exact Hi.
Qed.

End Layout.

(** * Empty selections and failing reads *)

Section Failures.
Context `{RL : RecordListAPI}.

(** C2, as the code has it.  With no kept record [ExtractLine] returns
    [None] and raises nothing.  Where the first record that cannot be read
    fails with a [ValueError], it returns [None] as well; any other error of
    that read reaches the caller as it is.  A gather that is returned holds
    the full padded array of all kept records, never a part of it: one
    column for every kept record, every column as long as the longest
    record, each cell the [float64] of its sample, which is the sample
    itself where the samples have a magnitude of up to [2^53]. *)
Theorem ExtractLine_none_or_all self line bounds dc w root ds :
  w_fs w !! sv_datafile self = Some (H5File root) ->
  kept_records root line bounds dc = Return ds ->
  (ds = [] -> snd (ExtractLine self line bounds dc w) = Return None)
  /\ (forall pre name n e post md,
        ds = (pre ++ (name, Dataset (Unreadable n e)) :: post)%list ->
        forallb is_readable pre = true ->
        collect_metadata ("line_" ++ PyStr.str line) (RecordList_new (sv_datafile self)) ds
        = Return md ->
        snd (ExtractLine self line bounds dc w)
        = match e with ValueError => Return None | _ => Raise e end)
  /\ (forall g,
        snd (ExtractLine self line bounds dc w) = Return (Some g) ->
        ds <> [] /\ forallb is_readable ds = true
        /\ g_data g = transpose (float64_array ds)
        /\ (samples_fit ds = true -> g_data g = transpose (padded_array ds))
        /\ length (rows (g_data g)) = max_samples ds
        /\ Forall (fun row => length row = length ds) (rows (g_data g))).
Proof.
  intros Hw Hk. rewrite (ExtractLine_unfold _ _ _ _ _ _ Hw), (obind_Return _ _ _ Hk).
  split; [|split].
  - intros ->. reflexivity.
  - intros pre name n e post md Hds Hpre Hmd.
    rewrite (obind_Return _ _ _ Hmd).
    pose proof (kept_records_datasets _ _ _ _ _ Hk) as Hd.
    rewrite Hds, forallb_app in Hd. apply andb_prop in Hd as [_ Hd].
    cbn [forallb] in Hd. apply andb_prop in Hd as [_ Hpost].
    rewrite Hds, (assemble_unreadable pre name n e post Hpre Hpost).
    destruct e; reflexivity.
  - intros g Hg.
    destruct (collect_metadata _ _ ds) as [md|]; [|discriminate].
    unfold mbind, outcome_bind, obind in Hg.
    destruct (assemble ds) as [[arr|]|] eqn:Ha; try discriminate.
    apply assemble_Some_full in Ha as (Hne & Hr & ->).
    injection Hg as <-. cbn [g_data].
    split; [exact Hne|]. split; [exact Hr|]. split; [reflexivity|].
    split; [intros Hfit; rewrite (float64_array_exact ds Hfit); reflexivity|].
    unfold transpose, float64_array. cbn [rows shape fst snd].
    split.
    + rewrite length_map, length_seq. reflexivity.
    + rewrite Forall_map. apply Forall_forall. intros i _.
      rewrite !length_map. reflexivity.
Qed.

End Failures.

(** * Opening a store *)

(** C9.  For a path that names no file (nothing, or a directory),
    [Survey(path)] raises [IOError]: no survey and no retention map is
    produced, and the world, with its log of opened stores, is as before. *)
Theorem Survey_init_missing_file (datafile : string) (w : world) :
  isfile datafile w = false ->
  Survey_init datafile w = (w, Raise IOError)
  /\ w_opened (fst (Survey_init datafile w)) = w_opened w
  /\ forall self, snd (Survey_init datafile w) <> Return self.
Proof.
  intros H. unfold Survey_init. rewrite H. cbn.
  split; [reflexivity|]. split; [reflexivity|]. discriminate.
Qed.

Lemma Survey_init_missing_file_witness :
  Survey_init "nowhere.h5" Sample.world0 = (Sample.world0, Raise IOError)
  /\ w_opened (fst (Survey_init "nowhere.h5" Sample.world0)) = w_opened Sample.world0
  /\ forall self, snd (Survey_init "nowhere.h5" Sample.world0) <> Return self.
Proof.
  apply (Survey_init_missing_file "nowhere.h5" Sample.world0).
  vm_compute. reflexivity.
Defined.

Lemma Survey_init_opens (datafile : string) (w : world) (root : h5group) :
  w_fs w !! datafile = Some (H5File root) ->
  Survey_init datafile w
  = ({| w_fs := w_fs w; w_opened := (w_opened w ++ [datafile])%list |},
     Return {| sv_f := None; sv_datafile := datafile; sv_retain := init_retain root |}).
Proof.
  intros H. unfold Survey_init, isfile, mbind, M_bind, bind, h5open. rewrite H. reflexivity.
Qed.

(** ** The retention map after opening *)

Section Retention.
Implicit Types (r : gmap string (gmap string bool)) (line location : string).

Lemma present_set r line location v line' location' :
  RetentionMap.present (RetentionMap.set r line location v) line' location'
  = if decide (line = line' /\ location = location') then Some v
    else RetentionMap.present r line' location'.
Proof.
  unfold RetentionMap.present, RetentionMap.set, RetentionMap.view.
  destruct (decide (line = line')) as [->|Hl].
  - rewrite lookup_insert_eq. cbn.
    destruct (decide (location = location')) as [->|Hloc].
    + rewrite lookup_insert_eq. rewrite decide_True by auto. reflexivity.
    + rewrite lookup_insert_ne by exact Hloc.
      rewrite decide_False by (intros [_ ?]; contradiction).
      destruct (r !! line'); reflexivity.
  - rewrite lookup_insert_ne by exact Hl.
    rewrite decide_False by (intros [? _]; contradiction). reflexivity.
Qed.

Lemma present_fold_locations r line (names : list string) line' location' :
  RetentionMap.present
    (fold_left (fun r' location => RetentionMap.set r' line location true) names r)
    line' location'
  = if decide (line = line' /\ location' ∈ names) then Some true
    else RetentionMap.present r line' location'.
Proof.
  revert r. induction names as [|n names IH]; intros r; cbn [fold_left].
  - rewrite decide_False; [reflexivity|]. intros [_ H]. inversion H.
  - rewrite IH, present_set.
    destruct (decide (line = line' /\ location' ∈ names)) as [[-> Hin]|Hn].
    + rewrite decide_True by (split; [reflexivity | right; exact Hin]). reflexivity.
    + destruct (decide (line = line' /\ n = location')) as [[-> ->]|Hn'].
      * rewrite decide_True by (split; [reflexivity | left]). reflexivity.
      * rewrite decide_False; [reflexivity|].
        intros [-> Hin]. apply elem_of_cons in Hin as [->|Hin]; [apply Hn' | apply Hn]; auto.
Qed.

(** What [__init__] leaves in the map: every top-level group, paired with
    every top-level name. *)
Lemma present_init_retain_gen (root : h5group) (lines : list string) r line' location' :
  RetentionMap.present
    (fold_left
       (fun r line =>
          match h5get root line with
          | Return (Group _) =>
              fold_left (fun r' location => RetentionMap.set r' line location true)
                        (h5keys root) r
          | _ => r
          end) lines r) line' location'
  = if decide (line' ∈ lines
               /\ is_group_at root line' = true
               /\ location' ∈ h5keys root)
    then Some true
    else RetentionMap.present r line' location'.
Proof.
  revert r. induction lines as [|l lines IH]; intros r; cbn [fold_left].
  - rewrite decide_False; [reflexivity|]. intros [H _]. inversion H.
  - rewrite IH.
    destruct (decide (line' ∈ lines /\ _)) as [(Hin & Hg & Hloc)|Hn].
    + rewrite decide_True by (split; [right; exact Hin | split; assumption]). reflexivity.
    + destruct (decide (l = line')) as [->|Hl].
      * unfold is_group_at.
        destruct (h5get root line') as [[d|ms]|e] eqn:Hget.
        -- rewrite decide_False; [reflexivity|]. intros (_ & ? & _). discriminate.
        -- rewrite present_fold_locations.
           destruct (decide (location' ∈ h5keys root)) as [Hloc|Hloc].
           ++ rewrite !decide_True; auto. split; [left | auto].
           ++ rewrite !decide_False; [reflexivity | |]; intros H; apply Hloc, H.
        -- rewrite decide_False; [reflexivity|]. intros (_ & ? & _). discriminate.
      * assert (Hsame :
          RetentionMap.present
            match h5get root l with
            | Return (Group _) =>
                fold_left (fun r' location => RetentionMap.set r' l location true)
                          (h5keys root) r
            | _ => r
            end line' location'
          = RetentionMap.present r line' location').
        { destruct (h5get root l) as [[d|ms]|e]; try reflexivity.
          rewrite present_fold_locations.
          rewrite decide_False by (intros [? _]; contradiction). reflexivity. }
        rewrite Hsame.
        rewrite decide_False; [reflexivity|].
        intros (Hin & Hg & Hloc). apply elem_of_cons in Hin as [->|Hin];
          [contradiction | apply Hn; auto].
Qed.

Lemma present_init_retain (root : h5group) line location :
  RetentionMap.present (init_retain root) line location
  = if decide (line ∈ h5keys root
               /\ is_group_at root line = true
               /\ location ∈ h5keys root)
    then Some true
    else None.
Proof. unfold init_retain. rewrite present_init_retain_gen. reflexivity. Qed.

End Retention.

Lemma h5get_Return_elem (g : h5group) (name : string) (o : h5obj) :
  h5get g name = Return o -> name ∈ h5keys g /\ In (name, o) g.
Proof.
  induction g as [|[n o'] g IH]; cbn [h5get h5keys map fst]; [discriminate|].
  destruct (String.eqb_spec n name) as [->|Hne].
  - intros [= ->]. split; [left | left; reflexivity].
  - intros H. destruct (IH H) as [H1 H2]. split; [right; exact H1 | right; exact H2].
Qed.

Lemma h5get_NoDup (g : h5group) (name : string) (o : h5obj) :
  List.NoDup (h5keys g) -> In (name, o) g -> h5get g name = Return o.
Proof.
  induction g as [|[n o'] g IH]; cbn [h5get h5keys map fst]; [intros _ []|].
  intros Hnd [[= -> ->]|Hin].
  - rewrite String.eqb_refl. reflexivity.
  - inversion Hnd as [|? ? Hnotin Hnd']; subst.
    destruct (String.eqb_spec n name) as [->|Hne]; [|apply IH; assumption].
    exfalso. apply Hnotin. apply (in_map fst) in Hin. exact Hin.
Qed.

(** C5, as the code has it.  The inner loop of [__init__] runs over the
    top-level names of the store again, not over the locations of the line: a
    location of a line group is absent from the map unless its name is also a
    top-level name, and every line group is paired with every top-level
    name. *)
Theorem Survey_init_pairs_lines_with_top_level_names
    (datafile : string) (w : world) (root locs : h5group) (line location : string) :
  w_fs w !! datafile = Some (H5File root) ->
  h5get root line = Return (Group locs) ->
  location ∈ h5keys locs ->
  location ∉ h5keys root ->
  exists self,
    snd (Survey_init datafile w) = Return self
    /\ RetentionMap.present (sv_retain self) line location = None
    /\ forall other, other ∈ h5keys root ->
         RetentionMap.present (sv_retain self) line other = Some true.
Proof.
  intros Hw Hline Hloc Hnot. eexists.
  rewrite (Survey_init_opens _ _ _ Hw). cbn [snd].
  split; [reflexivity|]. cbn [sv_retain]. split.
  - rewrite present_init_retain. rewrite decide_False; [reflexivity|].
    intros (_ & _ & H). contradiction.
  - intros other Hother. rewrite present_init_retain. rewrite decide_True; [reflexivity|].
    split; [apply (h5get_Return_elem _ _ _ Hline)|].
    split; [unfold is_group_at; rewrite Hline; reflexivity | exact Hother].
Qed.

Lemma Survey_init_pairs_lines_with_top_level_names_witness :
  exists self,
    snd (Survey_init "survey.h5" Sample.world0) = Return self
    /\ RetentionMap.present (sv_retain self) "line_0" "location_2" = None
    /\ forall other, other ∈ h5keys Sample.root ->
         RetentionMap.present (sv_retain self) "line_0" other = Some true.
Proof.
  apply (Survey_init_pairs_lines_with_top_level_names
           "survey.h5" Sample.world0 Sample.root Sample.line0 "line_0" "location_2").
  - vm_compute. reflexivity.
  - reflexivity.
  - apply list_elem_of_In. vm_compute. right. left. reflexivity.
  - intros H. apply list_elem_of_In in H. vm_compute in H. intuition discriminate.
Defined.

(** * Writing *)

Lemma WriteHDF5_refuses_existing (self : Survey) (fnm : string) (w : world) :
  path_exists fnm w = true -> WriteHDF5 self fnm false w = (w, self, Return tt).
Proof. intros H. unfold WriteHDF5. rewrite H. reflexivity. Qed.

(** C6, as the code has it.  [__init__] leaves [self.f] at [None] and
    nothing else in the class assigns it.  Whenever [WriteHDF5] gets past its
    overwrite test it creates the destination, truncating what was there, and
    then fails with a [TypeError] on the loop over [self.f]: the store left
    behind is empty, with no line group and no location in it. *)
Theorem WriteHDF5_truncates_then_fails
    (datafile : string) (w0 w : world) (self : Survey) (fnm : string) (overwrite : bool) :
  Survey_init datafile w0 = (w, Return self) ->
  path_exists fnm w && negb overwrite = false ->
  w_fs w !! fnm <> Some Directory ->
  WriteHDF5 self fnm overwrite w
  = ({| w_fs := <[fnm := H5File []]> (w_fs w); w_opened := (w_opened w ++ [fnm])%list |},
     self, Raise TypeError).
Proof.
  intros Hinit Hpass Hdir.
  assert (Hf : sv_f self = None).
  { unfold Survey_init in Hinit.
    destruct (negb (isfile datafile w0)); [discriminate|].
    unfold mbind, M_bind, bind, h5open in Hinit.
    destruct (w_fs w0 !! datafile) as [[root| |]|]; try discriminate.
    injection Hinit as _ <-. reflexivity. }
  unfold WriteHDF5. rewrite Hpass. unfold h5create.
  destruct (w_fs w !! fnm) as [[root| |]|] eqn:Hfnm; try congruence;
    rewrite Hf; reflexivity.
Qed.

Lemma WriteHDF5_truncates_then_fails_witness :
  WriteHDF5 Sample.survey "out.h5" true
    {| w_fs := w_fs Sample.world0; w_opened := ["survey.h5"] |}
  = ({| w_fs := <["out.h5" := H5File []]> (w_fs Sample.world0);
        w_opened := ["survey.h5"; "out.h5"] |},
     Sample.survey, Raise TypeError).
Proof.
  apply (WriteHDF5_truncates_then_fails "survey.h5" Sample.world0
           {| w_fs := w_fs Sample.world0; w_opened := ["survey.h5"] |}
           Sample.survey "out.h5" true).
  - apply Survey_init_opens. vm_compute. reflexivity.
  - vm_compute. reflexivity.
  - vm_compute. discriminate.
Defined.

(** * Channels in a line *)

Lemma omap_map_In {A B C} (g : B -> outcome C) (f : A -> B) (h : A -> C) (l : list A) :
  (forall x, In x l -> g (f x) = Return (h x)) ->
  omap g (map f l) = Return (map h l).
Proof.
  induction l as [|x l IH]; intros H; [reflexivity|].
  cbn [omap map]. rewrite (H x (or_introl eq_refl)).
  rewrite IH by (intros y Hy; apply H; right; exact Hy). reflexivity.
Qed.

Lemma GetLines_opens (self : Survey) (w : world) (root : h5group) :
  w_fs w !! sv_datafile self = Some (H5File root) ->
  GetLines self w
  = ({| w_fs := w_fs w; w_opened := (w_opened w ++ [sv_datafile self])%list |},
     sort_by_key line_key
       (List.filter (fun name => String.eqb (substring 0 4 name) "line") (h5keys root))).
Proof.
  intros H. unfold GetLines, mbind, M_bind, bind, h5open, lift. rewrite H. reflexivity.
Qed.

Lemma location_ok_len (loc : h5obj) :
  location_ok loc = true -> h5len loc = length (channel_groups loc).
Proof.
  destruct loc as [d|ms]; [discriminate|]. cbn [location_ok h5len channel_groups].
  intros H. induction ms as [|m ms IH]; [reflexivity|].
  cbn [forallb] in H. apply andb_prop in H as [Hm Hms].
  cbn [List.filter length]. rewrite Hm. cbn [length]. rewrite (IH Hms). reflexivity.
Qed.

(** * Indexing *)

Section Indexing.
Context `{RL : RecordListAPI}.

(** C10.  [S[i]] is [ExtractLine(i, datacapture=0)] and [S[(i, j)]] is
    [ExtractLine(i, datacapture=j)] for integers [i] and [j].  A key that is
    neither an integer nor a tuple, and a pair with a component that is not an
    integer, raise [TypeError]; a tuple of any length but two raises
    [ValueError]; in these cases the world, with its log of opened stores, is
    as before. *)
Theorem getitem_delegates_or_raises (self : Survey) :
  (forall i, getitem self (PyInt i) = ExtractLine self i [None; None] (Single 0))
  /\ (forall i j,
        getitem self (PyTuple [PyInt i; PyInt j]) = ExtractLine self i [None; None] (Single j))
  /\ (forall key w,
        is_int key = false -> is_tuple key = false ->
        getitem self key w = (w, Raise TypeError))
  /\ (forall k0 k1 w,
        is_int k0 && is_int k1 = false ->
        getitem self (PyTuple [k0; k1]) w = (w, Raise TypeError))
  /\ (forall items w,
        length items <> 2 ->
        getitem self (PyTuple items) w = (w, Raise ValueError)).
Proof.
  split; [reflexivity|]. split; [reflexivity|]. split; [|split].
  - intros key w Hi Ht. destruct key; try discriminate; reflexivity.
  - intros k0 k1 w H. destruct k0, k1; try discriminate; reflexivity.
  - intros items w H.
    destruct items as [|a [|b [|c items]]]; cbn in H; try lia; reflexivity.
Qed.

End Indexing.

(** * The theorems on the sample store *)

Lemma ExtractLine_pads_and_transposes_witness :
  exists g,
    snd (ExtractLine (RL := Sample.fid_list) Sample.survey 0 [None; None] (Single 0)
           Sample.world0) = Return (Some g)
    /\ g_data g = transpose (padded_array Sample.kept0)
    /\ shape (g_data g)
       = (list_max (map (fun d => length (samples_of d)) Sample.kept0), length Sample.kept0)
    /\ forall j d i,
         Sample.kept0 !! j = Some d ->
         i < list_max (map (fun d => length (samples_of d)) Sample.kept0) ->
         cell (g_data g) i j
         = Some (if Nat.ltb i (length (samples_of d)) then nth i (samples_of d) 0%Z else 0%Z).
Proof.
  apply (ExtractLine_pads_and_transposes (RL := Sample.fid_list)
           Sample.survey 0 [None; None] (Single 0) Sample.world0 Sample.root Sample.kept0
           ["0000000200000000"; "0000000300000000"; "0000001000000000"]).
  - vm_compute. reflexivity.
  - vm_compute. reflexivity.
  - discriminate.
  - reflexivity.
  - reflexivity.
  - vm_compute. reflexivity.
Defined.

(** Sample lengths 3, 7 and 5: seven rows of three cells, the short records
    with zeros in their tail. *)
Example ExtractLine_sample_array :
  option_map g_data
    (match snd (ExtractLine (RL := Sample.fid_list) Sample.survey 0 [None; None] (Single 0)
                  Sample.world0) with
     | Return g => g
     | Raise _ => None
     end)
  = Some {| shape := (7, 3);
            rows := [ [6; 10; 1]; [7; 11; 2]; [8; 12; 3]; [0; 13; 4];
                      [0; 14; 5]; [0; 15; 0]; [0; 16; 0] ]%Z |}.
Proof. vm_compute. reflexivity. Qed.

(** C2, refuted as stated: line 1 of the sample store has no record; the
    call returns [None] and raises no error of any class. *)
Lemma ExtractLine_empty_selection_returns_None :
  kept_records Sample.root 1 [None; None] (Single 0) = Return []
  /\ snd (ExtractLine (RL := Sample.fid_list) Sample.survey 1 [None; None] (Single 0)
            Sample.world0) = Return None
  /\ forall e, snd (ExtractLine (RL := Sample.fid_list) Sample.survey 1 [None; None]
                      (Single 0) Sample.world0) <> Raise e.
Proof.
  split; [vm_compute; reflexivity|].
  split; [vm_compute; reflexivity|].
  intros e. vm_compute. discriminate.
Qed.

Lemma ExtractLine_none_or_all_witness :
  snd (ExtractLine (RL := Sample.fid_list) Sample.survey 1 [None; None] (Single 0)
         Sample.world0) = Return None.
Proof.
  refine (proj1 (ExtractLine_none_or_all (RL := Sample.fid_list)
                   Sample.survey 1 [None; None] (Single 0) Sample.world0 Sample.root []
                   _ _) eq_refl).
  - vm_compute. reflexivity.
  - vm_compute. reflexivity.
Defined.

(** A read that fails with a [ValueError] ends in [None], any other error
    comes out as it is. *)
Example ExtractLine_unreadable_sample :
  snd (ExtractLine (RL := Sample.fid_list) Sample.broken_survey 0 [None; None] (Single 0)
         (Sample.broken_world ValueError)) = Return None
  /\ snd (ExtractLine (RL := Sample.fid_list) Sample.broken_survey 0 [None; None] (Single 0)
            (Sample.broken_world IOError)) = Raise IOError
  /\ snd (ExtractLine (RL := Sample.fid_list) Sample.broken_survey 0 [None; None] (Single 0)
            (Sample.broken_world KeyError)) = Raise KeyError.
Proof. repeat split; vm_compute; reflexivity. Qed.

(** ** More runs on the sample store *)

Example GetLines_sample :
  snd (GetLines Sample.survey Sample.world0) = Return ["line_0"; "line_1"].
Proof. vm_compute. reflexivity. Qed.

(** Two channels at most on line 0; line 1 is empty; there is no third
    line, and the handler for that case fails on its own message. *)
Example GetChannelsInLine_sample :
  (snd (GetChannelsInLine Sample.survey 0 Sample.world0),
   snd (GetChannelsInLine Sample.survey 1 Sample.world0),
   snd (GetChannelsInLine Sample.survey 2 Sample.world0))
  = (Return 2, Raise EmptyLineError, Raise TypeError).
Proof. vm_compute. reflexivity. Qed.

Example ExtractLine_sample_channels :
  option_map (fun g => (shape (g_data g), g_metadata g))
    (match snd (ExtractLine (RL := Sample.fid_list) Sample.survey 0 [None; None]
                  (Many [0; 1]%Z) Sample.world0) with
     | Return g => g
     | Raise _ => None
     end)
  = Some ((7, 4), ["0000000200000000"; "0000000200010000";
                   "0000000300000000"; "0000001000000000"]).
Proof. vm_compute. reflexivity. Qed.

Example ExtractLine_sample_missing_line :
  snd (ExtractLine (RL := Sample.fid_list) Sample.survey 5 [None; None] (Single 0)
         Sample.world0) = Raise KeyError.
Proof. vm_compute. reflexivity. Qed.

(** What the loops of [WriteHDF5] do once [self.f] holds the source store:
    with location 3 of line 0 marked [false], the copy has both line groups
    and the other two locations of line 0. *)
Example WriteHDF5_with_source :
  let self := {| sv_f := Some Sample.root; sv_datafile := "survey.h5";
                 sv_retain := RetentionMap.set ∅ "line_0" "location_3" false |} in
  let '(w, _, r) := WriteHDF5 self "out.h5" false Sample.world0 in
  (r, match w_fs w !! "out.h5" with
      | Some (H5File out) =>
          map (fun m => (fst m, match snd m with
                                | Group ms => h5keys ms
                                | Dataset _ => []
                                end)) out
      | _ => []
      end)
  = (Return tt, [("line_0", ["location_10"; "location_2"]); ("line_1", [])]).
Proof. vm_compute. reflexivity. Qed.

(** * Decimal numerals *)

Section Numerals.

Lemma digit_val_of_nat (n : nat) :
  n < 10 -> PyStr.digit_val (ascii_of_nat (48 + n)) = Some (Z.of_nat n).
Proof.
  intros H. do 10 (destruct n as [|n]; [reflexivity|]). lia.
Qed.

Lemma digit_of_mod (z : Z) :
  (0 <= z)%Z ->
  PyStr.digit_val (ascii_of_nat (48 + Z.to_nat (z mod 10))) = Some (z mod 10)%Z.
Proof.
  intros Hz. pose proof (Z.mod_pos_bound z 10 eq_refl) as Hb.
  rewrite digit_val_of_nat by lia. f_equal. lia.
Qed.

(** Reading back the digits written for [z], in front of [acc]. *)
Lemma digits_of_pos_fuel_val (fuel : nat) :
  forall (z : Z) (acc : string),
    (0 <= z < 2 ^ Z.of_nat fuel)%Z ->
    exists k : Z, (0 <= k)%Z /\
      forall a, PyStr.digits_val a (PyStr.digits_of_pos_fuel fuel z acc)
                = PyStr.digits_val (a * 10 ^ k + z) acc.
Proof.
  induction fuel as [|fuel IH]; intros z acc Hz.
  - exists 0%Z. split; [lia|]. intros a. cbn [PyStr.digits_of_pos_fuel].
    change (2 ^ Z.of_nat 0)%Z with 1%Z in Hz. f_equal. lia.
  - cbn [PyStr.digits_of_pos_fuel]. cbv zeta.
    assert (Hdiv : (z = 10 * (z / 10) + z mod 10)%Z) by (apply Z.div_mod; lia).
    pose proof (Z.mod_pos_bound z 10 eq_refl) as Hmod.
    destruct (Z.eqb_spec (z / 10) 0) as [Hq|Hq].
    + exists 1%Z. split; [lia|]. intros a. cbn [PyStr.digits_val].
      rewrite digit_of_mod by lia. f_equal. lia.
    + assert (Hq' : (0 <= z / 10 < 2 ^ Z.of_nat fuel)%Z).
      { split; [apply Z.div_pos; lia|].
        rewrite Nat2Z.inj_succ, Z.pow_succ_r in Hz by lia.
        apply Z.div_lt_upper_bound; lia. }
      destruct (IH (z / 10)%Z (String (ascii_of_nat (48 + Z.to_nat (z mod 10))) acc) Hq')
        as (k & Hk & Hval).
      exists (k + 1)%Z. split; [lia|]. intros a. rewrite Hval.
      cbn [PyStr.digits_val]. rewrite digit_of_mod by lia. f_equal.
      rewrite Z.pow_add_r by lia. lia.
Qed.

Lemma digits_of_pos_fuel_chars (p : ascii -> bool) (fuel : nat) :
  (forall n, n < 10 -> p (ascii_of_nat (48 + n)) = true) ->
  forall (z : Z) (acc : string),
    (0 <= z)%Z -> all_chars p acc = true ->
    all_chars p (PyStr.digits_of_pos_fuel fuel z acc) = true.
Proof.
  intros Hp. induction fuel as [|fuel IH]; intros z acc Hz Hacc; [exact Hacc|].
  cbn [PyStr.digits_of_pos_fuel]. cbv zeta.
  pose proof (Z.mod_pos_bound z 10 eq_refl) as Hmod.
  assert (Hd : all_chars p (String (ascii_of_nat (48 + Z.to_nat (z mod 10))) acc) = true).
  { cbn [all_chars]. rewrite Hp by lia. exact Hacc. }
  destruct (Z.eqb (z / 10) 0); [exact Hd|].
  apply IH; [apply Z.div_pos; lia | exact Hd].
Qed.

Lemma digits_of_pos_fuel_acc_nonempty (fuel : nat) (z : Z) (acc : string) :
  acc <> "" -> PyStr.digits_of_pos_fuel fuel z acc <> "".
Proof.
  revert z acc. induction fuel as [|fuel IH]; intros z acc Hacc; [exact Hacc|].
  cbn [PyStr.digits_of_pos_fuel]. cbv zeta.
  destruct (Z.eqb (z / 10) 0); [discriminate | apply IH; discriminate].
Qed.

Lemma digits_of_pos_fuel_nonempty (fuel : nat) (z : Z) :
  PyStr.digits_of_pos_fuel (S fuel) z "" <> "".
Proof.
  cbn [PyStr.digits_of_pos_fuel]. cbv zeta.
  destruct (Z.eqb (z / 10) 0); [discriminate|].
  apply digits_of_pos_fuel_acc_nonempty. discriminate.
Qed.

Lemma fuel_enough (z : Z) :
  (0 <= z)%Z -> (0 <= z < 2 ^ Z.of_nat (S (Z.to_nat (Z.log2 z))))%Z.
Proof.
  intros Hz. split; [exact Hz|].
  pose proof (Z.log2_nonneg z) as Hl.
  rewrite Nat2Z.inj_succ, Z2Nat.id by lia.
  destruct (Z.eq_dec z 0%Z) as [->|Hne]; [reflexivity|].
  apply Z.log2_spec. lia.
Qed.

Lemma str_nonneg (z : Z) : (0 <= z)%Z -> PyStr.str z = digits z.
Proof.
  intros Hz. unfold PyStr.str, digits.
  destruct (Z.ltb_spec z 0); [lia | reflexivity].
Qed.

Lemma str_neg (z : Z) : (z < 0)%Z -> PyStr.str z = String "-" (digits (- z)).
Proof.
  intros Hz. unfold PyStr.str, digits.
  destruct (Z.ltb_spec z 0); [reflexivity | lia].
Qed.

Lemma digits_val_digits (z : Z) : (0 <= z)%Z -> PyStr.digits_val 0 (digits z) = Some z.
Proof.
  intros Hz. unfold digits.
  destruct (digits_of_pos_fuel_val _ z "" (fuel_enough z Hz)) as (k & _ & Hval).
  rewrite Hval. cbn [PyStr.digits_val]. f_equal; lia.
Qed.

Lemma digits_chars (p : ascii -> bool) (z : Z) :
  (forall n, n < 10 -> p (ascii_of_nat (48 + n)) = true) ->
  (0 <= z)%Z -> all_chars p (digits z) = true.
Proof.
  intros Hp Hz. unfold digits. apply digits_of_pos_fuel_chars; auto.
Qed.

Lemma digits_nonempty (z : Z) : digits z <> "".
Proof. apply digits_of_pos_fuel_nonempty. Qed.

(** The characters of [str z] are digits, after a minus sign for a
    negative [z]. *)
Lemma str_chars (p : ascii -> bool) (z : Z) :
  (forall n, n < 10 -> p (ascii_of_nat (48 + n)) = true) ->
  p "-"%char = true ->
  all_chars p (PyStr.str z) = true.
Proof.
  intros Hp Hm. destruct (Z.lt_ge_cases z 0) as [Hz|Hz].
  - rewrite (str_neg z Hz). cbn [all_chars]. rewrite Hm. apply digits_chars; [exact Hp | lia].
  - rewrite (str_nonneg z Hz). apply digits_chars; assumption.
Qed.

Lemma all_chars_no_char (c : ascii) (s : string) :
  all_chars (fun x => negb (Ascii.eqb x c)) s = Codec.no_char c s.
Proof. induction s as [|x s IH]; cbn; [reflexivity | rewrite IH; reflexivity]. Qed.

(** [str z] holds no slash, no underscore and no dot. *)
Lemma str_no_char (c : ascii) (z : Z) :
  c = "/"%char \/ c = "_"%char \/ c = "."%char ->
  Codec.no_char c (PyStr.str z) = true.
Proof.
  intros Hc. rewrite <- all_chars_no_char. apply str_chars.
  - intros n Hn. do 10 (destruct n as [|n]; [destruct Hc as [->|[->| ->]]; reflexivity|]). lia.
  - destruct Hc as [->|[->| ->]]; reflexivity.
Qed.

Lemma lstrip_id (s : string) :
  all_chars (fun c => negb (PyStr.is_space c)) s = true -> PyStr.lstrip s = s.
Proof.
  destruct s as [|c s]; [reflexivity|]. cbn [all_chars PyStr.lstrip].
  intros H. apply andb_prop in H as [Hc _]. apply negb_true_iff in Hc.
  rewrite Hc. reflexivity.
Qed.

Lemma rstrip_id (s : string) :
  all_chars (fun c => negb (PyStr.is_space c)) s = true -> PyStr.rstrip s = s.
Proof.
  induction s as [|c s IH]; [reflexivity|]. cbn [all_chars PyStr.rstrip].
  intros H. apply andb_prop in H as [Hc Hs]. apply negb_true_iff in Hc.
  rewrite (IH Hs). destruct s; [rewrite Hc; reflexivity | reflexivity].
Qed.

Lemma str_not_space (z : Z) :
  all_chars (fun c => negb (PyStr.is_space c)) (PyStr.str z) = true.
Proof.
  apply str_chars; [|reflexivity].
  intros n Hn. do 10 (destruct n as [|n]; [reflexivity|]). lia.
Qed.

Lemma digits_unsigned_start (z : Z) :
  (0 <= z)%Z ->
  exists c u, digits z = String c u /\ c <> "-"%char /\ c <> "+"%char.
Proof.
  intros Hz.
  pose proof (digits_chars (fun c => negb (Ascii.eqb c "-") && negb (Ascii.eqb c "+")) z) as H.
  destruct (digits z) as [|c u] eqn:Hd; [exfalso; exact (digits_nonempty z Hd)|].
  exists c, u. split; [reflexivity|].
  cbn [all_chars] in H.
  assert (Hc : negb (Ascii.eqb c "-") && negb (Ascii.eqb c "+") = true).
  { eapply proj1, andb_prop, H; [|exact Hz].
    intros n Hn. do 10 (destruct n as [|n]; [reflexivity|]). lia. }
  apply andb_prop in Hc as [H1 H2].
  apply negb_true_iff in H1, H2.
  split; intros ->; discriminate.
Qed.

Lemma int_unsigned (c : ascii) (u : string) :
  c <> "-"%char -> c <> "+"%char ->
  all_chars (fun x => negb (PyStr.is_space x)) (String c u) = true ->
  PyStr.int (String c u)
  = match PyStr.digits_val 0 (String c u) with
    | Some z => Return z
    | None => Raise ValueError
    end.
Proof.
  intros Hm Hp Hs. unfold PyStr.int. cbv zeta.
  rewrite (lstrip_id _ Hs), (rstrip_id _ Hs).
  destruct c as [[] [] [] [] [] [] [] []]; try reflexivity; congruence.
Qed.

(** [int(str(z))] is [z]. *)
Lemma int_str (z : Z) : PyStr.int (PyStr.str z) = Return z.
Proof.
  destruct (Z.lt_ge_cases z 0) as [Hz|Hz].
  - pose proof (str_not_space z) as Hs. rewrite (str_neg z Hz) in Hs |- *.
    unfold PyStr.int. cbv zeta. rewrite (lstrip_id _ Hs), (rstrip_id _ Hs).
    unfold PyStr.unsigned_val.
    destruct (digits (- z)) as [|c u] eqn:Hd; [exfalso; exact (digits_nonempty _ Hd)|].
    rewrite <- Hd, digits_val_digits by lia. cbn. f_equal. lia.
  - pose proof (str_not_space z) as Hs. rewrite (str_nonneg z Hz) in Hs |- *.
    destruct (digits_unsigned_start z Hz) as (c & u & Hd & Hm & Hp).
    rewrite Hd in Hs |- *. rewrite (int_unsigned c u Hm Hp Hs).
    rewrite <- Hd, digits_val_digits by lia. reflexivity.
Qed.

Lemma str_inj (z z' : Z) : PyStr.str z = PyStr.str z' -> z = z'.
Proof.
  intros H. pose proof (int_str z) as Hz. rewrite H, int_str in Hz. congruence.
Qed.

End Numerals.

(** * Listing the lines *)

Section Lines.

Lemma index_raises {A} (l : list A) (i : Z) (e : py_exn) :
  PyStr.index l i = Raise e -> e = IndexError.
Proof.
  unfold PyStr.index. cbv zeta.
  destruct (Z.ltb _ 0); [intros [= <-]; reflexivity|].
  destruct (nth_error _ _); [discriminate | intros [= <-]; reflexivity].
Qed.

Lemma index_out_of_range {A} (l : list A) (i : Z) :
  (Z.of_nat (length l) <= i \/ i < - Z.of_nat (length l))%Z ->
  PyStr.index l i = Raise IndexError.
Proof.
  intros H. unfold PyStr.index. cbv zeta.
  destruct (Z.ltb_spec i 0) as [Hi|Hi].
  - destruct (Z.ltb_spec (i + Z.of_nat (length l)) 0) as [Hj|Hj]; [reflexivity|].
    destruct H as [H|H]; lia.
  - destruct (Z.ltb_spec i 0) as [Hj|Hj]; [lia|].
    destruct (nth_error l (Z.to_nat i)) eqn:Hn; [|reflexivity].
    assert (Z.to_nat i < length l)%nat by (apply nth_error_Some; congruence).
    destruct H as [H|H]; lia.
Qed.

Lemma int_raises (s : string) (e : py_exn) : PyStr.int s = Raise e -> e = ValueError.
Proof.
  unfold PyStr.int. cbv zeta.
  match goal with |- match ?r with _ => _ end = _ -> _ => destruct r end;
    [discriminate | intros [= <-]; reflexivity].
Qed.

Lemma line_key_raises (name : string) (e : py_exn) :
  line_key name = Raise e -> e = IndexError \/ e = ValueError.
Proof.
  unfold line_key, mbind, outcome_bind, obind.
  destruct (PyStr.index _ 1) as [part|e'] eqn:Hi.
  - intros H. right. eapply int_raises, H.
  - intros [= <-]. left. eapply index_raises, Hi.
Qed.

Lemma omap_Raise {A B} (g : A -> outcome B) (l : list A) (x : A) (e : py_exn) :
  In x l -> g x = Raise e ->
  exists y e', In y l /\ g y = Raise e' /\ omap g l = Raise e'.
Proof.
  induction l as [|a l IH]; intros Hin Hx; [destruct Hin|].
  cbn [omap]. destruct (g a) as [b|e'] eqn:Ha.
  - destruct Hin as [->|Hin]; [congruence|].
    destruct (IH Hin Hx) as (y & e'' & Hy & Hgy & Hom).
    exists y, e''. split; [right; exact Hy|]. split; [exact Hgy|].
    rewrite Hom. reflexivity.
  - exists a, e'. split; [left; reflexivity|]. split; [exact Ha | reflexivity].
Qed.

(** The index of a name [line_<z>]. *)
Lemma line_key_layout (z : Z) : line_key ("line_" ++ PyStr.str z) = Return z.
Proof.
  unfold line_key.
  change ("line_" ++ PyStr.str z) with ("line" ++ String "_" (PyStr.str z)).
  rewrite (CodecFacts.split_app_sep "_" "line") by reflexivity.
  rewrite (CodecFacts.split_no_sep "_") by (apply str_no_char; auto).
  change (PyStr.index [?x; ?y] 1) with (Return y).
  rewrite (obind_Return (Return _) _ _ eq_refl). apply int_str.
Qed.

(** X1.  Where every top-level name that begins with "line" carries an
    integer after its first underscore, [GetLines] returns exactly these
    names, each once per occurrence, in ascending order of that integer and
    not of the text, names with one integer in their order in the file. *)
Theorem GetLines_sorted_by_number (self : Survey) (w : world) (root : h5group) :
  w_fs w !! sv_datafile self = Some (H5File root) ->
  Forall (fun name => is_line_name name = true -> exists k, line_key name = Return k)
         (h5keys root) ->
  exists lines,
    snd (GetLines self w) = Return lines
    /\ Permutation lines (List.filter is_line_name (h5keys root))
    /\ (forall name, In name lines <-> In name (h5keys root) /\ is_line_name name = true)
    /\ StronglySorted (fun x y => (line_index x <= line_index y)%Z) lines
    /\ forall k, List.filter (fun x => Z.eqb (line_index x) k) lines
                 = List.filter (fun x => Z.eqb (line_index x) k)
                     (List.filter is_line_name (h5keys root)).
Proof.
  intros Hw Hkey. rewrite (GetLines_opens _ _ _ Hw). cbn [snd].
  assert (Hk : Forall (fun name => line_key name = Return (line_index name))
                      (List.filter is_line_name (h5keys root))).
  { apply Forall_forall. intros name Hin.
    apply list_elem_of_In, filter_In in Hin as [Hin Hl].
    rewrite Forall_forall in Hkey.
    destruct (Hkey name (proj2 (list_elem_of_In _ _) Hin) Hl) as [k Hk].
    unfold line_index. rewrite Hk. reflexivity. }
  destruct (sort_by_key_total line_key line_index _ Hk) as (r & Hr & Hp & Hs & Hst).
  exists r. split; [exact Hr|]. split; [exact Hp|]. split; [|split; assumption].
  intros name. rewrite <- filter_In. split; apply Permutation_in; [|symmetry]; exact Hp.
Qed.

Lemma GetLines_sorted_by_number_witness :
  exists lines,
    snd (GetLines Samples.numbered_survey Samples.numbered_world) = Return lines
    /\ lines = ["line_2"; "line_10"; "line_11"].
Proof.
  destruct (GetLines_sorted_by_number Samples.numbered_survey Samples.numbered_world
              Samples.numbered_root) as (lines & Hl & _).
  - vm_compute. reflexivity.
  - repeat (constructor;
              [intros H; first [ discriminate H | eexists; vm_compute; reflexivity ]|]).
    constructor.
  - exists lines. split; [exact Hl|]. vm_compute in Hl. injection Hl as <-. reflexivity.
Defined.

(** X2.  One top-level name that begins with "line" but has no integer after
    its first underscore (no underscore at all, or something else than a
    number behind it) makes [GetLines] fail for the whole store, with an
    [IndexError] or a [ValueError]; it returns no list. *)
Theorem GetLines_fails_on_unnumbered_name
    (self : Survey) (w : world) (root : h5group) (name : string) (e : py_exn) :
  w_fs w !! sv_datafile self = Some (H5File root) ->
  In name (h5keys root) ->
  is_line_name name = true ->
  line_key name = Raise e ->
  exists e', snd (GetLines self w) = Raise e' /\ (e' = IndexError \/ e' = ValueError).
Proof.
  intros Hw Hin Hl Hk. rewrite (GetLines_opens _ _ _ Hw). cbn [snd].
  assert (Hin' : In name (List.filter is_line_name (h5keys root)))
    by (apply filter_In; auto).
  destruct (omap_Raise line_key _ name e Hin' Hk) as (y & e' & _ & Hy & Hom).
  exists e'. split; [|eapply line_key_raises, Hy].
  unfold sort_by_key.
  change (List.filter _ (h5keys root)) with (List.filter is_line_name (h5keys root)).
  rewrite Hom. reflexivity.
Qed.

Lemma GetLines_fails_on_unnumbered_name_witness :
  exists e',
    snd (GetLines {| sv_f := None; sv_datafile := "odd.h5"; sv_retain := ∅ |}
           {| w_fs := {[ "odd.h5" := H5File [("line_0", Group []); ("lines", Group [])] ]};
              w_opened := [] |}) = Raise e'
    /\ (e' = IndexError \/ e' = ValueError).
Proof.
  apply (GetLines_fails_on_unnumbered_name _ _
           [("line_0", Group []); ("lines", Group [])] "lines" IndexError).
  - vm_compute. reflexivity.
  - right. left. reflexivity.
  - reflexivity.
  - reflexivity.
Defined.

(** X3.  A line number outside the list of lines does not come out of
    [GetChannelsInLine] as an [IndexError]: the handler for it fails on its
    own message, and the call raises [TypeError], after one opening of the
    store. *)
Theorem GetChannelsInLine_out_of_range
    (self : Survey) (w : world) (root : h5group) (lines : list string) (lineno : Z) :
  w_fs w !! sv_datafile self = Some (H5File root) ->
  snd (GetLines self w) = Return lines ->
  (Z.of_nat (length lines) <= lineno \/ lineno < - Z.of_nat (length lines))%Z ->
  GetChannelsInLine self lineno w
  = ({| w_fs := w_fs w; w_opened := (w_opened w ++ [sv_datafile self])%list |},
     Raise TypeError).
Proof.
  intros Hw Hlines Hrange.
  rewrite (GetLines_opens _ _ _ Hw) in Hlines. cbn [snd] in Hlines.
  unfold GetChannelsInLine.
  rewrite (GetLines_opens _ _ _ Hw), Hlines, (obind_Return (Return lines) _ lines eq_refl).
  rewrite (index_out_of_range lines lineno Hrange). reflexivity.
Qed.

Lemma GetChannelsInLine_out_of_range_witness :
  GetChannelsInLine Sample.survey 2 Sample.world0
  = ({| w_fs := w_fs Sample.world0; w_opened := ["survey.h5"] |}, Raise TypeError).
Proof.
  apply (GetChannelsInLine_out_of_range Sample.survey Sample.world0 Sample.root
           ["line_0"; "line_1"] 2).
  - vm_compute. reflexivity.
  - vm_compute. reflexivity.
  - left. cbn. lia.
Defined.

End Lines.

(** * More on bounds and selection *)

Section BoundsMore.
Context `{RL : RecordListAPI}.

(** The bounds act on the sorted selection alone. *)
Lemma kept_records_bounds root line dc bounds (selected : list (string * h5obj)) :
  kept_records root line [None; None] dc = Return selected ->
  kept_records root line bounds dc = apply_bounds bounds selected.
Proof.
  unfold kept_records, mbind, outcome_bind, obind.
  destruct (h5get root _) as [grp|]; [|discriminate].
  destruct (h5members grp) as [members|]; [|discriminate].
  destruct (select_datasets _ dc _) as [sel|]; [|discriminate].
  rewrite apply_bounds_open. intros [= ->]. reflexivity.
Qed.

Lemma ExtractLine_world self line bounds dc w :
  fst (ExtractLine self line bounds dc w)
  = {| w_fs := w_fs w; w_opened := (w_opened w ++ [sv_datafile self])%list |}.
Proof.
  unfold ExtractLine, mbind, M_bind, bind, h5open, lift.
  destruct (w_fs w !! sv_datafile self) as [[root| |]|]; reflexivity.
Qed.

(** X4.  Bounds that are not a pair: with fewer than two elements
    [ExtractLine] raises [IndexError] once the selection is made (the
    warning about the length does not stop [bounds[1]] from being read); with
    more than two, the elements after the second are never looked at. *)
Theorem ExtractLine_malformed_bounds self line dc w root selected :
  w_fs w !! sv_datafile self = Some (H5File root) ->
  kept_records root line [None; None] dc = Return selected ->
  (forall bounds, length bounds < 2 ->
     snd (ExtractLine self line bounds dc w) = Raise IndexError)
  /\ (forall lo hi extra,
        ExtractLine self line (lo :: hi :: extra) dc w = ExtractLine self line [lo; hi] dc w).
Proof.
  intros Hw Hsel. split.
  - intros bounds Hlen. rewrite (ExtractLine_unfold _ _ _ _ _ _ Hw).
    rewrite (kept_records_bounds _ _ _ bounds _ Hsel).
    unfold apply_bounds.
    rewrite (index_out_of_range bounds 1) by (left; lia). reflexivity.
  - intros lo hi extra.
    apply injective_projections; [rewrite !ExtractLine_world; reflexivity|].
    rewrite !(ExtractLine_unfold _ _ _ _ _ _ Hw).
    rewrite !(kept_records_bounds _ _ _ _ _ Hsel). reflexivity.
Qed.

End BoundsMore.

Lemma ExtractLine_malformed_bounds_witness :
  snd (ExtractLine (RL := Sample.fid_list) Sample.survey 0 [Some 1%Z] (Single 0)
         Sample.world0) = Raise IndexError.
Proof.
  refine (proj1 (ExtractLine_malformed_bounds (RL := Sample.fid_list) Sample.survey 0
                   (Single 0) Sample.world0 Sample.root Sample.kept0 _ _) [Some 1%Z] _).
  - vm_compute. reflexivity.
  - vm_compute. reflexivity.
  - cbn. lia.
Defined.

Section BoundsRun.
Context {A : Type}.

Lemma slice_run (lo hi : option Z) (l : list A) :
  exists pre post, l = (pre ++ slice lo hi l ++ post)%list
                   /\ length pre = Nat.min (match lo with
                                            | Some i => clamp (length l) i
                                            | None => 0
                                            end) (length l).
Proof.
  unfold slice. cbv zeta.
  set (a := match lo with Some i => clamp (length l) i | None => 0 end).
  set (n := _ - a).
  exists (firstn a l), (skipn n (skipn a l)). split.
  - rewrite firstn_skipn, firstn_skipn. reflexivity.
  - apply length_firstn.
Qed.

End BoundsRun.

Section BoundsKept.

(** X5.  Bounds never reorder, repeat or drop a record from the middle: the
    records kept under a pair of bounds are one contiguous run of the sorted
    selection.  For [0 <= lo <= hi] the run starts after the first
    [min lo n] of the [n] selected records and has [min hi n - min lo n]
    records. *)
Theorem kept_records_bounds_run root line dc (lo hi : option Z)
    (selected : list (string * h5obj)) :
  kept_records root line [None; None] dc = Return selected ->
  exists kept pre post,
    kept_records root line [lo; hi] dc = Return kept
    /\ selected = (pre ++ kept ++ post)%list
    /\ forall i j : Z,
         lo = Some i -> hi = Some j -> (0 <= i <= j)%Z ->
         length pre = Nat.min (Z.to_nat i) (length selected)
         /\ length kept = Nat.min (Z.to_nat j) (length selected)
                          - Nat.min (Z.to_nat i) (length selected).
Proof.
  intros Hsel. rewrite (kept_records_bounds _ _ _ [lo; hi] _ Hsel).
  rewrite apply_bounds_two_pass.
  destruct (slice_run None hi selected) as (pre1 & post1 & E1 & L1).
  destruct (slice_run lo None (slice None hi selected)) as (pre2 & post2 & E2 & L2).
  exists (slice lo None (slice None hi selected)), (pre1 ++ pre2)%list, (post2 ++ post1)%list.
  split; [reflexivity|]. split.
  - rewrite E1 at 1. rewrite E2 at 1. rewrite <- !app_assoc. reflexivity.
  - intros i j -> -> Hij.
    assert (Hp1 : pre1 = []) by (destruct pre1; [reflexivity | discriminate]).
    subst pre1. cbn [app length] in *.
    rewrite L2. rewrite (slice_from (Some i)), (slice_upto (Some j)).
    pose proof (length_firstn (clamp (length selected) j) selected) as Ht.
    set (t := firstn (clamp (length selected) j) selected) in *.
    pose proof (length_skipn (clamp (length t) i) t) as Hd.
    rewrite Hd, Ht. unfold clamp.
    destruct (Z.ltb_spec i 0), (Z.ltb_spec j 0); lia.
Qed.

End BoundsKept.

Lemma kept_records_bounds_run_witness :
  exists kept pre post,
    kept_records Sample.root 0 [Some 1%Z; Some 2%Z] (Single 0) = Return kept
    /\ Sample.kept0 = (pre ++ kept ++ post)%list
    /\ length pre = 1 /\ length kept = 1.
Proof.
  destruct (kept_records_bounds_run Sample.root 0 (Single 0) (Some 1%Z) (Some 2%Z)
              Sample.kept0) as (kept & pre & post & Hk & Hrun & Hlen).
  - vm_compute. reflexivity.
  - exists kept, pre, post. split; [exact Hk|]. split; [exact Hrun|].
    destruct (Hlen 1%Z 2%Z eq_refl eq_refl) as [H1 H2]; [lia|].
    split; [exact H1 | exact H2].
Defined.

(** * More on line extraction *)

Section ExtractMore.
Context `{RL : RecordListAPI}.

Lemma h5get_raises (g : h5group) (name : string) (e : py_exn) :
  h5get g name = Raise e -> e = KeyError.
Proof.
  induction g as [|[n o] g IH]; cbn [h5get]; [intros [= <-]; reflexivity|].
  destruct (String.eqb n name); [discriminate | exact IH].
Qed.

Lemma h5get_missing (g : h5group) (name : string) :
  ~ In name (h5keys g) -> h5get g name = Raise KeyError.
Proof.
  intros Hnot. destruct (h5get g name) as [o|e] eqn:H.
  - exfalso. apply Hnot. apply list_elem_of_In. eapply h5get_Return_elem, H.
  - f_equal. eapply h5get_raises, H.
Qed.

(** X6.  A line number without a group [line_<number>] in the store is a
    [KeyError], whatever the bounds and the channels, after one opening of
    the store; the same comes out of indexing the survey with that number.
    Line numbers are names, not positions: nothing counts from the end. *)
Theorem ExtractLine_missing_line self line bounds dc w root :
  w_fs w !! sv_datafile self = Some (H5File root) ->
  ~ In ("line_" ++ PyStr.str line) (h5keys root) ->
  ExtractLine self line bounds dc w
  = ({| w_fs := w_fs w; w_opened := (w_opened w ++ [sv_datafile self])%list |},
     Raise KeyError)
  /\ getitem self (PyInt line) w = ExtractLine self line bounds dc w.
Proof.
  intros Hw Hnot.
  assert (H : forall b d, ExtractLine self line b d w
            = ({| w_fs := w_fs w; w_opened := (w_opened w ++ [sv_datafile self])%list |},
               Raise KeyError)).
  { intros b d. apply injective_projections; [apply ExtractLine_world|].
    rewrite (ExtractLine_unfold _ _ _ _ _ _ Hw). unfold kept_records.
    rewrite (h5get_missing _ _ Hnot). reflexivity. }
  split; [apply H|]. cbn [getitem]. rewrite !H. reflexivity.
Qed.

Lemma ofilter_ext {A} (p q : A -> outcome bool) (l : list A) :
  (forall x, In x l -> p x = q x) -> ofilter p l = ofilter q l.
Proof.
  induction l as [|x l IH]; intros H; [reflexivity|].
  cbn [ofilter]. rewrite (H x (or_introl eq_refl)).
  rewrite IH by (intros y Hy; apply H; right; exact Hy). reflexivity.
Qed.

Lemma existsb_same_elements {A} (f : A -> bool) (l1 l2 : list A) :
  (forall x, In x l1 <-> In x l2) -> existsb f l1 = existsb f l2.
Proof.
  intros H. apply eq_true_iff_eq. rewrite !existsb_exists.
  split; intros (x & Hx & Hf); exists x; (split; [apply H, Hx | exact Hf]).
Qed.

(** X7.  Only the set of channels in the selector counts: two channel lists
    with the same elements, in any order and with any repetition, keep the
    same records in the same order and give the same array and metadata (or
    the same failure). *)
Theorem ExtractLine_channel_set self line bounds (dcs1 dcs2 : list Z) w root :
  w_fs w !! sv_datafile self = Some (H5File root) ->
  (forall c, In c dcs1 <-> In c dcs2) ->
  kept_records root line bounds (Many dcs1) = kept_records root line bounds (Many dcs2)
  /\ gather_view (snd (ExtractLine self line bounds (Many dcs1) w))
     = gather_view (snd (ExtractLine self line bounds (Many dcs2) w)).
Proof.
  intros Hw Hsame.
  assert (Hk : kept_records root line bounds (Many dcs1)
               = kept_records root line bounds (Many dcs2)).
  { unfold kept_records, select_datasets.
    destruct (h5get root _) as [grp|]; [|reflexivity]. cbn.
    destruct (h5members grp) as [members|]; [|reflexivity]. cbn.
    rewrite (ofilter_ext
               (keep_name ("line_" ++ PyStr.str line) (allowed_datacaptures (Many dcs1)))
               (keep_name ("line_" ++ PyStr.str line) (allowed_datacaptures (Many dcs2))));
      [reflexivity|].
    intros nd _. unfold keep_name.
    destruct (is_dataset (snd nd)); [|reflexivity].
    destruct (PyStr.contains "picked" _); [reflexivity|].
    destruct (PyStr.index _ (-2)) as [parent|]; [|reflexivity]. cbn. f_equal.
    apply existsb_same_elements. intros name. cbn [allowed_datacaptures].
    rewrite !in_map_iff. split; intros (c & Hc & Hin); exists c; (split; [exact Hc|]);
      apply Hsame, Hin. }
  split; [exact Hk|].
  rewrite !(ExtractLine_unfold _ _ _ _ _ _ Hw), Hk.
  destruct (kept_records root line bounds (Many dcs2)) as [ds|]; [|reflexivity]. cbn.
  destruct (collect_metadata _ _ ds) as [md|]; [|reflexivity]. cbn.
  destruct (assemble ds) as [[arr|]|]; reflexivity.
Qed.

(** X8.  A selection that no record of the line passes (a channel that no
    location carries, an empty channel list) is no error: [ExtractLine]
    returns [None] for any pair of bounds. *)
Theorem ExtractLine_no_match self line (lo hi : option Z) dc w root members :
  w_fs w !! sv_datafile self = Some (H5File root) ->
  h5get root ("line_" ++ PyStr.str line) = Return (Group members) ->
  Forall (fun nd => is_dataset (snd nd) = true ->
                    PyStr.contains "picked"
                      ("/" ++ ("line_" ++ PyStr.str line) ++ "/" ++ fst nd) = false ->
                    parent_name (fst nd) <> None) (h5visit members) ->
  Forall (fun nd => wanted ("line_" ++ PyStr.str line) dc nd = false) (h5visit members) ->
  snd (ExtractLine self line [lo; hi] dc w) = Return None.
Proof.
  intros Hw Hline Hparent Hnone.
  assert (Hsel : kept_records root line [None; None] dc = Return []).
  { unfold kept_records. rewrite (obind_Return _ _ _ Hline). cbn [h5members].
    rewrite (obind_Return (Return members) _ members eq_refl).
    unfold select_datasets.
    rewrite (ofilter_total _ (wanted ("line_" ++ PyStr.str line) dc)); cycle 1.
    { eapply Forall_impl; [exact Hparent|]. intros nd. apply keep_name_wanted. }
    assert (List.filter (wanted ("line_" ++ PyStr.str line) dc) (h5visit members) = []) as ->.
    { clear - Hnone. induction Hnone as [|nd l Hnd _ IH]; [reflexivity|].
      cbn [List.filter]. rewrite Hnd. exact IH. }
    reflexivity. }
  rewrite (ExtractLine_unfold _ _ _ _ _ _ Hw).
  rewrite (kept_records_bounds _ _ _ [lo; hi] _ Hsel).
  rewrite apply_bounds_two_pass.
  assert (slice lo None (slice None hi (@nil (string * h5obj))) = []) as ->.
  { unfold slice. cbn [length]. rewrite skipn_nil, firstn_nil. cbn [length].
    rewrite skipn_nil, firstn_nil. reflexivity. }
  reflexivity.
Qed.

Lemma collect_metadata_app path md (l1 l2 : list (string * h5obj)) :
  collect_metadata path md (l1 ++ l2)
  = (md1 ← collect_metadata path md l1; collect_metadata path md1 l2).
Proof.
  revert md. induction l1 as [|d l1 IH]; intros md; [reflexivity|].
  cbn [app collect_metadata].
  destruct (add_metadata path md d) as [md'|]; [|reflexivity].
  cbn. apply IH.
Qed.

(** X9.  A kept record whose path does not decode with a [ValueError] (not
    four components, or something else than a number at the end of one) is
    passed over by the metadata alone: the collaborator is not called for
    it, the metadata is that of the other records, and the array still has
    the record in its column (the samples being of magnitude up to [2^53],
    which the [float64] array holds exactly). *)
Theorem ExtractLine_skips_metadata_of_malformed_path
    self line bounds dc w root pre d post md :
  w_fs w !! sv_datafile self = Some (H5File root) ->
  kept_records root line bounds dc = Return (pre ++ d :: post)%list ->
  HDFpath2fid (("line_" ++ PyStr.str line) ++ "/" ++ fst d) = Raise ValueError ->
  forallb is_readable (pre ++ d :: post) = true ->
  samples_fit (pre ++ d :: post) = true ->
  collect_metadata ("line_" ++ PyStr.str line) (RecordList_new (sv_datafile self))
                   (pre ++ post) = Return md ->
  gather_view (snd (ExtractLine self line bounds dc w))
  = Return (Some (transpose (padded_array (pre ++ d :: post)), md)).
Proof.
  intros Hw Hk Hfid Hr Hfit Hmd.
  rewrite (ExtractLine_unfold _ _ _ _ _ _ Hw), (obind_Return _ _ _ Hk).
  rewrite collect_metadata_app in Hmd |- *.
  destruct (collect_metadata _ _ pre) as [md1|]; [|discriminate].
  cbn in Hmd |- *. cbn [collect_metadata]. unfold add_metadata at 1. rewrite Hfid.
  cbn. rewrite Hmd. cbn.
  rewrite assemble_readable by (auto; destruct pre; discriminate).
  reflexivity.
Qed.

(** A leaf name without an underscore cannot be decoded. *)
Lemma HDFpath2fid_leaf_without_underscore (line loc c : Z) (leaf : string) :
  Codec.no_char "_" leaf = true -> Codec.no_char "/" leaf = true ->
  HDFpath2fid (("line_" ++ PyStr.str line) ++ "/"
               ++ ("location_" ++ PyStr.str loc ++ "/datacapture_" ++ PyStr.str c
                   ++ "/" ++ leaf))
  = Raise IndexError.
Proof.
  intros Hu Hs. unfold HDFpath2fid, path_indices.
  change (PyStr.tail (("line_" ++ PyStr.str line) ++ "/"
            ++ ("location_" ++ PyStr.str loc ++ "/datacapture_" ++ PyStr.str c ++ "/" ++ leaf)))
    with (("ine_" ++ PyStr.str line) ++ String "/" (("location_" ++ PyStr.str loc)
            ++ String "/" (("datacapture_" ++ PyStr.str c) ++ String "/" leaf))).
  rewrite CodecFacts.split_app_sep
    by (rewrite CodecFacts.no_char_app, str_no_char by auto; reflexivity).
  rewrite CodecFacts.split_app_sep
    by (rewrite CodecFacts.no_char_app, str_no_char by auto; reflexivity).
  rewrite CodecFacts.split_app_sep
    by (rewrite CodecFacts.no_char_app, str_no_char by auto; reflexivity).
  rewrite (CodecFacts.split_no_sep "/" leaf Hs).
  cbn [omap].
  change ("ine_" ++ PyStr.str line) with ("ine" ++ String "_" (PyStr.str line)).
  change ("location_" ++ PyStr.str loc) with ("location" ++ String "_" (PyStr.str loc)).
  change ("datacapture_" ++ PyStr.str c) with ("datacapture" ++ String "_" (PyStr.str c)).
  rewrite (CodecFacts.component_index "ine" _ line),
          (CodecFacts.component_index "location" _ loc),
          (CodecFacts.component_index "datacapture" _ c)
    by (reflexivity || apply int_str || (apply str_no_char; auto)).
  unfold PyStr.rsplit1. rewrite (CodecFacts.split_no_sep "_" leaf Hu). reflexivity.
Qed.

(** X10.  A kept record whose leaf name has no underscore stops the whole
    call: the [IndexError] of the decoding is not among the errors the
    metadata loop handles, and [ExtractLine] raises it although every sample
    could be read. *)
Theorem ExtractLine_fails_on_leaf_without_underscore
    self line bounds dc w root pre post md1 (loc c : Z) (leaf : string) (o : h5obj) :
  w_fs w !! sv_datafile self = Some (H5File root) ->
  kept_records root line bounds dc
  = Return (pre ++ (("location_" ++ PyStr.str loc ++ "/datacapture_" ++ PyStr.str c
                     ++ "/" ++ leaf)%string, o) :: post)%list ->
  collect_metadata ("line_" ++ PyStr.str line) (RecordList_new (sv_datafile self)) pre
  = Return md1 ->
  Codec.no_char "_" leaf = true -> Codec.no_char "/" leaf = true ->
  snd (ExtractLine self line bounds dc w) = Raise IndexError.
Proof.
  intros Hw Hk Hpre Hu Hs.
  rewrite (ExtractLine_unfold _ _ _ _ _ _ Hw), (obind_Return _ _ _ Hk).
  rewrite collect_metadata_app, (obind_Return _ _ _ Hpre).
  cbn [collect_metadata]. unfold add_metadata at 1. cbn [fst].
  rewrite (HDFpath2fid_leaf_without_underscore line loc c leaf Hu Hs). reflexivity.
Qed.

End ExtractMore.

Lemma ExtractLine_missing_line_witness :
  ExtractLine (RL := Sample.fid_list) Sample.survey (-1) [None; None] (Single 0) Sample.world0
  = ({| w_fs := w_fs Sample.world0; w_opened := ["survey.h5"] |}, Raise KeyError)
  /\ getitem (RL := Sample.fid_list) Sample.survey (PyInt (-1)) Sample.world0
     = ExtractLine (RL := Sample.fid_list) Sample.survey (-1) [None; None] (Single 0)
         Sample.world0.
Proof.
  apply (ExtractLine_missing_line (RL := Sample.fid_list) Sample.survey (-1) [None; None]
           (Single 0) Sample.world0 Sample.root).
  - vm_compute. reflexivity.
  - vm_compute. intuition discriminate.
Defined.

Lemma ExtractLine_channel_set_witness :
  kept_records Sample.root 0 [None; None] (Many [0; 1]%Z)
  = kept_records Sample.root 0 [None; None] (Many [1; 0; 1]%Z)
  /\ gather_view (snd (ExtractLine (RL := Sample.fid_list) Sample.survey 0 [None; None]
                         (Many [0; 1]%Z) Sample.world0))
     = gather_view (snd (ExtractLine (RL := Sample.fid_list) Sample.survey 0 [None; None]
                           (Many [1; 0; 1]%Z) Sample.world0)).
Proof.
  apply (ExtractLine_channel_set (RL := Sample.fid_list) Sample.survey 0 [None; None]
           [0; 1]%Z [1; 0; 1]%Z Sample.world0 Sample.root).
  - vm_compute. reflexivity.
  - intros c. cbn [In]. intuition.
Defined.

Lemma ExtractLine_no_match_witness :
  snd (ExtractLine (RL := Sample.fid_list) Sample.survey 0 [None; Some 2%Z] (Single 7)
         Sample.world0) = Return None.
Proof.
  apply (ExtractLine_no_match (RL := Sample.fid_list) Sample.survey 0 None (Some 2%Z)
           (Single 7) Sample.world0 Sample.root Sample.line0).
  - vm_compute. reflexivity.
  - reflexivity.
  - repeat (constructor;
              [intros H1 H2; vm_compute in H1; vm_compute in H2;
               first [discriminate H1 | discriminate H2 | (vm_compute; discriminate)]|]).
    constructor.
  - repeat (constructor; [vm_compute; reflexivity|]). constructor.
Defined.

Lemma ExtractLine_skips_metadata_of_malformed_path_witness :
  gather_view (snd (ExtractLine (RL := Sample.fid_list) Samples.odd_survey 0 [None; None]
                      (Single 0) Samples.odd_world))
  = Return (Some ({| shape := (2, 2); rows := [[1; 3]; [2; 0]]%Z |}, ["0000000000000000"])).
Proof.
  apply (ExtractLine_skips_metadata_of_malformed_path (RL := Sample.fid_list)
           Samples.odd_survey 0 [None; None] (Single 0) Samples.odd_world Samples.odd_root
           [("location_0/datacapture_0/echogram_0", Dataset (Samples [1; 2]%Z))]
           ("location_0/datacapture_0/echogram_x", Dataset (Samples [3]%Z)) []
           ["0000000000000000"]).
  - vm_compute. reflexivity.
  - vm_compute. reflexivity.
  - vm_compute. reflexivity.
  - reflexivity.
  - reflexivity.
  - vm_compute. reflexivity.
Defined.

Lemma ExtractLine_fails_on_leaf_without_underscore_witness :
  snd (ExtractLine (RL := Sample.fid_list) Samples.odd_survey 1 [None; None] (Single 0)
         Samples.odd_world) = Raise IndexError.
Proof.
  apply (ExtractLine_fails_on_leaf_without_underscore (RL := Sample.fid_list)
           Samples.odd_survey 1 [None; None] (Single 0) Samples.odd_world Samples.odd_root
           [] [] [] 0 0 "echogram" (Dataset (Samples [4]%Z))).
  - vm_compute. reflexivity.
  - vm_compute. reflexivity.
  - reflexivity.
  - reflexivity.
  - reflexivity.
Defined.

(** * More on the identity codec *)

Section CodecMore.
Import Codec.

(** The indices of a layout path, with or without the leading slash, for
    indices of any size. *)
Lemma path_indices_layout (lead : string) (a b c d : Z) :
  lead = "/" \/ lead = "" ->
  path_indices (lead ++ container_path a b c d) = Return [a; b; c; d].
Proof.
  intros Hlead. unfold path_indices.
  assert (Ht : exists tag, Codec.no_char "_" tag = true /\ Codec.no_char "/" tag = true
            /\ PyStr.tail (lead ++ container_path a b c d)
               = (tag ++ String "_" (PyStr.str a)) ++ String "/"
                   (("location" ++ String "_" (PyStr.str b)) ++ String "/"
                      (("datacapture" ++ String "_" (PyStr.str c)) ++ String "/"
                         ("echogram" ++ String "_" (PyStr.str d))))).
  { destruct Hlead as [->| ->]; [exists "line" | exists "ine"];
      (split; [reflexivity|]); (split; [reflexivity|]); reflexivity. }
  destruct Ht as (tag & Hu & Hs & ->).
  rewrite CodecFacts.split_app_sep
    by (rewrite CodecFacts.no_char_app, Hs; cbn [Codec.no_char]; apply str_no_char; auto).
  rewrite CodecFacts.split_app_sep
    by (rewrite CodecFacts.no_char_app; cbn [Codec.no_char]; apply str_no_char; auto).
  rewrite CodecFacts.split_app_sep
    by (rewrite CodecFacts.no_char_app; cbn [Codec.no_char]; apply str_no_char; auto).
  rewrite CodecFacts.split_no_sep
    by (rewrite CodecFacts.no_char_app; cbn [Codec.no_char]; apply str_no_char; auto).
  cbn [omap].
  rewrite (CodecFacts.component_index tag _ a),
          (CodecFacts.component_index "location" _ b),
          (CodecFacts.component_index "datacapture" _ c),
          (CodecFacts.component_index "echogram" _ d)
    by (assumption || reflexivity || apply int_str || (apply str_no_char; auto)).
  reflexivity.
Qed.

Lemma HDFpath2fid_layout (a b c d : Z) :
  HDFpath2fid (container_path a b c d) = Return (fid_of a b c d).
Proof.
  unfold HDFpath2fid.
  pose proof (path_indices_layout "" a b c d (or_intror eq_refl)) as H.
  change ("" ++ container_path a b c d) with (container_path a b c d) in H.
  rewrite H. reflexivity.
Qed.

(** X11.  [HDFpath2fid] drops the first character of its argument.  The
    path of a record decodes to its four indices, of any size, both with the
    leading slash of an absolute HDF name and without it, as [ExtractLine]
    passes it (where the dropped character is the first letter of "line"):
    the two forms get the same FID. *)
Theorem HDFpath2fid_with_or_without_slash (a b c d : Z) :
  HDFpath2fid ("/" ++ container_path a b c d) = Return (fid_of a b c d)
  /\ HDFpath2fid (container_path a b c d) = Return (fid_of a b c d).
Proof.
  split; [|apply HDFpath2fid_layout].
  unfold HDFpath2fid. rewrite (path_indices_layout "/") by auto. reflexivity.
Qed.

Lemma digits_of_pos_fuel_app (fuel : nat) (z : Z) (acc1 acc2 : string) :
  PyStr.digits_of_pos_fuel fuel z (acc1 ++ acc2)
  = PyStr.digits_of_pos_fuel fuel z acc1 ++ acc2.
Proof.
  revert z acc1. induction fuel as [|fuel IH]; intros z acc1; [reflexivity|].
  cbn [PyStr.digits_of_pos_fuel]. cbv zeta.
  destruct (Z.eqb (z / 10) 0); [reflexivity|].
  rewrite <- IH. reflexivity.
Qed.

Lemma digits_of_pos_fuel_any_fuel (f1 : nat) :
  forall (f2 : nat) (z : Z) (acc : string),
    (0 <= z < 2 ^ Z.of_nat (S f1))%Z -> (z < 2 ^ Z.of_nat (S f2))%Z ->
    PyStr.digits_of_pos_fuel (S f1) z acc = PyStr.digits_of_pos_fuel (S f2) z acc.
Proof.
  induction f1 as [|f1 IH]; intros f2 z acc H1 H2.
  - cbn [PyStr.digits_of_pos_fuel]. cbv zeta.
    change (2 ^ Z.of_nat 1)%Z with 2%Z in H1.
    assert (z / 10 = 0)%Z as -> by (apply Z.div_small; lia). reflexivity.
  - remember (S f1) as g1 eqn:Hg1.
    cbn [PyStr.digits_of_pos_fuel]. cbv zeta.
    destruct (Z.eqb_spec (z / 10) 0) as [Hq|Hq]; [reflexivity|].
    assert (Hqpos : (1 <= z / 10)%Z).
    { pose proof (Z.div_pos z 10). lia. }
    assert (Hq1 : (z / 10 < 2 ^ Z.of_nat g1)%Z).
    { rewrite (Nat2Z.inj_succ g1), Z.pow_succ_r in H1 by lia.
      apply Z.div_lt_upper_bound; lia. }
    destruct f2 as [|f2].
    { change (2 ^ Z.of_nat 1)%Z with 2%Z in H2.
      assert (z / 10 = 0)%Z by (apply Z.div_small; lia). lia. }
    assert (Hq2 : (z / 10 < 2 ^ Z.of_nat (S f2))%Z).
    { rewrite (Nat2Z.inj_succ (S f2)), Z.pow_succ_r in H2 by lia.
      apply Z.div_lt_upper_bound; lia. }
    subst g1. apply IH; lia.
Qed.

(** Appending one digit to the numeral of [a] gives the numeral of
    [10 a + k]. *)
Lemma digits_snoc (a k : Z) :
  (1 <= a)%Z -> (0 <= k <= 9)%Z -> digits (10 * a + k) = digits a ++ digits k.
Proof.
  intros Ha Hk.
  assert (Hdk : digits k = String (ascii_of_nat (48 + Z.to_nat k)) "").
  { unfold digits. cbn [PyStr.digits_of_pos_fuel]. cbv zeta.
    rewrite (Z.div_small k 10), (Z.mod_small k 10) by lia. reflexivity. }
  unfold digits at 1. cbn [PyStr.digits_of_pos_fuel]. cbv zeta.
  assert (Hq : ((10 * a + k) / 10 = a)%Z).
  { rewrite Z.add_comm, Z.mul_comm, Z.div_add by lia. rewrite (Z.div_small k 10) by lia. lia. }
  assert (Hm : ((10 * a + k) mod 10 = k)%Z).
  { rewrite Z.add_comm, Z.mul_comm, Z.mod_add by lia. apply Z.mod_small. lia. }
  rewrite Hq, Hm.
  destruct (Z.eqb_spec a 0) as [H0|_]; [lia|].
  rewrite Hdk.
  change (String (ascii_of_nat (48 + Z.to_nat k)) "")
    with ("" ++ String (ascii_of_nat (48 + Z.to_nat k)) "") at 1.
  rewrite digits_of_pos_fuel_app. f_equal.
  unfold digits.
  pose proof (fuel_enough (10 * a + k) ltac:(lia)) as Hf.
  pose proof (fuel_enough a ltac:(lia)) as Hfa.
  destruct (Z.to_nat (Z.log2 (10 * a + k))) as [|f] eqn:Hlog.
  { exfalso. pose proof (Z.log2_le_mono 2 (10 * a + k) ltac:(lia)) as Hmono.
    change (Z.log2 2) with 1%Z in Hmono. lia. }
  symmetry. apply digits_of_pos_fuel_any_fuel; [exact Hfa|].
  destruct Hf as [_ Hf]. rewrite (Nat2Z.inj_succ (S f)), Z.pow_succ_r in Hf by lia. lia.
Qed.

Lemma pad4_digits_check_all :
  forallb pad4_digits_check (map Z.of_nat (seq 0 (Z.to_nat 10000))) = true.
Proof. vm_compute. reflexivity. Qed.

Lemma pad4_digits (b : Z) :
  in_width b ->
  pad4 b = digits (b / 1000) ++ digits (b / 100 mod 10) ++ digits (b / 10 mod 10)
           ++ digits (b mod 10)
  /\ ((1000 <= b)%Z -> pad4 b = PyStr.str b).
Proof.
  intros [H0 H1].
  pose proof pad4_digits_check_all as Hall. rewrite forallb_forall in Hall.
  assert (Hin : In b (map Z.of_nat (seq 0 (Z.to_nat 10000)))).
  { apply in_map_iff. exists (Z.to_nat b). split; [lia | apply in_seq; lia]. }
  apply Hall in Hin. unfold pad4_digits_check in Hin.
  apply andb_prop in Hin as [Hd Hs]. apply String.eqb_eq in Hd. split; [exact Hd|].
  intros Hb. apply orb_prop in Hs as [Hs|Hs]; [apply Z.ltb_lt in Hs; lia|].
  apply String.eqb_eq, Hs.
Qed.

Lemma digits_shift4 (k b : Z) :
  (1 <= k)%Z -> in_width b -> digits (10000 * k + b) = digits k ++ pad4 b.
Proof.
  intros Hk Hb. destruct (pad4_digits b Hb) as [-> _]. destruct Hb as [H0 H1].
  pose proof (Z.div_mod b 10 ltac:(lia)) as E0.
  pose proof (Z.div_mod (b / 10) 10 ltac:(lia)) as E1.
  pose proof (Z.div_mod (b / 10 / 10) 10 ltac:(lia)) as E2.
  pose proof (Z.mod_pos_bound b 10 eq_refl).
  pose proof (Z.mod_pos_bound (b / 10) 10 eq_refl).
  pose proof (Z.mod_pos_bound (b / 10 / 10) 10 eq_refl).
  assert (E100 : (b / 100 = b / 10 / 10)%Z) by (rewrite Z.div_div by lia; reflexivity).
  assert (E1000 : (b / 1000 = b / 10 / 10 / 10)%Z) by (rewrite !Z.div_div by lia; reflexivity).
  assert (Hb3 : (0 <= b / 1000 <= 9)%Z).
  { split; [apply Z.div_pos; lia|]. apply Z.lt_succ_r, Z.div_lt_upper_bound; lia. }
  assert (Hge : (0 <= b / 10 / 10)%Z) by (rewrite <- E100; apply Z.div_pos; lia).
  assert (Hge1 : (0 <= b / 10)%Z) by (apply Z.div_pos; lia).
  replace (10000 * k + b)%Z
    with (10 * (10 * (10 * (10 * k + b / 1000) + b / 100 mod 10) + b / 10 mod 10)
          + b mod 10)%Z by (rewrite E100, E1000 in *; lia).
  rewrite E100 in *.
  rewrite !digits_snoc by lia.
  rewrite !CodecFacts.string_app_assoc. reflexivity.
Qed.

Lemma rjust_long (w : nat) (c : ascii) (s : string) :
  w <= String.length s -> PyStr.rjust w c s = s.
Proof.
  intros H. unfold PyStr.rjust.
  replace (w - String.length s) with 0 by lia. reflexivity.
Qed.

(** X12.  Beyond four digits the FID is not unique any more: for a line
    index [a] of four digits, a digit [k] from 1 to 9 and a location index
    [b] of up to four digits, the record at line [10 a + k], location [b] and
    the record at line [a], location [10000 k + b] get the same FID. *)
Theorem HDFpath2fid_collides_beyond_width (a k b c d : Z) :
  (1000 <= a <= 9999)%Z -> (1 <= k <= 9)%Z -> in_width b ->
  HDFpath2fid (container_path (10 * a + k) b c d)
  = HDFpath2fid (container_path a (10000 * k + b) c d)
  /\ ((10 * a + k)%Z, b) <> (a, (10000 * k + b)%Z).
Proof.
  intros Ha Hk Hb.
  split; [|intros [= E _]; lia].
  rewrite !HDFpath2fid_layout.
  f_equal. unfold fid_of.
  assert (Ha' : in_width a) by (unfold in_width; lia).
  fold (pad4 a) (pad4 b).
  rewrite (proj2 (pad4_digits a Ha')) by lia.
  rewrite (str_nonneg a), (str_nonneg (10 * a + k)), (str_nonneg (10000 * k + b))
    by (unfold in_width in Hb; lia).
  assert (Hlen : String.length (digits a) = 4).
  { rewrite <- (str_nonneg a) by lia. rewrite <- (proj2 (pad4_digits a Ha')) by lia.
    apply CodecFacts.pad4_spec, Ha'. }
  rewrite digits_snoc by lia.
  rewrite (digits_shift4 k b) by (auto; lia).
  rewrite (rjust_long 4 _ (digits a ++ digits k))
    by (rewrite CodecFacts.string_length_app, Hlen; lia).
  rewrite (rjust_long 4 _ (digits k ++ pad4 b))
    by (rewrite CodecFacts.string_length_app, (proj1 (CodecFacts.pad4_spec b Hb)); lia).
  rewrite !CodecFacts.string_app_assoc. reflexivity.
Qed.

Lemma HDFpath2fid_collides_beyond_width_witness :
  HDFpath2fid "line_12345/location_6/datacapture_7/echogram_8"
  = HDFpath2fid "line_1234/location_50006/datacapture_7/echogram_8"
  /\ (12345%Z, 6%Z) <> (1234%Z, 50006%Z).
Proof.
  apply (HDFpath2fid_collides_beyond_width 1234 5 6 7 8).
  - lia.
  - lia.
  - unfold in_width. lia.
Defined.

End CodecMore.

(** * Names and paths *)

Section Paths.

Lemma h5obj_members_ind (P : h5obj -> Prop) :
  (forall d, P (Dataset d)) ->
  (forall ms, Forall (fun m => P (snd m)) ms -> P (Group ms)) ->
  forall o, P o.
Proof.
  intros Hd Hg. fix IH 1. intros [d|ms]; [apply Hd|].
  apply Hg. induction ms as [|[n o] ms IHms]; constructor; [apply IH | exact IHms].
Qed.

Lemma nodup_names_NoDup (l : list string) : nodup_names l = true -> List.NoDup l.
Proof.
  induction l as [|x l IH]; cbn [nodup_names]; [constructor|].
  intros H. apply andb_prop in H as [Hx Hl]. constructor; [|apply IH, Hl].
  intros Hin. apply negb_true_iff in Hx.
  assert (existsb (String.eqb x) l = true); [|congruence].
  apply existsb_exists. exists x. split; [exact Hin | apply String.eqb_refl].
Qed.

Lemma join_snoc (comps : list string) (c : string) :
  comps <> [] -> PyStr.join "/" (comps ++ [c]) = PyStr.join "/" comps ++ String "/" c.
Proof.
  induction comps as [|x comps IH]; [congruence|]. intros _.
  destruct comps as [|y comps]; [reflexivity|].
  change (PyStr.join "/" ((x :: y :: comps) ++ [c]))
    with (x ++ String "/" (PyStr.join "/" ((y :: comps) ++ [c]))).
  rewrite IH by discriminate.
  change (PyStr.join "/" (x :: y :: comps)) with (x ++ String "/" (PyStr.join "/" (y :: comps))).
  rewrite CodecFacts.string_app_assoc. reflexivity.
Qed.

Lemma name_ok_no_slash (s : string) : name_ok s = true -> Codec.no_char "/" s = true.
Proof. unfold name_ok. intros H. apply andb_prop in H as [_ H]. exact H. Qed.

Lemma split_join (comps : list string) :
  comps <> [] -> forallb name_ok comps = true ->
  PyStr.split "/" (PyStr.join "/" comps) = comps.
Proof.
  induction comps as [|x comps IH]; [congruence|]. intros _ H.
  cbn [forallb] in H. apply andb_prop in H as [Hx Hc].
  destruct comps as [|y comps].
  - cbn [PyStr.join]. apply CodecFacts.split_no_sep, name_ok_no_slash, Hx.
  - change (PyStr.join "/" (x :: y :: comps)) with (x ++ String "/" (PyStr.join "/" (y :: comps))).
    rewrite CodecFacts.split_app_sep by (apply name_ok_no_slash, Hx).
    rewrite IH by (auto; discriminate). reflexivity.
Qed.

Lemma h5walk_step (ms : h5group) (c : string) (o : h5obj) (cs : list string) :
  name_ok c = true -> h5get ms c = Return o ->
  h5walk (Group ms) (c :: cs) = h5walk o cs.
Proof.
  intros Hc Hget. cbn [h5walk]. unfold name_ok in Hc.
  apply andb_prop in Hc as [Hc _]. apply andb_prop in Hc as [H1 H2].
  apply negb_true_iff in H1, H2. rewrite H1, H2. cbn [orb].
  rewrite Hget. reflexivity.
Qed.

Lemma h5wf_member (ms : h5group) (n : string) (o : h5obj) :
  h5wf (Group ms) = true -> In (n, o) ms ->
  name_ok n = true /\ h5get ms n = Return o /\ h5wf o = true.
Proof.
  cbn [h5wf]. intros H Hin.
  apply andb_prop in H as [H Hwf]. apply andb_prop in H as [Hok Hnd].
  split; [|split].
  - apply (proj1 (forallb_forall _ _) Hok). apply (in_map fst) in Hin. exact Hin.
  - apply h5get_NoDup; [apply nodup_names_NoDup, Hnd | exact Hin].
  - apply (proj1 (forallb_forall _ _) Hwf (n, o) Hin).
Qed.

(** Below a well-formed object, every visited name leads to the object it
    is visited with. *)
Lemma visit_obj_resolves (o : h5obj) :
  forall (above : list string) (name : string),
    above <> [] -> name = PyStr.join "/" above -> h5wf o = true ->
    forall s x, In (s, x) (visit_obj name o) ->
      exists rest, forallb name_ok rest = true
                   /\ s = PyStr.join "/" (above ++ rest)
                   /\ h5walk o rest = Return x.
Proof.
  induction o as [d|ms IH] using h5obj_members_ind; intros above name Hne Hname Hwf s x Hin.
  - cbn [visit_obj] in Hin. destruct Hin as [[= <- <-]|[]].
    exists []. rewrite app_nil_r. auto.
  - cbn [visit_obj] in Hin. destruct Hin as [[= <- <-]|Hin].
    { exists []. rewrite app_nil_r. auto. }
    apply in_flat_map in Hin as ([n o] & Hm & Hin). cbn [fst snd] in Hin.
    destruct (h5wf_member ms n o Hwf Hm) as (Hn & Hget & Hwfo).
    rewrite Forall_forall in IH.
    specialize (IH (n, o) (proj2 (list_elem_of_In _ _) Hm) (above ++ [n])%list
                   (name ++ "/" ++ n)).
    destruct (IH ltac:(destruct above; discriminate)
                 ltac:(rewrite join_snoc by exact Hne; rewrite Hname; reflexivity)
                 Hwfo s x Hin) as (rest & Hrest & Hs & Hwalk).
    exists (n :: rest). split; [cbn [forallb]; rewrite Hn, Hrest; reflexivity|].
    split; [rewrite Hs, <- app_assoc; reflexivity|].
    rewrite (h5walk_step ms n o rest Hn Hget). exact Hwalk.
Qed.

(** In a well-formed group, looking a visited name up gives the visited
    object. *)
Lemma h5visit_resolves (g : h5group) (s : string) (x : h5obj) :
  h5wf (Group g) = true -> In (s, x) (h5visit g) -> h5path g s = Return x.
Proof.
  intros Hwf Hin. unfold h5visit in Hin.
  apply in_flat_map in Hin as ([n o] & Hm & Hin). cbn [fst snd] in Hin.
  destruct (h5wf_member g n o Hwf Hm) as (Hn & Hget & Hwfo).
  destruct (visit_obj_resolves o [n] n ltac:(discriminate) eq_refl Hwfo s x Hin)
    as (rest & Hrest & Hs & Hwalk).
  unfold h5path. rewrite Hs.
  rewrite split_join by (try discriminate; cbn [app forallb]; rewrite Hn, Hrest; reflexivity).
  cbn [app]. rewrite (h5walk_step g n o rest Hn Hget). exact Hwalk.
Qed.

End Paths.

(** * Single traces and dataset listings *)

Section Traces.

Lemma ofilter_Return_incl {A} (p : A -> outcome bool) (l r : list A) (x : A) :
  ofilter p l = Return r -> In x r -> In x l.
Proof.
  revert r. induction l as [|a l IH]; intros r H Hx; cbn [ofilter] in H.
  - injection H as <-. exact Hx.
  - destruct (p a) as [b|]; [|discriminate]. cbn in H.
    destruct (ofilter p l) as [r'|]; [|discriminate]. cbn in H.
    injection H as <-. destruct b.
    + destruct Hx as [->|Hx]; [left; reflexivity | right; eapply IH; eauto].
    + right. eapply IH; eauto.
Qed.

(** Every kept record is a visited member of the line group. *)
Lemma kept_records_visited root line bounds dc ds :
  kept_records root line bounds dc = Return ds ->
  exists members,
    h5get root ("line_" ++ PyStr.str line) = Return (Group members)
    /\ forall d, In d ds -> In d (h5visit members).
Proof.
  unfold kept_records, select_datasets, mbind, outcome_bind, obind. intros H.
  destruct (h5get root _) as [grp|]; [|discriminate].
  destruct grp as [d|members]; [discriminate|]. cbn [h5members] in H.
  exists members. split; [reflexivity|].
  destruct (ofilter _ _) as [r0|] eqn:Hf; [|discriminate].
  destruct (sort_by_key location_key r0) as [r1|] eqn:Hs; [|discriminate].
  intros d Hd.
  apply (apply_bounds_incl _ _ _ _ H) in Hd.
  apply (Permutation_in _ (sort_by_key_Return_perm _ _ _ Hs)) in Hd.
  eapply ofilter_Return_incl; eauto.
Qed.

Lemma line_name_ok (line : Z) : name_ok ("line_" ++ PyStr.str line) = true.
Proof.
  unfold name_ok.
  change ("line_" ++ PyStr.str line) with (String "l" ("ine_" ++ PyStr.str line)).
  cbn [String.eqb Ascii.eqb Bool.eqb negb andb].
  change (String "l" ("ine_" ++ PyStr.str line)) with ("line_" ++ PyStr.str line).
  rewrite CodecFacts.no_char_app, str_no_char by auto. reflexivity.
Qed.

(** The path from the root to a name below a line group. *)
Lemma h5path_below_line root line members (name : string) :
  h5get root ("line_" ++ PyStr.str line) = Return (Group members) ->
  h5path root (("line_" ++ PyStr.str line) ++ String "/" name) = h5path members name.
Proof.
  intros Hline. unfold h5path.
  rewrite CodecFacts.split_app_sep by (apply name_ok_no_slash, line_name_ok).
  apply h5walk_step; [apply line_name_ok | exact Hline].
Qed.

(** X13.  [ExtractTrace] and [ExtractLine] agree: in a store with distinct,
    well-formed member names, the record that [ExtractLine] keeps under the
    name [location_<l>/datacapture_<c>/echogram_<e>] is the one
    [ExtractTrace] reads at the address [(line, l, c, e)], so each column of
    the line array is the zero-padded trace of its address. *)
Theorem ExtractTrace_reads_kept_record
    (self : Survey) (w : world) (root : h5group) (line : Z) (bounds : list (option Z))
    (dc : selector) (ds : list (string * h5obj)) (loc c e : Z) (samples : list Z) :
  w_fs w !! sv_datafile self = Some (H5File root) ->
  h5wf (Group root) = true ->
  kept_records root line bounds dc = Return ds ->
  In ("location_" ++ PyStr.str loc ++ "/datacapture_" ++ PyStr.str c
      ++ "/echogram_" ++ PyStr.str e, Dataset (Samples samples)) ds ->
  snd (ExtractTrace self line loc c e w) = Return samples.
Proof.
  intros Hw Hwf Hk Hin.
  destruct (kept_records_visited _ _ _ _ _ Hk) as (members & Hline & Hvis).
  apply Hvis in Hin.
  destruct (h5get_Return_elem _ _ _ Hline) as [_ Hmem].
  destruct (h5wf_member root _ _ Hwf Hmem) as (_ & _ & Hwfm).
  pose proof (h5visit_resolves members _ _ Hwfm Hin) as Hres.
  unfold ExtractTrace, mbind at 1, M_bind, bind, h5open, lift. rewrite Hw. cbn [snd].
  change ("line_" ++ PyStr.str line ++ "/location_" ++ PyStr.str loc
          ++ "/datacapture_" ++ PyStr.str c ++ "/echogram_" ++ PyStr.str e)
    with ("line_" ++ (PyStr.str line ++ String "/" ("location_" ++ PyStr.str loc
          ++ "/datacapture_" ++ PyStr.str c ++ "/echogram_" ++ PyStr.str e))).
  rewrite <- (CodecFacts.string_app_assoc "line_").
  rewrite (h5path_below_line root line members _ Hline), Hres. reflexivity.
Qed.

Lemma ExtractTrace_reads_kept_record_witness :
  snd (ExtractTrace Sample.survey 0 2 0 0 Sample.world0) = Return [6; 7; 8]%Z.
Proof.
  apply (ExtractTrace_reads_kept_record Sample.survey Sample.world0 Sample.root 0
           [None; None] (Single 0) Sample.kept0 2 0 0 [6; 7; 8]%Z).
  - vm_compute. reflexivity.
  - vm_compute. reflexivity.
  - vm_compute. reflexivity.
  - left. reflexivity.
Defined.

(** X14.  Without a line, [_getdatasets] lists, in visiting order, the names
    of all datasets of a well-formed store that do not have "picked" in
    their absolute name, and nothing else. *)
Theorem getdatasets_whole_store (self : Survey) (w : world) (root : h5group) :
  w_fs w !! sv_datafile self = Some (H5File root) ->
  h5wf (Group root) = true ->
  snd (_getdatasets self None w)
  = Return (map fst (List.filter
                       (fun nd => is_dataset (snd nd)
                                  && negb (PyStr.contains "picked" ("/" ++ fst nd)))
                       (h5visit root))).
Proof.
  intros Hw Hwf.
  unfold _getdatasets, mbind at 1, M_bind, bind, h5open, lift. rewrite Hw. cbn [snd].
  change (h5path root "/") with (Return (Group root)).
  rewrite (obind_Return (Return (Group root)) _ _ eq_refl). cbn [h5members].
  rewrite (obind_Return (Return root) _ _ eq_refl).
  erewrite ofilter_total; [reflexivity|].
  apply Forall_forall. intros [s x] Hin. apply list_elem_of_In in Hin. cbn [fst snd].
  rewrite (h5visit_resolves root s x Hwf Hin). reflexivity.
Qed.

Lemma getdatasets_whole_store_witness :
  snd (_getdatasets Sample.survey None Sample.world0)
  = Return ["line_0/location_10/datacapture_0/echogram_0";
            "line_0/location_2/datacapture_0/echogram_0";
            "line_0/location_2/datacapture_1/echogram_0";
            "line_0/location_3/datacapture_0/echogram_0"].
Proof.
  apply (getdatasets_whole_store Sample.survey Sample.world0 Sample.root).
  - vm_compute. reflexivity.
  - vm_compute. reflexivity.
Defined.

(** X15.  With a line number, [_getdatasets] looks the names it visits below
    the line up from the root of the file: on a line that is not empty, and
    whose first member is not also the name of a top-level object, it raises
    [KeyError] and lists nothing. *)
Theorem getdatasets_of_line_fails
    (self : Survey) (w : world) (root : h5group) (line : Z)
    (first : string * h5obj) (others : h5group) :
  w_fs w !! sv_datafile self = Some (H5File root) ->
  h5get root ("line_" ++ PyStr.str line) = Return (Group (first :: others)) ->
  name_ok (fst first) = true ->
  ~ In (fst first) (h5keys root) ->
  snd (_getdatasets self (Some line) w) = Raise KeyError.
Proof.
  intros Hw Hline Hok Hnot.
  unfold _getdatasets, mbind at 1, M_bind, bind, h5open, lift. rewrite Hw. cbn [snd].
  assert (Hp : h5path root ("line_" ++ PyStr.str line ++ "/")
               = Return (Group (first :: others))).
  { change ("line_" ++ PyStr.str line ++ "/")
      with ("line_" ++ (PyStr.str line ++ String "/" "")).
    rewrite <- (CodecFacts.string_app_assoc "line_").
    rewrite (h5path_below_line root line _ "" Hline). reflexivity. }
  rewrite (obind_Return _ _ _ Hp). cbn [h5members].
  rewrite (obind_Return (Return (first :: others)) _ _ eq_refl).
  destruct first as [n o]. cbn [fst] in *.
  unfold h5visit. cbn [flat_map fst snd visit_obj app ofilter].
  assert (Hget : h5path root n = Raise KeyError).
  { unfold h5path. rewrite (CodecFacts.split_no_sep "/" n (name_ok_no_slash n Hok)).
    cbn [h5walk]. unfold name_ok in Hok.
    apply andb_prop in Hok as [Hok _]. apply andb_prop in Hok as [H1 H2].
    apply negb_true_iff in H1, H2. rewrite H1, H2. cbn [orb].
    rewrite (h5get_missing root n Hnot). reflexivity. }
  destruct o; cbn [visit_obj app ofilter fst]; rewrite Hget; reflexivity.
Qed.

Lemma getdatasets_of_line_fails_witness :
  snd (_getdatasets Sample.survey (Some 0%Z) Sample.world0) = Raise KeyError.
Proof.
  apply (getdatasets_of_line_fails Sample.survey Sample.world0 Sample.root 0
           (List.hd ("", Group []) Sample.line0) (List.tl Sample.line0)).
  - vm_compute. reflexivity.
  - reflexivity.
  - reflexivity.
  - vm_compute. intuition discriminate.
Defined.

End Traces.

(** * Cache names *)

Section CacheNames.

Lemma string_app_inv_head (s t u : string) : s ++ t = s ++ u -> t = u.
Proof.
  induction s as [|c s IH]; intros H; [exact H|].
  change (String c (s ++ t) = String c (s ++ u)) in H. injection H as H. apply IH, H.
Qed.

Lemma last_split_app sep (s t : string) (d : string) :
  List.last (PyStr.split sep (s ++ String sep t)) d = List.last (PyStr.split sep t) d.
Proof.
  pose proof (split_length_pos sep t) as Ht.
  induction s as [|c s IH].
  - change ("" ++ String sep t) with (String sep t). cbn [PyStr.split].
    rewrite Ascii.eqb_refl.
    destruct (PyStr.split sep t); [cbn in Ht; lia | reflexivity].
  - change (String c s ++ String sep t) with (String c (s ++ String sep t)).
    cbn [PyStr.split].
    pose proof (split_length_sep sep s t) as Hlen.
    destruct (Ascii.eqb c sep).
    + destruct (PyStr.split sep (s ++ String sep t)) as [|x l] eqn:E;
        [cbn in Hlen; lia | exact IH].
    + destruct (PyStr.split sep (s ++ String sep t)) as [|x [|y l]] eqn:E;
        [cbn in Hlen; lia | cbn in Hlen; lia | exact IH].
Qed.

(** The base name of [dir/file]. *)
Lemma basename_of_file (dir file : string) :
  Codec.no_char "/" file = true ->
  PosixPath.basename (dir ++ String "/" file) = file.
Proof.
  intros H. unfold PosixPath.basename.
  rewrite last_split_app, (CodecFacts.split_no_sep "/" file H). reflexivity.
Qed.

(** The stem of [stem.ext]. *)
Lemma splitext_of_stem (stem ext : string) :
  stem <> "" -> Codec.no_char "." stem = true -> Codec.no_char "." ext = true ->
  PosixPath.splitext (stem ++ String "." ext) = (stem, String "." ext).
Proof.
  intros Hne Hs He. unfold PosixPath.splitext. cbv zeta.
  rewrite (CodecFacts.split_app_sep "." stem ext Hs), (CodecFacts.split_no_sep "." ext He).
  cbn [removelast existsb List.last PyStr.join].
  destruct stem; [congruence | reflexivity].
Qed.

Lemma join_inj (a x t1 t2 : string) :
  PosixPath.join a (x ++ String "_" t1) = PosixPath.join a (x ++ String "_" t2) ->
  t1 = t2.
Proof.
  unfold PosixPath.join.
  assert (Hp : String.prefix "/" (x ++ String "_" t1) = String.prefix "/" (x ++ String "_" t2)).
  { destruct x as [|c x]; [reflexivity|].
    change (String c x ++ String "_" t1) with (String c (x ++ String "_" t1)).
    change (String c x ++ String "_" t2) with (String c (x ++ String "_" t2)).
    cbn [String.prefix]. destruct (ascii_dec "/" c); [|reflexivity].
    destruct (x ++ String "_" t1), (x ++ String "_" t2); reflexivity. }
  rewrite Hp. intros H.
  assert (Hx : x ++ String "_" t1 = x ++ String "_" t2).
  { destruct (String.prefix "/" (x ++ String "_" t2)); [exact H|].
    destruct (_ || _).
    - apply string_app_inv_head in H. exact H.
    - apply string_app_inv_head in H.
      change ("/" ++ ?s) with (String "/" s) in H. injection H as H. exact H. }
  apply string_app_inv_head in Hx. injection Hx as Hx. exact Hx.
Qed.

Lemma GetLineCacheName_inj
    (self : Survey) (cache_dir : string) (line1 dc1 line2 dc2 : Z) :
  GetLineCacheName self line1 dc1 cache_dir = GetLineCacheName self line2 dc2 cache_dir ->
  line1 = line2 /\ dc1 = dc2.
Proof.
  unfold GetLineCacheName.
  set (stem := fst (PosixPath.splitext (PosixPath.basename (sv_datafile self)))).
  change (stem ++ "_line" ++ PyStr.str line1 ++ "_" ++ PyStr.str dc1 ++ ".ird")
    with (stem ++ String "_" ("line" ++ (PyStr.str line1 ++ String "_" (PyStr.str dc1 ++ ".ird")))).
  change (stem ++ "_line" ++ PyStr.str line2 ++ "_" ++ PyStr.str dc2 ++ ".ird")
    with (stem ++ String "_" ("line" ++ (PyStr.str line2 ++ String "_" (PyStr.str dc2 ++ ".ird")))).
  intros H. apply join_inj, string_app_inv_head in H.
  apply (f_equal (PyStr.split "_")) in H.
  rewrite !CodecFacts.split_app_sep in H by (apply str_no_char; auto).
  rewrite !CodecFacts.split_no_sep in H
    by (rewrite CodecFacts.no_char_app, str_no_char by auto; reflexivity).
  injection H as Hl Hd.
  change (PyStr.str dc1 ++ ".ird") with (PyStr.str dc1 ++ String "." "ird") in Hd.
  change (PyStr.str dc2 ++ ".ird") with (PyStr.str dc2 ++ String "." "ird") in Hd.
  apply (f_equal (PyStr.split ".")) in Hd.
  rewrite !CodecFacts.split_app_sep in Hd by (apply str_no_char; auto).
  injection Hd as Hd.
  split; apply str_inj; assumption.
Qed.

(** X16.  For one data file and one cache directory, different pairs of line
    number and channel get different cache names, whatever the size or the
    sign of the numbers. *)
Theorem GetLineCacheName_injective
    (self : Survey) (cache_dir : string) (line1 dc1 line2 dc2 : Z) :
  (line1, dc1) <> (line2, dc2) ->
  GetLineCacheName self line1 dc1 cache_dir <> GetLineCacheName self line2 dc2 cache_dir.
Proof.
  intros Hne H. apply Hne.
  destruct (GetLineCacheName_inj _ _ _ _ _ _ H) as [-> ->]. reflexivity.
Qed.

Lemma GetLineCacheName_injective_witness :
  GetLineCacheName Sample.survey 1 10 "cache" <> GetLineCacheName Sample.survey 11 0 "cache".
Proof.
  apply (GetLineCacheName_injective Sample.survey "cache" 1 10 11 0). intros [=].
Defined.

(** X17.  The cache name keeps the stem of the data file's name and nothing
    else of its path: for a data file [dir/stem.ext] it is
    [stem_line<line>_<dc>.ird] in the cache directory, so surveys that
    differ in their directory or in their extension alone share their cache
    files. *)
Theorem GetLineCacheName_keeps_stem_only
    (self : Survey) (dir stem ext cache_dir : string) (line dc : Z) :
  sv_datafile self = dir ++ String "/" (stem ++ String "." ext) ->
  stem <> "" ->
  Codec.no_char "/" stem = true -> Codec.no_char "." stem = true ->
  Codec.no_char "/" ext = true -> Codec.no_char "." ext = true ->
  GetLineCacheName self line dc cache_dir
  = PosixPath.join cache_dir
      (stem ++ "_line" ++ PyStr.str line ++ "_" ++ PyStr.str dc ++ ".ird")
  /\ forall other dir' ext',
       sv_datafile other = dir' ++ String "/" (stem ++ String "." ext') ->
       Codec.no_char "/" ext' = true -> Codec.no_char "." ext' = true ->
       GetLineCacheName other line dc cache_dir = GetLineCacheName self line dc cache_dir.
Proof.
  intros Hfile Hne Hs1 Hs2 He1 He2.
  assert (H : forall sv d e,
            sv_datafile sv = d ++ String "/" (stem ++ String "." e) ->
            Codec.no_char "/" e = true -> Codec.no_char "." e = true ->
            GetLineCacheName sv line dc cache_dir
            = PosixPath.join cache_dir
                (stem ++ "_line" ++ PyStr.str line ++ "_" ++ PyStr.str dc ++ ".ird")).
  { intros sv d e Hf H1 H2. unfold GetLineCacheName. rewrite Hf.
    rewrite basename_of_file
      by (rewrite CodecFacts.no_char_app; cbn [Codec.no_char]; rewrite Hs1, H1; reflexivity).
    rewrite (splitext_of_stem stem e Hne Hs2 H2). reflexivity. }
  split; [apply (H self dir ext); assumption|].
  intros other dir' ext' Hf H1 H2.
  rewrite (H other dir' ext' Hf H1 H2), (H self dir ext Hfile He1 He2). reflexivity.
Qed.

Lemma GetLineCacheName_keeps_stem_only_witness :
  GetLineCacheName {| sv_f := None; sv_datafile := "/data/run/survey.h5"; sv_retain := ∅ |}
    3 0 "cache"
  = "cache/survey_line3_0.ird".
Proof.
  refine (proj1 (GetLineCacheName_keeps_stem_only
                   {| sv_f := None; sv_datafile := "/data/run/survey.h5"; sv_retain := ∅ |}
                   "/data/run" "survey" "h5" "cache" 3 0 _ _ _ _ _ _)).
  - reflexivity.
  - discriminate.
  - reflexivity.
  - reflexivity.
  - reflexivity.
  - reflexivity.
Defined.

End CacheNames.

(** * Writing with a source store in hand *)

Section Write.
Implicit Types (r : gmap string (gmap string bool)).
Local Open Scope list_scope.

Lemma retained_present r line location :
  retained r line location = default true (RetentionMap.present r line location).
Proof.
  unfold retained, RetentionMap.get, RetentionMap.present, RetentionMap.view. cbn [fst].
  destruct (r !! line); reflexivity.
Qed.

Lemma get_retain r line location :
  snd (RetentionMap.get r line location)
  = RetentionMap.set r line location (retained r line location).
Proof. reflexivity. Qed.

(** Reading a pair leaves what every pair reads as it was. *)
Lemma retained_after_get r line location line' location' :
  retained (snd (RetentionMap.get r line location)) line' location'
  = retained r line' location'.
Proof.
  rewrite get_retain, !retained_present, present_set.
  destruct (decide (line = line' /\ location = location')) as [[-> ->]|]; reflexivity.
Qed.

Lemma present_after_get r line location line' location' :
  RetentionMap.present (snd (RetentionMap.get r line location)) line' location'
  = if decide (line = line' /\ location = location')
    then Some (retained r line location)
    else RetentionMap.present r line' location'.
Proof. rewrite get_retain. apply present_set. Qed.

Lemma add_member_last (done : h5group) (line name : string) (acc : h5group) (o : h5obj) :
  ~ In line (h5keys done) -> ~ In name (h5keys acc) ->
  add_member (done ++ [(line, Group acc)])%list line name o
  = Return (done ++ [(line, Group (acc ++ [(name, o)]))])%list.
Proof.
  intros Hline Hname. induction done as [|[n g] done IH]; cbn [app add_member].
  - rewrite String.eqb_refl, (h5get_missing acc name Hname). reflexivity.
  - destruct (String.eqb_spec n line) as [->|Hne].
    + exfalso. apply Hline. left. reflexivity.
    + rewrite IH by (intros Hin; apply Hline; right; exact Hin). reflexivity.
Qed.

Lemma keys_retained_locations r line (locations : h5group) (name : string) :
  In name (h5keys (retained_locations r line locations)) -> In name (h5keys locations).
Proof.
  unfold h5keys, retained_locations. rewrite !in_map_iff.
  intros ([n o] & Hn & Hin). apply filter_In in Hin as [Hin _]. exists (n, o). auto.
Qed.

Lemma keys_retained_store r (src : h5group) (name : string) :
  In name (h5keys (retained_store r src)) -> In name (h5keys src).
Proof.
  unfold h5keys, retained_store. rewrite !in_map_iff.
  intros ([n o] & Hn & Hin). apply in_flat_map in Hin as ([n' o'] & Hin & Hm).
  cbn [fst snd] in Hm. destruct o' as [d|locs]; [destruct Hm|].
  destruct Hm as [[= <- <-]|[]]. exists (n', Group locs). cbn [fst] in *. auto.
Qed.

(** Lines 284-287 on the locations of one line group. *)
Lemma write_locations_spec (src : h5group) (line : string) (all : h5group) (r0 : gmap string (gmap string bool)) :
  h5get src line = Return (Group all) ->
  List.NoDup (h5keys all) ->
  forall (todo before done : h5group) r,
    all = (before ++ todo)%list ->
    ~ In line (h5keys done) ->
    (forall l loc, retained r l loc = retained r0 l loc) ->
    (forall loc, In loc (h5keys before) ->
                 RetentionMap.present r line loc = Some (retained r0 line loc)) ->
    exists r',
      write_locations src line (h5keys todo)
        {| ws_fout := (done ++ [(line, Group (retained_locations r0 line before))])%list;
           ws_retain := r |}
      = ({| ws_fout := (done ++ [(line, Group (retained_locations r0 line all))])%list;
            ws_retain := r' |}, Return tt)
      /\ (forall l loc, retained r' l loc = retained r0 l loc)
      /\ (forall loc, In loc (h5keys all) ->
                      RetentionMap.present r' line loc = Some (retained r0 line loc))
      /\ (forall l loc, l <> line ->
                        RetentionMap.present r' l loc = RetentionMap.present r l loc).
Proof.
  intros Hline Hnd. induction todo as [|[n o] todo IH]; intros before done r Hall Hdone Hread Hmat.
  - rewrite app_nil_r in Hall. subst before. exists r. cbn [h5keys map write_locations].
    split; [reflexivity|]. split; [exact Hread|]. split; [exact Hmat | reflexivity].
  - cbn [h5keys map fst write_locations ws_fout ws_retain]. fold (h5keys todo).
    destruct (RetentionMap.get r line n) as [v r1] eqn:Hget.
    assert (Hv : v = retained r0 line n).
    { rewrite <- Hread. unfold retained. rewrite Hget. reflexivity. }
    assert (Hr1 : r1 = snd (RetentionMap.get r line n)) by (rewrite Hget; reflexivity).
    assert (Hread1 : forall l loc, retained r1 l loc = retained r0 l loc).
    { intros l loc. rewrite Hr1, retained_after_get. apply Hread. }
    assert (Hall' : all = ((before ++ [(n, o)]) ++ todo)%list)
      by (rewrite <- app_assoc; exact Hall).
    assert (Hmat1 : forall loc, In loc (h5keys (before ++ [(n, o)])) ->
                RetentionMap.present r1 line loc = Some (retained r0 line loc)).
    { intros loc Hin. rewrite Hr1, present_after_get.
      destruct (decide (line = line /\ n = loc)) as [[_ <-]|Hno].
      - f_equal. apply Hread.
      - apply Hmat. unfold h5keys in Hin |- *. rewrite map_app in Hin.
        apply in_app_or in Hin as [Hin|[Hin|[]]]; [exact Hin|].
        cbn [fst] in Hin. exfalso. apply Hno. auto. }
    assert (Hfilter : retained_locations r0 line (before ++ [(n, o)])
                      = (retained_locations r0 line before
                         ++ if v then [(n, o)] else [])%list).
    { unfold retained_locations. rewrite List.filter_app. cbn [List.filter fst].
      rewrite <- Hv. destruct v; reflexivity. }
    assert (Hother : forall l loc, l <> line ->
              RetentionMap.present r1 l loc = RetentionMap.present r l loc).
    { intros l loc Hl. rewrite Hr1, present_after_get.
      rewrite decide_False by (intros [? _]; congruence). reflexivity. }
    destruct v.
    + assert (Hcopy : copy_location src
                        (done ++ [(line, Group (retained_locations r0 line before))])%list
                        line n
                      = Return (done ++ [(line, Group (retained_locations r0 line
                                                         (before ++ [(n, o)])))])%list).
      { unfold copy_location. rewrite (obind_Return _ _ _ Hline). cbn [h5members].
        rewrite (obind_Return (Return all) _ _ eq_refl).
        rewrite (obind_Return _ _ _ (h5get_NoDup all n o Hnd
                   ltac:(rewrite Hall; apply in_or_app; right; left; reflexivity))).
        rewrite Hfilter. apply add_member_last; [exact Hdone|].
        intros Hin. apply keys_retained_locations in Hin.
        rewrite Hall in Hnd. unfold h5keys in Hnd, Hin. rewrite map_app in Hnd.
        cbn [map fst] in Hnd. apply List.NoDup_remove_2 in Hnd.
        apply Hnd, in_or_app. left. exact Hin. }
      cbn [ws_fout ws_retain]. rewrite Hcopy.
      destruct (IH (before ++ [(n, o)])%list done r1 Hall' Hdone Hread1 Hmat1)
        as (r' & Hw & Hr' & Hm' & Ho').
      exists r'. split; [exact Hw|]. split; [exact Hr'|]. split; [exact Hm'|].
      intros l loc Hl. rewrite Ho', Hother by exact Hl. reflexivity.
    + cbn [ws_fout ws_retain].
      assert (Hsame : retained_locations r0 line before
                      = retained_locations r0 line (before ++ [(n, o)]))
        by (rewrite Hfilter, app_nil_r; reflexivity).
      rewrite Hsame.
      destruct (IH (before ++ [(n, o)])%list done r1 Hall' Hdone Hread1 Hmat1)
        as (r' & Hw & Hr' & Hm' & Ho').
      exists r'. split; [exact Hw|]. split; [exact Hr'|]. split; [exact Hm'|].
      intros l loc Hl. rewrite Ho', Hother by exact Hl. reflexivity.
Qed.

Lemma retained_store_app r (a b : h5group) :
  retained_store r (a ++ b) = retained_store r a ++ retained_store r b.
Proof. unfold retained_store. apply flat_map_app. Qed.

Lemma h5wf_NoDup (ms : h5group) : h5wf (Group ms) = true -> List.NoDup (h5keys ms).
Proof.
  cbn [h5wf]. intros H. apply andb_prop in H as [H _]. apply andb_prop in H as [_ H].
  apply nodup_names_NoDup, H.
Qed.

(** Lines 274-287 on the members of the source store. *)
Lemma write_lines_spec (src : h5group) (r0 : gmap string (gmap string bool)) :
  h5wf (Group src) = true ->
  forall (todo before : h5group) r,
    src = before ++ todo ->
    (forall l loc, retained r l loc = retained r0 l loc) ->
    (forall line locations loc,
        In (line, Group locations) before -> In loc (h5keys locations) ->
        RetentionMap.present r line loc = Some (retained r0 line loc)) ->
    exists r',
      write_lines src (h5keys todo)
        {| ws_fout := retained_store r0 before; ws_retain := r |}
      = ({| ws_fout := retained_store r0 src; ws_retain := r' |}, Return tt)
      /\ (forall l loc, retained r' l loc = retained r0 l loc)
      /\ (forall line locations loc,
             In (line, Group locations) src -> In loc (h5keys locations) ->
             RetentionMap.present r' line loc = Some (retained r0 line loc)).
Proof.
  intros Hwf. pose proof (h5wf_NoDup src Hwf) as Hnd.
  induction todo as [|[n o] todo IH]; intros before r Hsrc Hread Hmat.
  - rewrite app_nil_r in Hsrc. subst before. exists r.
    split; [reflexivity|]. split; assumption.
  - cbn [h5keys map fst write_lines]. fold (h5keys todo).
    assert (Hin : In (n, o) src)
      by (rewrite Hsrc; apply in_or_app; right; left; reflexivity).
    rewrite (h5get_NoDup src n o Hnd Hin).
    assert (Hsrc' : src = (before ++ [(n, o)]) ++ todo)
      by (rewrite <- app_assoc; exact Hsrc).
    assert (Hfresh : ~ In n (h5keys before)).
    { intros Hb. rewrite Hsrc in Hnd. unfold h5keys in Hnd, Hb. rewrite map_app in Hnd.
      cbn [map fst] in Hnd. apply List.NoDup_remove_2 in Hnd.
      apply Hnd, in_or_app. left. exact Hb. }
    destruct o as [d|locations].
    + replace (retained_store r0 before)
        with (retained_store r0 (before ++ [(n, Dataset d)]))
        by (rewrite retained_store_app; apply app_nil_r).
      apply (IH (before ++ [(n, Dataset d)]) r Hsrc' Hread).
      intros line locs loc Hl. apply in_app_or in Hl as [Hl|[[=]|[]]].
      apply (Hmat line locs loc Hl).
    + cbn [ws_fout ws_retain]. unfold create_group.
      rewrite (h5get_missing (retained_store r0 before) n)
        by (intros Hk; apply Hfresh; eapply keys_retained_store, Hk).
      destruct (h5wf_member src n (Group locations) Hwf Hin) as (_ & Hget & Hwfl).
      destruct (write_locations_spec src n locations r0 Hget (h5wf_NoDup _ Hwfl)
                  locations [] (retained_store r0 before) r eq_refl
                  ltac:(intros Hk; apply Hfresh; eapply keys_retained_store, Hk)
                  Hread ltac:(intros loc []))
        as (r1 & Hw & Hread1 & Hmat1 & Hother).
      change (retained_locations r0 n []) with (@nil (string * h5obj)) in Hw.
      rewrite Hw.
      replace (retained_store r0 before ++ [(n, Group (retained_locations r0 n locations))])
        with (retained_store r0 (before ++ [(n, Group locations)]))
        by (rewrite retained_store_app; reflexivity).
      apply (IH (before ++ [(n, Group locations)]) r1 Hsrc' Hread1).
      intros line locs loc Hl Hloc. apply in_app_or in Hl as [Hl|[[= <- <-]|[]]].
      * rewrite Hother; [apply (Hmat line locs loc Hl Hloc)|].
        intros ->. apply Hfresh. unfold h5keys. apply in_map_iff.
        exists (n, Group locs). auto.
      * apply Hmat1, Hloc.
Qed.

Lemma WriteHDF5_with_source_spec
    (self : Survey) (src : h5group) (fnm : string) (overwrite : bool) (w : world) :
  sv_f self = Some src ->
  h5wf (Group src) = true ->
  path_exists fnm w && negb overwrite = false ->
  w_fs w !! fnm <> Some Directory ->
  exists r',
    WriteHDF5 self fnm overwrite w
    = ({| w_fs := <[fnm := H5File (retained_store (sv_retain self) src)]> (w_fs w);
          w_opened := w_opened w ++ [fnm] |},
       {| sv_f := Some src; sv_datafile := sv_datafile self; sv_retain := r' |},
       Return tt)
    /\ (forall l loc, retained r' l loc = retained (sv_retain self) l loc)
    /\ (forall line locations loc,
           In (line, Group locations) src -> In loc (h5keys locations) ->
           RetentionMap.present r' line loc = Some (retained (sv_retain self) line loc)).
Proof.
  intros Hf Hwf Hpass Hdir.
  destruct (write_lines_spec src (sv_retain self) Hwf src [] (sv_retain self) eq_refl
              ltac:(reflexivity) ltac:(intros ? ? ? []))
    as (r' & Hw & Hread & Hmat).
  change (retained_store (sv_retain self) []) with (@nil (string * h5obj)) in Hw.
  exists r'. split; [|split; assumption].
  unfold WriteHDF5. rewrite Hpass. unfold h5create.
  destruct (w_fs w !! fnm) as [[root| |]|] eqn:Hfnm; try congruence;
    rewrite Hf, Hw; unfold h5flush; cbn [w_fs w_opened ws_fout ws_retain];
    rewrite insert_insert_eq; reflexivity.
Qed.

(** X18.  With the source store in [self.f], a store whose names are
    well formed and a destination that passes the overwrite test,
    [WriteHDF5] succeeds and leaves at the destination every top-level
    group of the source, in the order of the source, each holding exactly
    the members that the retention map reads as true (a pair not in the map
    reads as true), each with its whole subtree; top-level datasets are
    left out. *)
Theorem WriteHDF5_copies_retained
    (self : Survey) (src : h5group) (fnm : string) (overwrite : bool) (w : world) :
  sv_f self = Some src ->
  h5wf (Group src) = true ->
  path_exists fnm w && negb overwrite = false ->
  w_fs w !! fnm <> Some Directory ->
  let '(w', _, result) := WriteHDF5 self fnm overwrite w in
  result = Return tt
  /\ w' = {| w_fs := <[fnm := H5File (retained_store (sv_retain self) src)]> (w_fs w);
             w_opened := w_opened w ++ [fnm] |}.
Proof.
  intros Hf Hwf Hpass Hdir.
  destruct (WriteHDF5_with_source_spec self src fnm overwrite w Hf Hwf Hpass Hdir)
    as (r' & -> & _). split; reflexivity.
Qed.

Lemma WriteHDF5_copies_retained_witness :
  let self := {| sv_f := Some Sample.root; sv_datafile := "survey.h5";
                 sv_retain := RetentionMap.set ∅ "line_0" "location_3" false |} in
  let '(w', _, result) := WriteHDF5 self "out.h5" false Sample.world0 in
  result = Return tt
  /\ w' = {| w_fs := <["out.h5" := H5File (retained_store (sv_retain self) Sample.root)]>
                       (w_fs Sample.world0);
             w_opened := w_opened Sample.world0 ++ ["out.h5"] |}.
Proof.
  apply (WriteHDF5_copies_retained
           {| sv_f := Some Sample.root; sv_datafile := "survey.h5";
              sv_retain := RetentionMap.set ∅ "line_0" "location_3" false |}
           Sample.root "out.h5" false Sample.world0).
  - reflexivity.
  - vm_compute. reflexivity.
  - vm_compute. reflexivity.
  - vm_compute. discriminate.
Defined.

(** X19.  Under the same conditions the retention map of the survey after
    [WriteHDF5] reads every pair as before the call, and holds an entry for
    every member of every top-level group of the source: the reads of the
    loop insert the pairs that were missing, with the value [true]. *)
Theorem WriteHDF5_fills_retention
    (self : Survey) (src : h5group) (fnm : string) (overwrite : bool) (w : world) :
  sv_f self = Some src ->
  h5wf (Group src) = true ->
  path_exists fnm w && negb overwrite = false ->
  w_fs w !! fnm <> Some Directory ->
  let '(_, self', _) := WriteHDF5 self fnm overwrite w in
  sv_f self' = sv_f self /\ sv_datafile self' = sv_datafile self
  /\ (forall line location,
         retained (sv_retain self') line location = retained (sv_retain self) line location)
  /\ (forall line locations location,
         In (line, Group locations) src -> In location (h5keys locations) ->
         RetentionMap.present (sv_retain self') line location
         = Some (default true (RetentionMap.present (sv_retain self) line location))).
Proof.
  intros Hf Hwf Hpass Hdir.
  destruct (WriteHDF5_with_source_spec self src fnm overwrite w Hf Hwf Hpass Hdir)
    as (r' & -> & Hread & Hmat). cbn [sv_f sv_datafile sv_retain].
  split; [symmetry; exact Hf|]. split; [reflexivity|]. split; [exact Hread|].
  intros line locations location Hl Hloc. rewrite <- retained_present.
  apply (Hmat line locations location Hl Hloc).
Qed.

Lemma WriteHDF5_fills_retention_witness :
  let self := {| sv_f := Some Sample.root; sv_datafile := "survey.h5";
                 sv_retain := RetentionMap.set ∅ "line_0" "location_3" false |} in
  let '(_, self', _) := WriteHDF5 self "out.h5" false Sample.world0 in
  sv_f self' = sv_f self /\ sv_datafile self' = sv_datafile self
  /\ (forall line location,
         retained (sv_retain self') line location = retained (sv_retain self) line location)
  /\ (forall line locations location,
         In (line, Group locations) Sample.root -> In location (h5keys locations) ->
         RetentionMap.present (sv_retain self') line location
         = Some (default true (RetentionMap.present (sv_retain self) line location))).
Proof.
  apply (WriteHDF5_fills_retention
           {| sv_f := Some Sample.root; sv_datafile := "survey.h5";
              sv_retain := RetentionMap.set ∅ "line_0" "location_3" false |}
           Sample.root "out.h5" false Sample.world0).
  - reflexivity.
  - vm_compute. reflexivity.
  - vm_compute. reflexivity.
  - vm_compute. discriminate.
Defined.

End Write.

(** * The selection on a line of the store layout *)

Section Selection.
Context `{RL : RecordListAPI}.

Lemma str_no_p (z : Z) : Codec.no_char "p" (PyStr.str z) = true.
Proof.
  rewrite <- all_chars_no_char. apply str_chars; [|reflexivity].
  intros n Hn. do 10 (destruct n as [|n]; [reflexivity|]). lia.
Qed.

(** A text without the first letter of a pattern in front of another text
    adds no occurrence of the pattern. *)
Lemma contains_after (c : ascii) (pat front s : string) :
  Codec.no_char c front = true ->
  PyStr.contains (String c pat) (front ++ s) = PyStr.contains (String c pat) s.
Proof.
  induction front as [|x front IH]; [reflexivity|].
  cbn [Codec.no_char]. intros H. apply andb_prop in H as [Hx Hf].
  apply negb_true_iff in Hx.
  change (String x front ++ s) with (String x (front ++ s)).
  cbn [PyStr.contains String.prefix].
  destruct (ascii_dec c x) as [->|_]; [rewrite Ascii.eqb_refl in Hx; discriminate|].
  cbn [orb]. apply IH, Hf.
Qed.

(** "picked" is in the absolute name of an object of a line where it is in
    its name relative to the line. *)
Lemma picked_relative (line : Z) (name : string) :
  PyStr.contains "picked" ("/" ++ ("line_" ++ PyStr.str line) ++ "/" ++ name)
  = PyStr.contains "picked" name.
Proof.
  replace ("/" ++ ("line_" ++ PyStr.str line) ++ "/" ++ name)
    with (("/line_" ++ PyStr.str line ++ "/") ++ name).
  2:{ change ("/" ++ ("line_" ++ PyStr.str line) ++ "/" ++ name)
        with ("/line_" ++ (PyStr.str line ++ ("/" ++ name))).
      change (("/line_" ++ PyStr.str line ++ "/") ++ name)
        with ("/line_" ++ ((PyStr.str line ++ "/") ++ name)).
      rewrite CodecFacts.string_app_assoc. reflexivity. }
  apply contains_after.
  change ("/line_" ++ PyStr.str line ++ "/") with ("/line_" ++ (PyStr.str line ++ "/")).
  rewrite !CodecFacts.no_char_app, str_no_p. reflexivity.
Qed.

Lemma record_name_split (loc c : Z) (leaf : string) :
  Codec.no_char "/" leaf = true ->
  PyStr.split "/" (record_name loc c leaf)
  = ["location_" ++ PyStr.str loc; "datacapture_" ++ PyStr.str c; leaf].
Proof.
  intros Hleaf. unfold record_name.
  change ("location_" ++ PyStr.str loc ++ "/datacapture_" ++ PyStr.str c ++ "/" ++ leaf)
    with ("location_" ++ (PyStr.str loc
            ++ String "/" ("datacapture_" ++ (PyStr.str c ++ String "/" leaf)))).
  rewrite <- (CodecFacts.string_app_assoc "location_").
  rewrite CodecFacts.split_app_sep
    by (rewrite CodecFacts.no_char_app, str_no_char by auto; reflexivity).
  rewrite <- (CodecFacts.string_app_assoc "datacapture_").
  rewrite CodecFacts.split_app_sep
    by (rewrite CodecFacts.no_char_app, str_no_char by auto; reflexivity).
  rewrite (CodecFacts.split_no_sep "/" leaf Hleaf). reflexivity.
Qed.

(** The parent of a record of the layout is its channel group. *)
Lemma record_parent (name : string) (loc c : Z) :
  record_at name loc c -> parent_name name = Some ("datacapture_" ++ PyStr.str c).
Proof.
  intros (leaf & Hleaf & ->). unfold parent_name.
  rewrite (record_name_split loc c leaf Hleaf). reflexivity.
Qed.

(** The sort key of a record of the layout is its location index. *)
Lemma record_location_key (nd : string * h5obj) (loc c : Z) :
  record_at (fst nd) loc c -> location_key nd = Return loc.
Proof.
  intros (leaf & Hleaf & Hname). unfold location_key.
  rewrite Hname, (record_name_split loc c leaf Hleaf).
  change (PyStr.index (?x :: ?l) 0) with (Return x).
  rewrite (obind_Return (Return _) _ _ eq_refl).
  change ("location_" ++ PyStr.str loc) with ("location" ++ String "_" (PyStr.str loc)).
  rewrite (CodecFacts.split_app_sep "_" "location") by reflexivity.
  rewrite (CodecFacts.split_no_sep "_") by (apply str_no_char; auto).
  change (PyStr.index [?x; ?y] 1) with (Return y).
  rewrite (obind_Return (Return _) _ _ eq_refl). apply int_str.
Qed.

Lemma record_loc_index (nd : string * h5obj) (loc c : Z) :
  record_at (fst nd) loc c -> loc_index nd = loc.
Proof. intros H. unfold loc_index. rewrite (record_location_key nd loc c H). reflexivity. Qed.

Lemma tagged_eqb (tag : string) (a b : Z) :
  String.eqb (tag ++ PyStr.str a) (tag ++ PyStr.str b) = Z.eqb a b.
Proof.
  destruct (String.eqb_spec (tag ++ PyStr.str a) (tag ++ PyStr.str b)) as [E|N].
  - apply string_app_inv_head, str_inj in E. subst b. symmetry. apply Z.eqb_refl.
  - destruct (Z.eqb_spec a b) as [->|_]; [congruence | reflexivity].
Qed.

Lemma record_in_channel (name : string) (loc c c' : Z) :
  record_at name loc c -> in_channel c' name = Z.eqb c c'.
Proof.
  intros H. unfold in_channel. rewrite (record_parent name loc c H). apply tagged_eqb.
Qed.

Lemma record_at_location (nd : string * h5obj) (loc c k : Z) :
  record_at (fst nd) loc c -> at_location k nd = Z.eqb (loc_index nd) k.
Proof.
  intros H. rewrite (record_loc_index nd loc c H).
  destruct H as (leaf & Hleaf & Hname). unfold at_location.
  rewrite Hname, (record_name_split loc c leaf Hleaf). cbn [hd]. apply tagged_eqb.
Qed.

(** The test of lines 192-195 against the selection as the layout states
    it. *)
Lemma wanted_selected (line : Z) (dc : selector) (nd : string * h5obj) :
  wanted ("line_" ++ PyStr.str line) dc nd = selected dc nd.
Proof.
  unfold wanted, selected. rewrite picked_relative. f_equal.
  unfold in_channel. destruct (parent_name (fst nd)) as [p|].
  - destruct dc as [c|cs]; cbn [allowed_datacaptures channels_of existsb]; [reflexivity|].
    induction cs as [|c cs IH]; [reflexivity|]. cbn [map existsb]. rewrite IH. reflexivity.
  - destruct dc as [c|cs]; cbn [channels_of existsb]; [reflexivity|].
    induction cs as [|c cs IH]; [reflexivity|]. cbn [existsb]. exact IH.
Qed.

Lemma StronglySorted_weaken {A} (R R' : A -> A -> Prop) (l : list A) :
  (forall x y, R x y -> R' x y) -> StronglySorted R l -> StronglySorted R' l.
Proof.
  intros H. induction 1 as [|x l Hs IH Hall]; constructor; [exact IH|].
  eapply Forall_impl; [exact Hall|]. intros y. apply H.
Qed.

(** C4.  [ExtractLine] takes the channel selector as one integer or as an
    iterable of integers; a single integer selects as the one-element
    iterable does.  On a line of the store layout (every leaf dataset
    without "picked" in its name is named
    [location_<loc>/datacapture_<c>/<leaf>]) it keeps exactly the leaf
    datasets without "picked" in their name whose channel [c] is one of the
    selector's channels, each as often as it is visited, in ascending order
    of their location index [loc] as a number across all selected channels;
    records of one location keep their visiting order. *)
Theorem ExtractLine_selects_and_orders
    (root : h5group) (line : Z) (dc : selector) (members : h5group) :
  h5get root ("line_" ++ PyStr.str line) = Return (Group members) ->
  Forall (fun nd => is_dataset (snd nd) = true ->
                    PyStr.contains "picked" (fst nd) = false ->
                    exists loc c, record_at (fst nd) loc c) (h5visit members) ->
  exists kept,
    kept_records root line [None; None] dc = Return kept
    /\ Permutation kept (List.filter (selected dc) (h5visit members))
    /\ (forall nd, In nd kept <->
          In nd (h5visit members)
          /\ is_dataset (snd nd) = true
          /\ PyStr.contains "picked" (fst nd) = false
          /\ exists loc c, record_at (fst nd) loc c /\ In c (channels_of dc))
    /\ StronglySorted (fun x y => forall lx cx ly cy,
                         record_at (fst x) lx cx -> record_at (fst y) ly cy ->
                         (lx <= ly)%Z) kept
    /\ (forall k, List.filter (at_location k) kept
                  = List.filter (at_location k)
                      (List.filter (selected dc) (h5visit members)))
    /\ (forall c, dc = Single c ->
          kept_records root line [None; None] (Many [c]) = Return kept).
Proof.
  intros Hline Hlayout.
  assert (Hrec : forall nd, In nd (h5visit members) -> selected dc nd = true ->
                   exists loc c, record_at (fst nd) loc c).
  { intros nd Hin Hsel. unfold selected in Hsel.
    apply andb_prop in Hsel as [Hsel _]. apply andb_prop in Hsel as [Hd Hn].
    rewrite Forall_forall in Hlayout.
    apply (Hlayout nd (proj2 (list_elem_of_In _ _) Hin) Hd). apply negb_true_iff, Hn. }
  destruct (kept_records_select root line dc members Hline)
    as (kept & Hkept & Hperm & _ & Hsort & Hstable & Hsingle).
  - eapply Forall_impl; [exact Hlayout|]. intros nd H Hd Hn.
    rewrite picked_relative in Hn. destruct (H Hd Hn) as (loc & c & Hr).
    rewrite (record_parent _ loc c Hr). discriminate.
  - apply Forall_forall. intros nd Hin Hw. rewrite wanted_selected in Hw.
    destruct (Hrec nd (proj1 (list_elem_of_In _ _) Hin) Hw) as (loc & c & Hr).
    exists loc. apply (record_location_key nd loc c Hr).
  - assert (Hfilter : List.filter (wanted ("line_" ++ PyStr.str line) dc) (h5visit members)
                      = List.filter (selected dc) (h5visit members))
      by (apply filter_ext; intros nd; apply wanted_selected).
    rewrite Hfilter in Hperm.
    assert (Hkrec : forall nd, In nd kept -> exists loc c, record_at (fst nd) loc c).
    { intros nd Hin. apply (Permutation_in _ Hperm), filter_In in Hin as [Hin Hsel].
      apply (Hrec nd Hin Hsel). }
    exists kept. split; [exact Hkept|]. split; [exact Hperm|].
    split; [|split; [|split; [|exact Hsingle]]].
    + intros nd. split.
      * intros Hin. apply (Permutation_in _ Hperm), filter_In in Hin as [Hin Hsel].
        destruct (Hrec nd Hin Hsel) as (loc & c & Hr).
        unfold selected in Hsel.
        apply andb_prop in Hsel as [Hsel Hc]. apply andb_prop in Hsel as [Hd Hn].
        split; [exact Hin|]. split; [exact Hd|]. split; [apply negb_true_iff, Hn|].
        exists loc, c. split; [exact Hr|].
        apply existsb_exists in Hc as (c' & Hc' & Hch).
        rewrite (record_in_channel _ loc c c' Hr) in Hch.
        apply Z.eqb_eq in Hch. subst c'. exact Hc'.
      * intros (Hin & Hd & Hn & loc & c & Hr & Hc).
        apply (Permutation_in _ (Permutation_sym Hperm)), filter_In.
        split; [exact Hin|]. unfold selected. rewrite Hd, Hn. cbn [andb negb].
        apply existsb_exists. exists c. split; [exact Hc|].
        rewrite (record_in_channel _ loc c c Hr). apply Z.eqb_refl.
    + eapply StronglySorted_weaken; [|exact Hsort].
      intros x y Hxy lx cx ly cy Hx Hy. cbv beta in Hxy.
      rewrite (record_loc_index x lx cx Hx), (record_loc_index y ly cy Hy) in Hxy.
      exact Hxy.
    + intros k. specialize (Hstable k). rewrite Hfilter in Hstable.
      rewrite (filter_ext_in (at_location k) (fun x => Z.eqb (loc_index x) k) kept).
      2:{ intros nd Hin. destruct (Hkrec nd Hin) as (loc & c & Hr).
          apply (record_at_location nd loc c k Hr). }
      rewrite (filter_ext_in (at_location k) (fun x => Z.eqb (loc_index x) k)
                 (List.filter (selected dc) (h5visit members))).
      2:{ intros nd Hin. apply filter_In in Hin as [Hin Hsel].
          destruct (Hrec nd Hin Hsel) as (loc & c & Hr).
          apply (record_at_location nd loc c k Hr). }
      exact Hstable.
Qed.

Lemma ExtractLine_selects_and_orders_witness :
  exists kept,
    kept_records Samples.mixed_root 0 [None; None] (Many [0; 2]%Z) = Return kept
    /\ map fst kept = [ "location_2/datacapture_0/echogram_0";
                        "location_2/datacapture_2/echogram_0";
                        "location_10/datacapture_0/echogram_0";
                        "location_10/datacapture_2/echogram_0" ].
Proof.
  destruct (ExtractLine_selects_and_orders Samples.mixed_root 0 (Many [0; 2]%Z)
              Samples.mixed_line) as (kept & Hk & _).
  - reflexivity.
  - repeat (constructor;
              [intros H1 H2;
               first [ discriminate H1
                     | (exists 10%Z, 0%Z, "echogram_0"; split; reflexivity)
                     | (exists 10%Z, 1%Z, "echogram_0"; split; reflexivity)
                     | (exists 10%Z, 2%Z, "echogram_0"; split; reflexivity)
                     | (exists 2%Z, 0%Z, "echogram_0"; split; reflexivity)
                     | (exists 2%Z, 1%Z, "echogram_0"; split; reflexivity)
                     | (exists 2%Z, 2%Z, "echogram_0"; split; reflexivity)
                     | (vm_compute in H2; discriminate H2) ]|]).
    constructor.
  - exists kept. split; [exact Hk|]. vm_compute in Hk. injection Hk as <-. reflexivity.
Defined.

End Selection.

(** Channels 0 and 2 of the two locations, by location number; a channel
    that no location carries selects nothing. *)
Example ExtractLine_mixed_channels :
  option_map g_data
    (match snd (ExtractLine (RL := Sample.fid_list) Samples.mixed_survey 0 [None; None]
                  (Many [0; 2]%Z) Samples.mixed_world) with
     | Return g => g
     | Raise _ => None
     end)
  = Some {| shape := (2, 4); rows := [ [4; 7; 1; 3]; [5; 0; 0; 0] ]%Z |}
  /\ kept_records Samples.mixed_root 0 [None; None] (Single 7) = Return []
  /\ kept_records Samples.mixed_root 0 [None; None] (Single 1)
     = kept_records Samples.mixed_root 0 [None; None] (Many [1; 1]%Z).
Proof. repeat split; vm_compute; reflexivity. Qed.

(** * Channels in a line, by the place of the line *)

Section Channels.

Lemma filter_length_perm {A} (p : A -> bool) (l l' : list A) :
  Permutation l l' -> length (List.filter p l) = length (List.filter p l').
Proof.
  induction 1 as [|x l l' _ IH|x y l|l l' l'' _ IH1 _ IH2]; cbn [List.filter].
  - reflexivity.
  - destruct (p x); cbn [length]; rewrite IH; reflexivity.
  - destruct (p x), (p y); reflexivity.
  - rewrite IH1. exact IH2.
Qed.

(** In a list sorted by a key that no two elements share, an element stands
    behind as many elements as have a smaller key. *)
Lemma sorted_position {A} (h : A -> Z) (r : list A) (x : A) :
  StronglySorted (fun a b => (h a <= h b)%Z) r ->
  List.NoDup (map h r) ->
  In x r ->
  r !! length (List.filter (fun y => Z.ltb (h y) (h x)) r) = Some x.
Proof.
  induction 1 as [|a r Hs IH Hall]; intros Hnd Hin; [destruct Hin|].
  cbn [map] in Hnd. inversion Hnd as [|? ? Hnotin Hnd']; subst.
  cbn [List.filter].
  destruct Hin as [->|Hin].
  - rewrite Z.ltb_irrefl.
    assert (Hnone : List.filter (fun y => Z.ltb (h y) (h x)) r = []).
    { clear - Hall. induction Hall as [|y r Hy _ IH]; [reflexivity|].
      cbn [List.filter]. destruct (Z.ltb_spec (h y) (h x)); [lia | exact IH]. }
    rewrite Hnone. reflexivity.
  - assert (Hlt : (h a < h x)%Z).
    { rewrite Forall_forall in Hall.
      pose proof (Hall x (proj2 (list_elem_of_In _ _) Hin)) as Hle.
      destruct (Z.eq_dec (h a) (h x)) as [E|N]; [|lia].
      exfalso. apply Hnotin. rewrite E. apply in_map, Hin. }
    apply Z.ltb_lt in Hlt. rewrite Hlt. cbn [length]. apply (IH Hnd' Hin).
Qed.

Lemma line_index_line_name (n : Z) : line_index (line_name n) = n.
Proof. unfold line_index, line_name. rewrite line_key_layout. reflexivity. Qed.

(** [GetLines] on a store whose lines are numbered: the line with number
    [n] stands at the place [rank numbers n]. *)
Lemma GetLines_rank (self : Survey) (w : world) (root : h5group) (numbers : list Z) (n : Z) :
  w_fs w !! sv_datafile self = Some (H5File root) ->
  List.filter is_line_name (h5keys root) = map line_name numbers ->
  List.NoDup numbers ->
  In n numbers ->
  exists lines,
    GetLines self w
    = ({| w_fs := w_fs w; w_opened := (w_opened w ++ [sv_datafile self])%list |},
       Return lines)
    /\ PyStr.index lines (rank numbers n) = Return (line_name n).
Proof.
  intros Hw Hnames Hnd Hn. rewrite (GetLines_opens _ _ _ Hw).
  change (List.filter _ (h5keys root)) with (List.filter is_line_name (h5keys root)).
  rewrite Hnames.
  destruct (sort_by_key_total line_key line_index (map line_name numbers))
    as (lines & Hsort & Hperm & Hsorted & _).
  { rewrite Forall_map. apply Forall_forall. intros m _.
    rewrite line_index_line_name. apply line_key_layout. }
  exists lines. split; [rewrite Hsort; reflexivity|].
  unfold rank. apply index_lookup.
  assert (Hkeys : map line_index (map line_name numbers) = numbers).
  { rewrite map_map. rewrite <- (map_id numbers) at 2.
    apply map_ext. intros m. apply line_index_line_name. }
  assert (Hcount : length (List.filter (fun m => Z.ltb m n) numbers)
                   = length (List.filter
                               (fun y => Z.ltb (line_index y) (line_index (line_name n)))
                               lines)).
  { rewrite (filter_length_perm _ _ _ Hperm), line_index_line_name.
    clear. induction numbers as [|m numbers IH]; [reflexivity|].
    cbn [map List.filter]. rewrite line_index_line_name.
    destruct (Z.ltb m n); cbn [length]; rewrite IH; reflexivity. }
  rewrite Hcount. apply sorted_position.
  - exact Hsorted.
  - eapply Permutation_NoDup; [apply Permutation_map, Permutation_sym, Hperm|].
    rewrite Hkeys. exact Hnd.
  - apply (Permutation_in _ (Permutation_sym Hperm)), in_map, Hn.
Qed.

Lemma group_len (loc : h5obj) : is_group loc = true -> h5len loc = length (members_of loc).
Proof. destruct loc as [d|ms]; [discriminate | reflexivity]. Qed.

Lemma location_ok_members (loc : h5obj) :
  location_ok loc = true -> length (members_of loc) = length (channel_groups loc).
Proof.
  intros H. rewrite <- location_ok_len by exact H.
  destruct loc as [d|ms]; [discriminate | reflexivity].
Qed.

(** C8, as the code has it.  [GetChannelsInLine] takes its argument as a
    place in the list of lines sorted by number, not as a line number: on a
    store whose lines are numbered [numbers], the answer for the line with
    number [n] comes from the argument [rank numbers n], the count of lines
    with a smaller number, which is [n] only where the lines are numbered
    from 0 without gaps.  For a line whose locations are groups the answer
    is the largest number of members of a location, which is the number of
    its channel groups where the location holds nothing else; a line with
    no location raises [EmptyLineError]. *)
Theorem GetChannelsInLine_answers_by_place
    (self : Survey) (w : world) (root locs : h5group) (numbers : list Z) (n : Z) :
  w_fs w !! sv_datafile self = Some (H5File root) ->
  List.filter is_line_name (h5keys root) = map line_name numbers ->
  List.NoDup numbers ->
  In n numbers ->
  h5get root (line_name n) = Return (Group locs) ->
  List.NoDup (h5keys locs) ->
  forallb (fun m => is_group (snd m)) locs = true ->
  snd (GetChannelsInLine self (rank numbers n) w)
  = match locs with
    | [] => Raise EmptyLineError
    | _ :: _ => Return (list_max (map (fun m => length (members_of (snd m))) locs))
    end
  /\ (forallb (fun m => location_ok (snd m)) locs = true ->
      list_max (map (fun m => length (members_of (snd m))) locs)
      = list_max (map (fun m => length (channel_groups (snd m))) locs)).
Proof.
  intros Hw Hnames Hnd Hn Hline Hlocs Hgroups. split.
  - destruct (GetLines_rank self w root numbers n Hw Hnames Hnd Hn) as (lines & Hl & Hidx).
    unfold GetChannelsInLine.
    rewrite Hl, (obind_Return (Return lines) _ lines eq_refl), Hidx.
    unfold mbind at 1, M_bind, bind, h5open. cbn [w_fs]. rewrite Hw.
    unfold lift. cbn [snd].
    rewrite (obind_Return _ _ _ Hline). cbn [h5members].
    rewrite (obind_Return (Return locs) _ locs eq_refl).
    destruct locs as [|m locs']; [reflexivity|].
    set (locs := m :: locs') in *.
    replace (Nat.eqb (length (h5keys locs)) 0) with false by reflexivity.
    assert (Hlen : forall x, In x locs ->
              (o ← h5get locs (fst x); Return (h5len o))
              = Return (length (members_of (snd x)))).
    { intros [name o] Hin. cbn [fst snd].
      rewrite (obind_Return _ _ _ (h5get_NoDup locs name o Hlocs Hin)).
      rewrite group_len; [reflexivity|].
      apply (proj1 (forallb_forall _ _) Hgroups (name, o) Hin). }
    unfold h5keys at 1.
    rewrite (obind_Return _ _ _
               (omap_map_In (fun loc => o ← h5get locs loc; Return (h5len o)) fst
                            (fun x => length (members_of (snd x))) locs Hlen)).
    apply py_max_list_max. discriminate.
  - intros Hok. f_equal. apply map_ext_in. intros m Hm.
    apply location_ok_members. apply (proj1 (forallb_forall _ _) Hok m Hm).
Qed.

Lemma GetChannelsInLine_answers_by_place_witness :
  snd (GetChannelsInLine Samples.gap_survey 2 Samples.gap_world) = Return 4.
Proof.
  refine (proj1 (GetChannelsInLine_answers_by_place Samples.gap_survey Samples.gap_world
                   Samples.gap_root Samples.gap_line10 [1; 10; 2]%Z 10 _ _ _ _ _ _ _)).
  - vm_compute. reflexivity.
  - reflexivity.
  - repeat constructor; cbn; intuition discriminate.
  - right. left. reflexivity.
  - reflexivity.
  - repeat constructor; cbn; intuition discriminate.
  - reflexivity.
Defined.

(** The lines of this survey are numbered 1, 2 and 10, with one, two and
    three channels.  Asked for line 1 the method answers for line 2, asked
    for line 2 it answers for line 10, counting the note beside the three
    channel groups, and asked for line 10 it fails in its handler; line 1 is
    reached as line 0. *)
Example GetChannelsInLine_line_numbers :
  (snd (GetChannelsInLine Samples.gap_survey 1 Samples.gap_world),
   snd (GetChannelsInLine Samples.gap_survey 2 Samples.gap_world),
   snd (GetChannelsInLine Samples.gap_survey 10 Samples.gap_world),
   snd (GetChannelsInLine Samples.gap_survey 0 Samples.gap_world))
  = (Return 2, Return 4, Raise TypeError, Return 1)
  /\ map (fun m => length (channel_groups (snd m))) Samples.gap_line1 = [1]
  /\ map (fun m => length (channel_groups (snd m))) Samples.gap_line2 = [2]
  /\ map (fun m => length (channel_groups (snd m))) Samples.gap_line10 = [3].
Proof. repeat split; vm_compute; reflexivity. Qed.

End Channels.
